(** * EmiralUserData: the client-side user-data manager of js/auth-popups.js

    A shallow embedding of the [EmiralUserData] object (js/auth-popups.js,
    "CENTRALIZED USER DATA MANAGER") and of [generateUserAvatar] and
    [isSessionValid] (js/dashboard.js), followed by the properties its
    specification states and by further properties of the code.

    Modelling conventions.
    - JavaScript values are the inductive [value]: JSON data, [undefined],
      [NaN] and the built-in functions that an object literal inherits from
      [Object.prototype].  An object is the list of its own properties in
      insertion order.  What callers pass in is data: it holds no function
      of their own, no getter and no [toJSON].
    - Strings are sequences of code units below 256.  Numbers are exact
      rationals; the rounding of double arithmetic is not modelled, so
      that a figure of [_calculateUsage] can differ by one from the one
      that the engine computes.
    - A value used as a property key is converted as the engine does it,
      through [toString] and [valueOf] for an object, and the conversion
      can throw ([ToPropertyKey]); [js_ToString] is the text of a value
      that holds no property named [toString] or [valueOf].
    - The JavaScript engine and the browser are the class [Host]: parsing
      and printing of dates, local-time arithmetic, [Math.sin],
      [Math.random], parsing and printing of numbers, case mapping.  Every
      property is proved for an arbitrary host; [utc_host] is an instance
      on which the examples run.
    - The manager's mutable state ([_state], [localStorage], the clock) and
      what it emits (console lines, listener calls, window events, messages
      to other tabs) form the record [State]; a method is a function from
      the state to an outcome (a returned value or a thrown exception) and
      the next state.  [new Date()] reads the same clock value throughout
      one call.
    - [localStorage] is available and accepts every write, so that
      [_initializeStorage] leaves [_useMemoryStorage] unset; what the
      methods do on a storage that throws is not described.  A stored text
      is [TJson v], the text that [JSON.stringify] gives for [v], or
      [TRaw s], a text that [JSON.parse] rejects.
    - A listener is a callback with an identity; called with a payload it
      returns or throws, and it does not call back into the manager.
    - The scripts run in strict mode: an assignment to a property of a
      primitive value throws a TypeError.
    - The record that [getUserData] returns is the cached object itself.
      Where the source writes to a property of it ([updateSettings],
      [_syncWithServer]) the write is made to the cache; the payload of an
      event is recorded as the value it had when the event was dispatched.
    - What a page holds beside the manager, [sessionStorage] and
      [window.gtag], is the record [Page]; [navigator.onLine] is an
      argument of the method that reads it. *)

From Stdlib Require Import ZArith QArith Qround Qabs Ascii String List Bool Lia.
From stdpp Require Import base option list strings pretty gmap.

Set Warnings "-register-all".
Local Open Scope string_scope.
Local Open Scope Z_scope.

(** ** JavaScript values *)

Inductive value : Type :=
| VUndef
| VNull
| VBool (b : bool)
| VNum (q : Q)
| VNaN
| VStr (s : string)
| VArr (xs : list value)
| VObj (kvs : list (string * value))
| VFun (name : string).

Definition props := list (string * value).

Definition VInt (z : Z) : value := VNum (inject_Z z).

(** ToBoolean. *)
Definition truthy (v : value) : bool :=
  match v with
  | VUndef | VNull | VNaN => false
  | VBool b => b
  | VNum q => negb (Qeq_bool q 0)
  | VStr s => negb (String.eqb s "")
  | VArr _ | VObj _ | VFun _ => true
  end.

(** [a || b] on values. *)
Definition js_or (a b : value) : value := if truthy a then a else b.

(** Own property lookup of an object literal. *)
Fixpoint own_get (kvs : props) (k : string) : option value :=
  match kvs with
  | [] => None
  | (k', v) :: rest => if String.eqb k' k then Some v else own_get rest k
  end.

(** Assignment to a property: an existing key keeps its position. *)
Fixpoint obj_set (kvs : props) (k : string) (v : value) : props :=
  match kvs with
  | [] => [(k, v)]
  | (k', v') :: rest =>
      if String.eqb k' k then (k, v) :: rest else (k', v') :: obj_set rest k v
  end.

(** [{...a, ...b}]: the properties of [b] are assigned over those of [a]. *)
Definition obj_assign (a b : props) : props :=
  fold_left (fun acc kv => obj_set acc (fst kv) (snd kv)) b a.

(** The rest of an object after removing the keys [ks]
    ([const { k1, k2, ...rest } = o]). *)
Definition obj_without (ks : list string) (kvs : props) : props :=
  List.filter (fun kv => negb (existsb (String.eqb (fst kv)) ks)) kvs.

(** The properties of [Object.prototype], which every object literal
    inherits: the functions with their [name], and [__proto__]. *)
Definition Object_prototype_functions : list (string * string) :=
  [ ("constructor", "Object");
    ("hasOwnProperty", "hasOwnProperty");
    ("isPrototypeOf", "isPrototypeOf");
    ("propertyIsEnumerable", "propertyIsEnumerable");
    ("toLocaleString", "toLocaleString");
    ("toString", "toString");
    ("valueOf", "valueOf");
    ("__defineGetter__", "__defineGetter__");
    ("__defineSetter__", "__defineSetter__");
    ("__lookupGetter__", "__lookupGetter__");
    ("__lookupSetter__", "__lookupSetter__") ].

Fixpoint assoc_str (l : list (string * string)) (k : string) : option string :=
  match l with
  | [] => None
  | (k', v) :: rest => if String.eqb k' k then Some v else assoc_str rest k
  end.

Definition inherited_get (k : string) : value :=
  match assoc_str Object_prototype_functions k with
  | Some n => VFun n
  | None => if String.eqb k "__proto__" then VObj [] else VUndef
  end.

(** Number of code units of a string, as a number. *)
Definition str_length (s : string) : Z := Z.of_nat (String.length s).

(** The own enumerable properties that a spread [{...v}] copies. *)
Fixpoint indexed {A} (f : A -> value) (i : nat) (l : list A) : props :=
  match l with
  | [] => []
  | x :: rest => (pretty i, f x) :: indexed f (S i) rest
  end.

Definition spread_props (v : value) : props :=
  match v with
  | VObj kvs => kvs
  | VArr xs => indexed (fun x => x) 0 xs
  | VStr s => indexed (fun c => VStr (String c "")) 0 (list_ascii_of_string s)
  | _ => []
  end.

(** Outcome of evaluating an expression: a value or a thrown exception
    (carried as its message). *)
Inductive outcome (A : Type) : Type :=
| Ret (a : A)
| Throw (e : string).
Arguments Ret {A} a.
Arguments Throw {A} e.

(** [v.k] and [v[k]].  Reading a property of [undefined] or [null] throws a
    TypeError.  An object answers with its own property, then with what it
    inherits from [Object.prototype]; a string and an array answer with
    their elements and their [length], a function with its [name].  The
    methods that strings, numbers, booleans, arrays and functions get from
    their own prototypes are not listed: the source reads a property under
    a computed key only in [usage[metric]] and [permissions[feature]]. *)
Definition get_prop (v : value) (k : string) : outcome value :=
  match v with
  | VUndef => Throw ("TypeError: Cannot read properties of undefined (reading '" ++ k ++ "')")
  | VNull => Throw ("TypeError: Cannot read properties of null (reading '" ++ k ++ "')")
  | VObj _ =>
      match own_get (spread_props v) k with
      | Some x => Ret x
      | None => Ret (inherited_get k)
      end
  | VStr s =>
      match own_get (spread_props v) k with
      | Some x => Ret x
      | None =>
          if String.eqb k "length" then Ret (VInt (str_length s)) else Ret (inherited_get k)
      end
  | VArr xs =>
      match own_get (spread_props v) k with
      | Some x => Ret x
      | None =>
          if String.eqb k "length" then Ret (VInt (Z.of_nat (length xs)))
          else Ret (inherited_get k)
      end
  | VFun n => if String.eqb k "name" then Ret (VStr n) else Ret (inherited_get k)
  | VBool _ | VNum _ | VNaN => Ret (inherited_get k)
  end.

(** [v?.k]. *)
Definition get_prop_opt (v : value) (k : string) : value :=
  match get_prop v k with
  | Ret x => x
  | Throw _ => VUndef
  end.

(** What [JSON.parse (JSON.stringify v)] gives back: properties holding
    [undefined] or a function are dropped, such array elements and [NaN]
    become [null]. *)
Fixpoint json_clean (v : value) : value :=
  match v with
  | VNaN => VNull
  | VArr xs =>
      VArr (map (fun x => match x with
                          | VUndef | VFun _ => VNull
                          | _ => json_clean x
                          end) xs)
  | VObj kvs =>
      VObj ((fix go (l : props) : props :=
               match l with
               | [] => []
               | (k, VUndef) :: rest => go rest
               | (k, VFun _) :: rest => go rest
               | (k, x) :: rest => (k, json_clean x) :: go rest
               end) kvs)
  | _ => v
  end.

(** A text held by [localStorage]. *)
Inductive text : Type :=
| TJson (v : value)
| TRaw (s : string).

(** [JSON.stringify v] as a stored text; for [undefined] and functions
    [setItem] stores the text "undefined", which is not JSON. *)
Definition JSON_stringify (v : value) : text :=
  match v with
  | VUndef | VFun _ => TRaw "undefined"
  | _ => TJson (json_clean v)
  end.

(** ** Strings *)

Definition char_code (c : ascii) : Z := Z.of_nat (nat_of_ascii c).

(** The code units below 256 that [\s] and [trim] treat as white space. *)
Definition is_space (c : ascii) : bool :=
  existsb (Z.eqb (char_code c)) [9; 10; 11; 12; 13; 32; 160].

Fixpoint drop_spaces (s : string) : string :=
  match s with
  | String c rest => if is_space c then drop_spaces rest else s
  | EmptyString => EmptyString
  end.

Definition rev_string (s : string) : string :=
  string_of_list_ascii (rev (list_ascii_of_string s)).

(** [s.trim()]. *)
Definition trim (s : string) : string :=
  rev_string (drop_spaces (rev_string (drop_spaces s))).

(** [s.split(/\s+/)]: [cur] is the part being read (reversed) and
    [in_gap] tells whether the previous code unit was white space. *)
Fixpoint split_ws_go (s : list ascii) (cur : list ascii) (in_gap : bool) : list string :=
  match s with
  | [] => [string_of_list_ascii (rev cur)]
  | c :: rest =>
      if is_space c then
        if in_gap then split_ws_go rest cur true
        else string_of_list_ascii (rev cur) :: split_ws_go rest [] true
      else split_ws_go rest (c :: cur) false
  end.

Definition split_ws (s : string) : list string :=
  split_ws_go (list_ascii_of_string s) [] false.

(** [s[0]]. *)
Definition first_char (s : string) : value :=
  match s with
  | String c _ => VStr (String c "")
  | EmptyString => VUndef
  end.

(** [s.substring(0, 2)]. *)
Definition substring02 (s : string) : string := String.substring 0 2 s.

(** [s.split('@')[0]]. *)
Fixpoint before_at (s : string) : string :=
  match s with
  | String c rest => if Ascii.eqb c "@" then "" else String c (before_at rest)
  | EmptyString => ""
  end.

Fixpoint is_prefix (p s : string) : bool :=
  match p, s with
  | EmptyString, _ => true
  | String a p', String b s' => Ascii.eqb a b && is_prefix p' s'
  | String _ _, EmptyString => false
  end.

(** [s.includes(sub)]. *)
Fixpoint includes (s sub : string) : bool :=
  is_prefix sub s ||
  match s with
  | String _ rest => includes rest sub
  | EmptyString => false
  end.

Fixpoint join (sep : string) (l : list string) : string :=
  match l with
  | [] => ""
  | [x] => x
  | x :: rest => x ++ sep ++ join sep rest
  end.

(** Decimal text of an integer. *)
Definition Z_to_string (z : Z) : string := pretty z.

(** ** The host: engine and browser built-ins *)

Class Host : Type := {
  (** [Date.parse s]; [None] is [NaN]. *)
  Date_parse : string -> option Z;
  (** [new Date(t).toISOString()]. *)
  Date_toISOString : Z -> string;
  (** [d.setFullYear(d.getFullYear() + n)] on the date of time value [t],
      in local time. *)
  Date_plusYears : Z -> Z -> Z;
  (** [d.setDate(d.getDate() + n)] on the date of time value [t], in local
      time. *)
  Date_plusDays : Z -> Z -> Z;
  (** [d.toLocaleDateString('en-US', {year: 'numeric', month: 'long',
      day: 'numeric'})]; [None] is the invalid date. *)
  Date_toLocaleDateString : option Z -> string;
  (** [Math.sin]. *)
  Math_sin : Q -> Q;
  (** [Math.random().toString(36).substr(2, 9)] of the n-th draw. *)
  Math_random36 : nat -> string;
  (** [String(x)] for a number [x]. *)
  Number_toString : Q -> string;
  (** [parseFloat s]; [None] is [NaN]. *)
  parseFloat : string -> option Q;
  (** [parseInt s]; [None] is [NaN]. *)
  parseInt : string -> option Z;
  (** [Number(s)] for a string [s]; [None] is [NaN]. *)
  String_toNumber : string -> option Q;
  (** [x.toFixed(2)]. *)
  Number_toFixed2 : Q -> string;
  String_toLowerCase : string -> string;
  String_toUpperCase : string -> string;
  (** Whether [window.BroadcastChannel] exists. *)
  has_BroadcastChannel : bool
}.

Section Engine.
Context {H : Host}.

(** ToString. *)
Fixpoint js_ToString (v : value) : string :=
  match v with
  | VUndef => "undefined"
  | VNull => "null"
  | VBool true => "true"
  | VBool false => "false"
  | VNum q => Number_toString q
  | VNaN => "NaN"
  | VStr s => s
  | VArr xs =>
      join "," (map (fun x => match x with
                              | VUndef | VNull => ""
                              | _ => js_ToString x
                              end) xs)
  | VObj _ => "[object Object]"
  | VFun n => "function " ++ n ++ "() { [native code] }"
  end.

(** Whether a value is an object in the sense of the language: not a
    primitive value. *)
Definition is_object (v : value) : bool :=
  match v with
  | VArr _ | VObj _ | VFun _ => true
  | _ => false
  end.

(** [f.call(o)], without arguments, for a function [f] of
    [Object.prototype] other than [toLocaleString] and an object [o] with
    the own properties [kvs]: [Object()] makes an object,
    [hasOwnProperty()] and [propertyIsEnumerable()] ask for the property
    named ["undefined"], [__lookupGetter__()] and [__lookupSetter__()] find
    no accessor, [__defineGetter__()] and [__defineSetter__()] refuse
    [undefined] as accessor. *)
Definition call_on_object (f : string) (kvs : props) : outcome value :=
  if String.eqb f "toString" then Ret (VStr "[object Object]")
  else if String.eqb f "valueOf" then Ret (VObj kvs)
  else if String.eqb f "Object" then Ret (VObj [])
  else if String.eqb f "hasOwnProperty" || String.eqb f "propertyIsEnumerable" then
    Ret (VBool (match own_get kvs "undefined" with Some _ => true | None => false end))
  else if String.eqb f "isPrototypeOf" then Ret (VBool false)
  else if String.eqb f "__lookupGetter__" || String.eqb f "__lookupSetter__" then Ret VUndef
  else Throw ("TypeError: Object.prototype." ++ f ++ ": Expecting function").

(** [f.call(o)] for every function of [Object.prototype]:
    [toLocaleString] calls [o.toString()]. *)
Definition call_method (f : string) (kvs : props) : outcome value :=
  if String.eqb f "toLocaleString" then
    match get_prop (VObj kvs) "toString" with
    | Ret (VFun g) =>
        if String.eqb g "toLocaleString"
        then Throw "RangeError: Maximum call stack size exceeded"
        else call_on_object g kvs
    | _ => Throw "TypeError: this.toString is not a function"
    end
  else call_on_object f kvs.

(** OrdinaryToPrimitive with the hint string, on an object with the own
    properties [kvs]: [toString] and then [valueOf] are tried, each when it
    is a function, and the first result that is not an object is taken. *)
Definition OrdinaryToPrimitive (kvs : props) : outcome value :=
  let try (name : string) (otherwise : outcome value) : outcome value :=
    match get_prop (VObj kvs) name with
    | Ret (VFun f) =>
        match call_method f kvs with
        | Ret r => if is_object r then otherwise else Ret r
        | Throw e => Throw e
        end
    | _ => otherwise
    end in
  try "toString"
    (try "valueOf" (Throw "TypeError: Cannot convert object to primitive value")).

(** ToString as the engine performs it, and ToPropertyKey: the conversion
    of an object goes through its [toString] and [valueOf] and can throw;
    an array joins the texts of its elements.  Where it returns for a
    value that holds no property named [toString] or [valueOf], the text
    is [js_ToString] of the value. *)
Fixpoint ToString (v : value) : outcome string :=
  match v with
  | VArr xs =>
      match (fix texts (l : list value) : outcome (list string) :=
               match l with
               | [] => Ret []
               | x :: rest =>
                   match (match x with
                          | VUndef | VNull => Ret ""
                          | _ => ToString x
                          end) with
                   | Throw e => Throw e
                   | Ret t =>
                       match texts rest with
                       | Throw e => Throw e
                       | Ret ts => Ret (t :: ts)
                       end
                   end
               end) xs with
      | Ret ts => Ret (join "," ts)
      | Throw e => Throw e
      end
  | VObj kvs =>
      match OrdinaryToPrimitive kvs with
      | Ret p => Ret (js_ToString p)
      | Throw e => Throw e
      end
  | _ => Ret (js_ToString v)
  end.

Definition ToPropertyKey (k : value) : outcome string := ToString k.

(** The properties [caller] and [arguments] that a built-in function
    inherits are accessors that throw. *)
Definition restricted (o : value) (key : string) : bool :=
  match o with
  | VFun _ => String.eqb key "caller" || String.eqb key "arguments"
  | _ => false
  end.

(** [o[k]] for a key that is a value: [undefined] and [null] have no
    properties; otherwise the key is converted, which can throw, and the
    property is read. *)
Definition get_index (o k : value) : outcome value :=
  match o with
  | VUndef | VNull => get_prop o (js_ToString k)
  | _ =>
      match ToPropertyKey k with
      | Ret key =>
          if restricted o key
          then Throw "TypeError: 'caller', 'callee', and 'arguments' properties may not be accessed on strict mode functions or the arguments objects for calls to them"
          else get_prop o key
      | Throw e => Throw e
      end
  end.

Definition Qtruncate (q : Q) : Z :=
  if Qle_bool 0 q then Qfloor q else Qceiling q.

(** The time value of [new Date(v)]; [None] is the invalid date. *)
Definition new_Date (v : value) : option Z :=
  match v with
  | VUndef | VNaN => None
  | VNull => Some 0
  | VBool b => Some (if b then 1 else 0)
  | VNum q =>
      if Qle_bool (Qabs q) (inject_Z 8640000000000000) then Some (Qtruncate q) else None
  | VStr s => Date_parse s
  | VArr _ | VObj _ | VFun _ => Date_parse (js_ToString v)
  end.

End Engine.

(** ** The manager's state *)

(** A listener: its identity and whether, called with a payload, it returns
    ([None]) or throws ([Some message]). *)
Record callback : Type := {
  cb_id : nat;
  cb_run : value -> option string
}.

Record State : Type := mkState {
  (** [Date.now()] *)
  clock : Z;
  (** number of [Math.random()] draws so far *)
  draws : nat;
  localStorage : gmap string text;
  (** [_state.currentUser] *)
  currentUser : value;
  (** [_state.listeners]: a Map from event names to Sets, in insertion order *)
  listeners : gmap string (list callback);
  (** [_state.syncInterval] *)
  syncInterval : option nat;
  (** [_state.offlineQueue] *)
  offlineQueue : list value;
  (** lines written to the console: level and text *)
  console : list (string * string);
  (** listener calls made: callback and payload *)
  invoked : list (nat * value);
  (** events dispatched on [window]: type and detail *)
  dispatched : list (string * value);
  (** messages posted on the BroadcastChannel: event and data *)
  posted : list (string * value)
}.

(** Time passes between two calls. *)
Definition set_clock (t : Z) (s : State) : State :=
  mkState t (draws s) (localStorage s) (currentUser s) (listeners s)
          (syncInterval s) (offlineQueue s) (console s) (invoked s) (dispatched s) (posted s).
Definition set_draws (n : nat) (s : State) : State :=
  mkState (clock s) n (localStorage s) (currentUser s) (listeners s)
          (syncInterval s) (offlineQueue s) (console s) (invoked s) (dispatched s) (posted s).
Definition set_localStorage (m : gmap string text) (s : State) : State :=
  mkState (clock s) (draws s) m (currentUser s) (listeners s)
          (syncInterval s) (offlineQueue s) (console s) (invoked s) (dispatched s) (posted s).
Definition set_currentUser (v : value) (s : State) : State :=
  mkState (clock s) (draws s) (localStorage s) v (listeners s)
          (syncInterval s) (offlineQueue s) (console s) (invoked s) (dispatched s) (posted s).
Definition set_listeners (l : gmap string (list callback)) (s : State) : State :=
  mkState (clock s) (draws s) (localStorage s) (currentUser s) l
          (syncInterval s) (offlineQueue s) (console s) (invoked s) (dispatched s) (posted s).
Definition set_syncInterval (i : option nat) (s : State) : State :=
  mkState (clock s) (draws s) (localStorage s) (currentUser s) (listeners s)
          i (offlineQueue s) (console s) (invoked s) (dispatched s) (posted s).
Definition set_offlineQueue (q : list value) (s : State) : State :=
  mkState (clock s) (draws s) (localStorage s) (currentUser s) (listeners s)
          (syncInterval s) q (console s) (invoked s) (dispatched s) (posted s).
Definition set_console (c : list (string * string)) (s : State) : State :=
  mkState (clock s) (draws s) (localStorage s) (currentUser s) (listeners s)
          (syncInterval s) (offlineQueue s) c (invoked s) (dispatched s) (posted s).
Definition set_invoked (c : list (nat * value)) (s : State) : State :=
  mkState (clock s) (draws s) (localStorage s) (currentUser s) (listeners s)
          (syncInterval s) (offlineQueue s) (console s) c (dispatched s) (posted s).
Definition set_dispatched (d : list (string * value)) (s : State) : State :=
  mkState (clock s) (draws s) (localStorage s) (currentUser s) (listeners s)
          (syncInterval s) (offlineQueue s) (console s) (invoked s) d (posted s).
Definition set_posted (d : list (string * value)) (s : State) : State :=
  mkState (clock s) (draws s) (localStorage s) (currentUser s) (listeners s)
          (syncInterval s) (offlineQueue s) (console s) (invoked s) (dispatched s) d.

(** ** Computations: state passing with exceptions *)

Definition M (A : Type) : Type := State -> outcome A * State.

Definition ret {A} (a : A) : M A := fun s => (Ret a, s).
Definition throw {A} (e : string) : M A := fun s => (Throw e, s).
Definition bind {A B} (m : M A) (k : A -> M B) : M B :=
  fun s => match m s with
           | (Ret a, s') => k a s'
           | (Throw e, s') => (Throw e, s')
           end.
(** [try { m } catch (error) { handler error }]. *)
Definition try_catch {A} (m : M A) (handler : string -> M A) : M A :=
  fun s => match m s with
           | (Ret a, s') => (Ret a, s')
           | (Throw e, s') => handler e s'
           end.
Definition lift {A} (o : outcome A) : M A := fun s => (o, s).
Definition gets {A} (f : State -> A) : M A := fun s => (Ret (f s), s).
Definition modify (f : State -> State) : M unit := fun s => (Ret tt, f s).

Notation "'let*' x ':=' m 'in' k" := (bind m (fun x => k))
  (at level 10, x name, m at level 100, k at level 200).
Notation "m ;; k" := (bind m (fun _ => k))
  (at level 100, k at level 200, right associativity).

(** ** Configuration ([config]) *)

Module config.

Module storage.
Definition prefix : string := "emiralai_".
Definition userDataKey : string := "user_data".
Definition subscriptionKey : string := "subscription".
Definition settingsKey : string := "settings".
End storage.

Definition strs (l : list string) : value := VArr (map VStr l).

Definition plans : props :=
  [ ("free", VObj
      [ ("id", VStr "free"); ("name", VStr "Free Plan"); ("displayName", VStr "Free");
        ("price", VInt 0); ("apiLimit", VInt 1000); ("storageLimit", VStr "10GB");
        ("modelsLimit", VInt 3); ("projectsLimit", VInt 5);
        ("supportLevel", VStr "community");
        ("features", strs [ "Basic AI features"; "Community support";
                            "Standard processing speed"; "Basic analytics" ]);
        ("color", VStr "#6c757d"); ("icon", VStr "fas fa-user") ]);
    ("basic", VObj
      [ ("id", VStr "basic"); ("name", VStr "Basic Plan"); ("displayName", VStr "Basic");
        ("price", VInt 29); ("apiLimit", VInt 10000); ("storageLimit", VStr "50GB");
        ("modelsLimit", VInt 10); ("projectsLimit", VInt 20);
        ("supportLevel", VStr "email");
        ("features", strs [ "All Free features"; "Advanced AI implementation";
                            "Email support (48h response)"; "Custom model training";
                            "API access"; "Data export" ]);
        ("color", VStr "#17a2b8"); ("icon", VStr "fas fa-star") ]);
    ("pro", VObj
      [ ("id", VStr "pro"); ("name", VStr "Pro Plan"); ("displayName", VStr "Professional");
        ("price", VInt 99); ("apiLimit", VInt 100000); ("storageLimit", VStr "500GB");
        ("modelsLimit", VInt 50); ("projectsLimit", VInt 100);
        ("supportLevel", VStr "priority");
        ("features", strs [ "All Basic features"; "Priority support (12h response)";
                            "Advanced analytics & insights"; "Team collaboration (5 users)";
                            "Custom integrations"; "White-label options";
                            "Advanced API features" ]);
        ("color", VStr "#6f42c1"); ("icon", VStr "fas fa-crown") ]);
    ("enterprise", VObj
      [ ("id", VStr "enterprise"); ("name", VStr "Enterprise Plan");
        ("displayName", VStr "Enterprise");
        ("price", VInt 299); ("apiLimit", VInt (-1)); ("storageLimit", VStr "Unlimited");
        ("modelsLimit", VInt (-1)); ("projectsLimit", VInt (-1));
        ("supportLevel", VStr "dedicated");
        ("features", strs [ "All Pro features"; "Dedicated support manager";
                            "Unlimited everything"; "Custom development";
                            "SLA guarantee"; "On-premise deployment";
                            "Unlimited team members"; "Advanced security features" ]);
        ("color", VStr "#dc3545"); ("icon", VStr "fas fa-building") ]) ].

Module features.
Definition enableNotifications : bool := true.
Definition enableAnalytics : bool := true.
Definition enableAutoSave : bool := true.
Definition enableDataSync : bool := true.
Definition enableOfflineMode : bool := true.
Definition debugMode : bool := false.
End features.

Module events.
Definition enableCustomEvents : bool := true.
Definition logEvents : bool := false.
End events.

End config.

(** ** Pure helpers of the manager *)

(** *** Email shape: [/^[^\s@]+@[^\s@]+\.[^\s@]+$/] *)

Definition email_char (c : ascii) : bool := negb (is_space c) && negb (Ascii.eqb c "@").

(** The longest prefix matched by [[^\s@]+] and what follows it. *)
Fixpoint span_email (s : list ascii) : list ascii * list ascii :=
  match s with
  | c :: rest =>
      if email_char c then let (a, b) := span_email rest in (c :: a, b) else ([], s)
  | [] => ([], [])
  end.

(** [[^\s@]+\.[^\s@]+$] on a run of admissible code units: a dot that is
    neither the first nor the last of them. *)
Definition has_inner_dot (l : list ascii) : bool :=
  match l with
  | [] => false
  | _ :: t => existsb (fun c => Ascii.eqb c ".") (removelast t)
  end.

Definition email_regex_test (s : string) : bool :=
  match span_email (list_ascii_of_string s) with
  | (_ :: _, at_sign :: rest) =>
      Ascii.eqb at_sign "@" && forallb email_char rest && has_inner_dot rest
  | _ => false
  end.

(** *** Avatar: hash, palette, SVG, base64 *)

(** ToInt32. *)
Definition to_int32 (z : Z) : Z :=
  let m := z mod 2 ^ 32 in if m <? 2 ^ 31 then m else m - 2 ^ 32.

(** One round of the loop
    [hash = ((hash << 5) - hash) + str.charCodeAt(i); hash = hash & hash]. *)
Definition hash_step (hash : Z) (c : ascii) : Z :=
  to_int32 (to_int32 (Z.shiftl hash 5) - hash + char_code c).

Definition string_hash (str : string) : Z :=
  fold_left hash_step (list_ascii_of_string str) 0.

(** The text of a template literal: a backquote stands for the double
    quote of the source. *)
Definition dquote : ascii := ascii_of_nat 34.
Definition tpl (s : string) : string :=
  string_of_list_ascii
    (map (fun c => if Ascii.eqb c "`" then dquote else c) (list_ascii_of_string s)).

(** [unescape(encodeURIComponent(s))]: the UTF-8 bytes of [s]. *)
Definition utf8 (s : string) : list Z :=
  flat_map (fun c => let n := char_code c in
                     if n <? 128 then [n]
                     else [Z.lor 192 (Z.shiftr n 6); Z.lor 128 (Z.land n 63)])
           (list_ascii_of_string s).

Definition b64_alphabet : list ascii :=
  list_ascii_of_string "ABCDEFGHIJKLMNOPQRSTUVWXYZabcdefghijklmnopqrstuvwxyz0123456789+/".

Definition b64 (n : Z) : ascii := nth (Z.to_nat n) b64_alphabet "="%char.

Fixpoint btoa_go (l : list Z) : list ascii :=
  match l with
  | a :: b :: c :: rest =>
      b64 (Z.shiftr a 2)
      :: b64 (Z.lor (Z.shiftl (Z.land a 3) 4) (Z.shiftr b 4))
      :: b64 (Z.lor (Z.shiftl (Z.land b 15) 2) (Z.shiftr c 6))
      :: b64 (Z.land c 63) :: btoa_go rest
  | [a; b] =>
      [ b64 (Z.shiftr a 2);
        b64 (Z.lor (Z.shiftl (Z.land a 3) 4) (Z.shiftr b 4));
        b64 (Z.shiftl (Z.land b 15) 2); "="%char ]
  | [a] => [ b64 (Z.shiftr a 2); b64 (Z.shiftl (Z.land a 3) 4); "="%char; "="%char ]
  | [] => []
  end.

(** [btoa]. *)
Definition btoa (bytes : list Z) : string := string_of_list_ascii (btoa_go bytes).

Section Avatar.
Context {H : Host}.

(** The initials of the avatar, before [toUpperCase]: the value of
    [initials] after the [if] of [_getDefaultAvatar]. *)
Definition avatar_initials (name email : value) : outcome value :=
  if truthy name && negb (match name with VStr "Guest User" => true | _ => false end) then
    match name with
    | VStr n =>
        let parts := split_ws (trim n) in
        let first := hd "" parts in
        if (2 <=? Z.of_nat (length parts))%Z then
          match first_char first, first_char (List.last parts "") with
          | VStr a, VStr b => Ret (VStr (a ++ b))
          | a, b => Ret (VStr (js_ToString a ++ js_ToString b))
          end
        else if (2 <=? str_length first)%Z then Ret (VStr (substring02 first))
        else Ret (first_char first)
    | _ => Throw "TypeError: name.trim is not a function"
    end
  else if truthy email && negb (match email with VStr "user@example.com" => true | _ => false end) then
    match email with
    | VStr e => Ret (VStr (substring02 (before_at e)))
    | _ => Throw "TypeError: email.split is not a function"
    end
  else Ret (VStr "U").

(** [x.toUpperCase()] and [x.toLowerCase()] on a value. *)
Definition toUpperCase (v : value) : outcome string :=
  match v with
  | VStr s => Ret (String_toUpperCase s)
  | VUndef => Throw "TypeError: Cannot read properties of undefined (reading 'toUpperCase')"
  | _ => Throw "TypeError: toUpperCase is not a function"
  end.

Definition toLowerCase (v : value) : outcome string :=
  match v with
  | VStr s => Ret (String_toLowerCase s)
  | _ => Throw "TypeError: toLowerCase is not a function"
  end.

(** [Math.abs(hash) % colors.length] for the hash of [str]. *)
Definition palette_index (colors : list string) (str : string) : Z :=
  Z.abs (string_hash str) mod Z.of_nat (length colors).

(** [colors[colorIndex]]. *)
Definition background_color (colors : list string) (str : string) : string :=
  nth (Z.to_nat (palette_index colors str)) colors "".

(** The generator shared by [_getDefaultAvatar] and [generateUserAvatar],
    which differ by the palette and by the text of the SVG. *)
Definition avatar (colors : list string) (svg1 svg2 svg3 : string) (userData : value)
  : outcome value :=
  let name := js_or (get_prop_opt userData "name") (VStr "Guest User") in
  let email := js_or (get_prop_opt userData "email") (VStr "user@example.com") in
  match avatar_initials name email with
  | Throw e => Throw e
  | Ret i =>
      match toUpperCase i with
      | Throw e => Throw e
      | Ret initials =>
          match toLowerCase (js_or email (js_or name (VStr "default"))) with
          | Throw e => Throw e
          | Ret str =>
              let backgroundColor := background_color colors str in
              let svg := svg1 ++ backgroundColor ++ svg2 ++ initials ++ svg3 in
              Ret (VStr ("data:image/svg+xml;base64," ++ btoa (utf8 svg)))
          end
      end
  end.

Definition _getDefaultAvatar_colors : list string :=
  [ "#FF6B6B"; "#4ECDC4"; "#45B7D1"; "#FFA07A"; "#98D8C8";
    "#F7DC6F"; "#BB8FCE"; "#85C1F2"; "#F8B739"; "#52C41A";
    "#1890FF"; "#722ED1"; "#EB2F96"; "#13C2C2"; "#FAAD14" ].

(** The text of the SVG around the colour and the initials. *)
Definition _getDefaultAvatar_svg1 : string := tpl "<svg xmlns=`http://www.w3.org/2000/svg` width=`100` height=`100` viewBox=`0 0 100 100`>
                <circle cx=`50` cy=`50` r=`50` fill=`".
Definition _getDefaultAvatar_svg2 : string := tpl "`/>
                <text x=`50%` y=`50%` font-family=`-apple-system, BlinkMacSystemFont, 'Segoe UI', Roboto, sans-serif` 
                      font-size=`40` font-weight=`600` fill=`#FFFFFF` text-anchor=`middle` 
                      dominant-baseline=`middle` style=`user-select: none;`>".
Definition _getDefaultAvatar_svg3 : string := tpl "</text>
            </svg>".

(** js/auth-popups.js, [EmiralUserData._getDefaultAvatar]. *)
Definition _getDefaultAvatar (userData : value) : outcome value :=
  avatar _getDefaultAvatar_colors
    _getDefaultAvatar_svg1 _getDefaultAvatar_svg2 _getDefaultAvatar_svg3 userData.

Definition generateUserAvatar_colors : list string :=
  [ "#FF6B6B"; "#4ECDC4"; "#45B7D1"; "#FFA07A"; "#98D8C8";
    "#F7DC6F"; "#BB8FCE"; "#85C1F2"; "#F8B739"; "#52C41A" ].

Definition generateUserAvatar_svg1 : string := tpl "<svg xmlns=`http://www.w3.org/2000/svg` width=`100` height=`100` viewBox=`0 0 100 100`>
        <circle cx=`50` cy=`50` r=`50` fill=`".
Definition generateUserAvatar_svg2 : string := tpl "`/>
        <text x=`50%` y=`50%` font-family=`-apple-system, BlinkMacSystemFont, 'Segoe UI', Roboto, sans-serif` 
              font-size=`40` font-weight=`600` fill=`#FFFFFF` text-anchor=`middle` 
              dominant-baseline=`middle`>".
Definition generateUserAvatar_svg3 : string := tpl "</text>
    </svg>".

(** js/dashboard.js, [generateUserAvatar]. *)
Definition generateUserAvatar (userData : value) : outcome value :=
  avatar generateUserAvatar_colors
    generateUserAvatar_svg1 generateUserAvatar_svg2 generateUserAvatar_svg3 userData.

End Avatar.

(** ** Numbers that may be [NaN] *)

Definition jnum : Type := option Q.

Definition of_jnum (n : jnum) : value :=
  match n with
  | Some q => VNum q
  | None => VNaN
  end.

Definition jlift2 (f : Q -> Q -> Q) (a b : jnum) : jnum :=
  match a, b with
  | Some x, Some y => Some (f x y)
  | _, _ => None
  end.

(** [a > 0]. *)
Definition jpositive (a : jnum) : bool :=
  match a with
  | Some x => negb (Qle_bool x 0)
  | None => false
  end.

Definition Qmin (a b : Q) : Q := if Qle_bool a b then a else b.
Definition Qmax (a b : Q) : Q := if Qle_bool a b then b else a.

(** [Math.ceil(a / b)] for integers, [b] positive. *)
Definition ceil_div (a b : Z) : Z := - ((- a) / b).

(** [v === "s"]. *)
Definition is_str (v : value) (s : string) : bool :=
  match v with
  | VStr x => String.eqb x s
  | _ => false
  end.

(** [keys.indexOf(v)]: strict equality finds strings only. *)
Fixpoint index_from (i : Z) (keys : list string) (s : string) : Z :=
  match keys with
  | [] => -1
  | k :: rest => if String.eqb k s then i else index_from (i + 1) rest s
  end.

Definition indexOf (keys : list string) (v : value) : Z :=
  match v with
  | VStr s => index_from 0 keys s
  | _ => -1
  end.

Notation "'let?' x ':=' o 'in' k" :=
  (match o with Ret x => k | Throw e => Throw e end)
  (at level 10, x name, o at level 100, k at level 200).

(** ** The methods of [EmiralUserData] *)

Section Manager.
Context {H : Host}.

(** ToNumber. *)
Definition ToNumber (v : value) : jnum :=
  match v with
  | VNum q => Some q
  | VNull => Some 0%Q
  | VBool b => Some (if b then 1%Q else 0%Q)
  | VStr s => String_toNumber s
  | VArr _ => String_toNumber (js_ToString v)
  | VUndef | VNaN | VObj _ | VFun _ => None
  end.

(** [Object.keys(this.config.plans)]. *)
Definition planHierarchy : list string := map fst config.plans.

(** The plan that [this.config.plans[planId]] gives; [undefined] stands
    also for the access that throws, because [planId] converts to no
    property key.  [getUserData] and [_calculateUsage] make the access
    itself, with [get_index]; [_validateUserData] and [updateUserPlan] are
    called where what is thrown is caught and logged like the error raised
    for a plan that is missing, with another text. *)
Definition plans_get (planId : value) : value :=
  match get_index (VObj config.plans) planId with
  | Ret p => p
  | Throw _ => VUndef
  end.

Definition log (level msg : string) : M unit :=
  if config.features.debugMode || String.eqb level "error"
  then modify (fun s => set_console (console s ++ [(level, "[EmiralUserData] " ++ msg)]) s)
  else ret tt.

(** *** Storage abstraction *)

Definition _getFromStorage (key : string) : M value :=
  let fullKey := config.storage.prefix ++ key in
  try_catch
    (let* value := gets (fun s => localStorage s !! fullKey) in
     match value with
     | None => ret VNull
     | Some (TJson v) => ret v
     | Some (TRaw t) =>
         if String.eqb t "" then ret VNull
         else throw "SyntaxError: Unexpected token in JSON"
     end)
    (fun error =>
       log "error" ("Error reading from storage (" ++ key ++ "): " ++ error) ;;
       ret VNull).

Definition _saveToStorage (key : string) (v : value) : M bool :=
  let fullKey := config.storage.prefix ++ key in
  let serialized := JSON_stringify v in
  modify (fun s => set_localStorage (<[fullKey := serialized]> (localStorage s)) s) ;;
  ret true.

Definition _removeFromStorage (key : string) : M bool :=
  let fullKey := config.storage.prefix ++ key in
  modify (fun s => set_localStorage (delete fullKey (localStorage s)) s) ;;
  ret true.

(** *** Events *)

(** [callback(data)]. *)
Definition call (cb : callback) (data : value) : M unit :=
  modify (fun s => set_invoked (invoked s ++ [(cb_id cb, data)]) s) ;;
  match cb_run cb data with
  | None => ret tt
  | Some e => throw e
  end.

(** [listeners.forEach(callback => { try { callback(data) } catch ... })]. *)
Fixpoint forEach_listener (eventName : string) (data : value) (l : list callback) : M unit :=
  match l with
  | [] => ret tt
  | cb :: rest =>
      try_catch (call cb data)
        (fun error =>
           log "error" ("Error in event listener for " ++ eventName ++ ": " ++ error)) ;;
      forEach_listener eventName data rest
  end.

Definition window_dispatchEvent (type : string) (detail : value) : M unit :=
  modify (fun s => set_dispatched (dispatched s ++ [(type, detail)]) s).

Definition _triggerEvent (eventName : string) (data : value) : M unit :=
  (if config.events.logEvents
   then log "info" ("Event triggered: " ++ eventName)
   else ret tt) ;;
  let* listeners := gets (fun s => listeners s !! eventName) in
  match listeners with
  | Some l => forEach_listener eventName data l
  | None => ret tt
  end ;;
  if config.events.enableCustomEvents
  then window_dispatchEvent ("emiralai:" ++ eventName) data
  else ret tt.

(** Whether a value holds a function, which the structured clone of
    [postMessage] refuses. *)
Fixpoint has_function (v : value) : bool :=
  match v with
  | VFun _ => true
  | VArr xs => existsb has_function xs
  | VObj kvs => existsb (fun kv => has_function (snd kv)) kvs
  | _ => false
  end.

Definition _notifyOtherTabs (event : string) (data : value) : M unit :=
  if has_BroadcastChannel then
    if has_function data then throw "DataCloneError: function could not be cloned"
    else modify (fun s => set_posted (posted s ++ [(event, data)]) s)
  else
    let* now := gets clock in
    let key := config.storage.prefix ++ "sync_" ++ Z_to_string now in
    modify (fun s => set_localStorage (delete key (localStorage s)) s).

Definition _showNotification (message type : string) : M unit :=
  if negb config.features.enableNotifications then ret tt
  else
    let detail := VObj [("message", VStr message); ("type", VStr type)] in
    _triggerEvent "notification" detail ;;
    window_dispatchEvent "emiralai:notification" detail.

Definition _queueServerSync (data : value) : M unit :=
  log "info" "Data queued for server sync".

(** [_addToOfflineQueue] calls [localStorage.setItem] outside any handler.
    Under the storage convention of this file the call returns; on a
    storage that refuses the write it throws, also out of the [catch]
    block of [saveUserData], which this model does not describe. *)
Definition _addToOfflineQueue (action : string) (data : value) : M unit :=
  let* now := gets clock in
  modify (fun s => set_offlineQueue
                     (offlineQueue s ++
                        [VObj [("action", VStr action); ("data", data);
                               ("timestamp", VStr (Date_toISOString now))]]) s) ;;
  let* queue := gets offlineQueue in
  modify (fun s => set_localStorage
                     (<[config.storage.prefix ++ "offline_queue" := JSON_stringify (VArr queue)]>
                        (localStorage s)) s).

(** [on(event, callback)]: a Set keeps one entry per callback, in the order
    of first insertion. *)
Definition set_add (cb : callback) (l : list callback) : list callback :=
  if existsb (fun c => Nat.eqb (cb_id c) (cb_id cb)) l then l else l ++ [cb].

Definition set_delete (cb : callback) (l : list callback) : list callback :=
  List.filter (fun c => negb (Nat.eqb (cb_id c) (cb_id cb))) l.

Definition on (event : string) (cb : callback) : M unit :=
  modify (fun s =>
    let current := default [] (listeners s !! event) in
    set_listeners (<[event := set_add cb current]> (listeners s)) s).

Definition off (event : string) (cb : callback) : M unit :=
  modify (fun s =>
    match listeners s !! event with
    | Some l => set_listeners (<[event := set_delete cb l]> (listeners s)) s
    | None => s
    end).

(** *** Validation *)

Definition _isValidEmail (email : value) : bool := email_regex_test (js_ToString email).

Definition _validateUserData (data : value) : bool :=
  match data with
  | VObj _ | VArr _ =>
      let email := get_prop_opt data "email" in
      if truthy email && negb (_isValidEmail email) then false
      else
        let planId := get_prop_opt data "planId" in
        if truthy planId && negb (truthy (plans_get planId)) then false
        else true
  | _ => false
  end.

Definition _generateUserId : M value :=
  let* now := gets clock in
  let* n := gets draws in
  modify (set_draws (S n)) ;;
  ret (VStr ("user_" ++ Z_to_string now ++ "_" ++ Math_random36 n)).

(** *** Session *)

Definition _isSessionValid (now : Z) (userData : value) : bool :=
  let sessionExpiry := get_prop_opt userData "sessionExpiry" in
  if negb (truthy sessionExpiry) then true
  else
    match new_Date sessionExpiry with
    | Some expiry => now <? expiry
    | None => false
    end.

(** *** Usage statistics *)

Definition sum_char_codes (s : string) : Z :=
  fold_left (fun a b => a + char_code b) (list_ascii_of_string s) 0.

(** [userData.email ? userData.email.split('').reduce(...) : 42]. *)
Definition usage_seed (userData : value) : outcome Z :=
  let? email := get_prop userData "email" in
  if truthy email then
    match email with
    | VStr e => Ret (sum_char_codes e)
    | _ => Throw "TypeError: userData.email.split is not a function"
    end
  else Ret 42.

(** The closure [random(min, max)] of [_calculateUsage]. *)
Definition random (seed : Z) (min max : jnum) : jnum :=
  let x := (Math_sin (inject_Z seed) * inject_Z 10000)%Q in
  let frac := (x - inject_Z (Qfloor x))%Q in
  match min, max with
  | Some lo, Some hi => Some (inject_Z (Qfloor (frac * (hi - lo + 1))) + lo)%Q
  | _, _ => None
  end.

(** [limit.replace(/[0-9.]/g, '')]. *)
Definition strip_digits (s : string) : string :=
  string_of_list_ascii
    (List.filter (fun c => negb ((48 <=? char_code c) && (char_code c <=? 57) || Ascii.eqb c "."))
                 (list_ascii_of_string s)).

Definition _calculateStorageUsed (limit : value) (percentage : jnum) : outcome value :=
  if is_str limit "Unlimited" then Ret (VStr "N/A")
  else
    let limitValue := parseFloat (js_ToString limit) in
    let used :=
      match jlift2 Qmult limitValue percentage with
      | Some q => Number_toFixed2 (q / inject_Z 100)%Q
      | None => "NaN"
      end in
    match limit with
    | VStr l => Ret (VStr (used ++ strip_digits l))
    | VUndef | VNull =>
        Throw "TypeError: Cannot read properties of undefined (reading 'replace')"
    | _ => Throw "TypeError: limit.replace is not a function"
    end.

Definition num (z : Z) : jnum := Some (inject_Z z).

Definition _calculateUsage (planId userData : value) : outcome value :=
  let? plan := get_index (VObj config.plans) planId in
  if negb (truthy plan) then Ret (VObj [])
  else
    let? seed := usage_seed userData in
    let random := random seed in
    let apiLimit := ToNumber (get_prop_opt plan "apiLimit") in
    let modelsLimit := ToNumber (get_prop_opt plan "modelsLimit") in
    let projectsLimit := ToNumber (get_prop_opt plan "projectsLimit") in
    let storageLimit := get_prop_opt plan "storageLimit" in
    let index := inject_Z (indexOf planHierarchy planId) in
    let? storageUsed := _calculateStorageUsed storageLimit (random (num 20) (num 70)) in
    Ret (VObj
      [ ("apiCalls",
          of_jnum (if jpositive apiLimit
                   then random (jlift2 Qmult apiLimit (Some (3 # 10)))
                               (jlift2 Qmult apiLimit (Some (85 # 100)))
                   else random (num 100000) (num 500000)));
        ("apiLimit", get_prop_opt plan "apiLimit");
        ("apiPercentage",
          of_jnum (if jpositive apiLimit
                   then option_map (fun r => inject_Z (Qfloor (r / inject_Z 100 * inject_Z 100)))
                                   (random (num 30) (num 85))
                   else num 0));
        ("storageUsed", storageUsed);
        ("storageLimit", storageLimit);
        ("storagePercentage", of_jnum (random (num 20) (num 70)));
        ("modelsActive",
          of_jnum (if jpositive modelsLimit
                   then jlift2 Qmin (random (num 1) (num 10)) modelsLimit
                   else random (num 50) (num 200)));
        ("modelsLimit", get_prop_opt plan "modelsLimit");
        ("projectsCount",
          of_jnum (if jpositive projectsLimit
                   then jlift2 Qmin (random (num 1) (num 20)) projectsLimit
                   else random (num 50) (num 300)));
        ("projectsLimit", get_prop_opt plan "projectsLimit");
        ("accuracy", VNum (inject_Z 70 + index * inject_Z 7));
        ("responseTime", VNum (inject_Z 200 - index * inject_Z 25));
        ("uptime", VNum (inject_Z 95 + index * (125 # 100)));
        ("requestsToday", of_jnum (random (num 100) (num 1000)));
        ("requestsThisMonth", of_jnum (random (num 5000) (num 50000)));
        ("errorRate", VNum (Qmax (1 # 10) (inject_Z 5 - index * (12 # 10))));
        ("averageProcessingTime", VNum (Qmax (inject_Z 50) (inject_Z 150 - index * inject_Z 20))) ]).

(** *** Subscription, permissions, metrics *)

Definition day_ms : Z := 1000 * 60 * 60 * 24.

Definition _enhanceSubscription (now : Z) (subscription planData : value) : value :=
  if negb (truthy subscription) then
    VObj [("status", VStr "inactive"); ("planId", VStr "free"); ("planName", VStr "Free Plan")]
  else
    let endDate := new_Date (get_prop_opt subscription "endDate") in
    let daysRemaining := option_map (fun e => ceil_div (e - now) day_ms) endDate in
    let le (n : Z) := match daysRemaining with Some d => d <=? n | None => false end in
    let gt (n : Z) := match daysRemaining with Some d => n <? d | None => false end in
    VObj (obj_assign (spread_props subscription)
      [ ("daysRemaining", of_jnum (option_map inject_Z daysRemaining));
        ("isExpiringSoon", VBool (le 7 && gt 0));
        ("isExpired", VBool (le 0));
        ("formattedEndDate", VStr (Date_toLocaleDateString endDate));
        ("features", get_prop_opt planData "features");
        ("supportLevel", get_prop_opt planData "supportLevel") ]).

Definition _getPermissions (planId : value) : value :=
  let planIndex := indexOf planHierarchy planId in
  VObj
    [ ("canUseAPI", VBool (1 <=? planIndex));
      ("canExportData", VBool (1 <=? planIndex));
      ("canCustomizeModels", VBool (1 <=? planIndex));
      ("canAccessAnalytics", VBool (0 <=? planIndex));
      ("canUseAdvancedAnalytics", VBool (2 <=? planIndex));
      ("canInviteTeamMembers", VBool (2 <=? planIndex));
      ("canUseWhiteLabel", VBool (2 <=? planIndex));
      ("canAccessPrioritySupport", VBool (2 <=? planIndex));
      ("canRequestCustomFeatures", VBool (3 <=? planIndex));
      ("hasUnlimitedAPI", VBool (3 <=? planIndex));
      ("hasUnlimitedStorage", VBool (3 <=? planIndex));
      ("hasUnlimitedProjects", VBool (3 <=? planIndex));
      ("showUpgradePrompts", VBool (planIndex <? 3));
      ("showUsageLimits", VBool (planIndex <? 3));
      ("showAds", VBool (planIndex =? 0)) ].

(** [parseInt(localStorage.getItem(key) || fallback)].  The text of a JSON
    number reads as its integer part; any other JSON text starts with a
    quote, a bracket, a brace or a letter. *)
Definition parseInt_item (key fallback : string) (s : State) : jnum :=
  option_map inject_Z
    match localStorage s !! key with
    | None => parseInt fallback
    | Some (TRaw t) => if String.eqb t "" then parseInt fallback else parseInt t
    | Some (TJson (VNum q)) => Some (Qtruncate q)
    | Some (TJson _) => None
    end.

Definition _getFavoriteFeatures : value :=
  config.strs ["AI Chat"; "Model Training"; "Analytics Dashboard"].

Definition _getUserMetrics (userData : value) : M value :=
  let loginDate := new_Date (get_prop_opt userData "loginTime") in
  let* now := gets clock in
  let* loginCount := gets (parseInt_item (config.storage.prefix ++ "login_count") "1") in
  let* totalApiCalls := gets (parseInt_item (config.storage.prefix ++ "total_api_calls") "0") in
  ret (VObj
    [ ("accountAge", of_jnum (option_map (fun l => inject_Z ((now - l) / day_ms)) loginDate));
      ("lastActive", VStr (Date_toISOString now));
      ("loginCount", of_jnum loginCount);
      ("totalApiCalls", of_jnum totalApiCalls);
      ("favoriteFeatures", _getFavoriteFeatures) ]).

Definition _calculateEndDate (now : Z) (planId : value) : string :=
  if is_str planId "free"
  then Date_toISOString (Date_plusYears now 100)
  else Date_toISOString (Date_plusDays now 30).

(** *** Public operations *)

Definition clearUserData (clearSettings : bool) : M unit :=
  try_catch
    (_removeFromStorage config.storage.userDataKey ;;
     _removeFromStorage config.storage.subscriptionKey ;;
     (if clearSettings
      then _removeFromStorage config.storage.settingsKey ;; ret tt
      else ret tt) ;;
     modify (set_currentUser VNull) ;;
     let* syncInterval := gets syncInterval in
     match syncInterval with
     | Some _ => modify (set_syncInterval None)
     | None => ret tt
     end ;;
     _triggerEvent "userLoggedOut" VNull ;;
     _notifyOtherTabs "userLoggedOut" VNull ;;
     log "info" "User data cleared")
    (fun error => log "error" ("Error clearing user data: " ++ error)).

(** [img.includes(sub)]: strings and arrays have the method. *)
Definition img_includes (img : value) (sub : string) : outcome bool :=
  match img with
  | VStr s => Ret (includes s sub)
  | VArr xs => Ret (existsb (fun x => is_str x sub) xs)
  | _ => Throw "TypeError: img.includes is not a function"
  end.

(** The immediately invoked function that computes [profileImage]. *)
Definition profileImage_of (userData : value) : outcome value :=
  let img := get_prop_opt userData "profileImage" in
  if negb (truthy img) then _getDefaultAvatar userData
  else
    let? a := img_includes img "default" in
    if a then _getDefaultAvatar userData
    else
      let? b := img_includes img "emiral" in
      if b then _getDefaultAvatar userData
      else
        let? c := img_includes img "pexels" in
        if c then _getDefaultAvatar userData else Ret img.

(** The object literal [completeUserData] of [getUserData]. *)
Definition completeUserData (now : Z)
  (userData subscription settings planId planData id profileImage usage metrics : value)
  : value :=
  VObj
    [ ("id", id);
      ("name", js_or (get_prop_opt userData "name") (VStr "Guest User"));
      ("email", js_or (get_prop_opt userData "email") (VStr "guest@emiralai.com"));
      ("profileImage", profileImage);
      ("plan", get_prop_opt planData "name");
      ("planId", planId);
      ("planData", planData);
      ("usage", usage);
      ("subscription", _enhanceSubscription now subscription planData);
      ("settings", settings);
      ("session",
        VObj [ ("loginTime", get_prop_opt userData "loginTime");
               ("lastActivity", VStr (Date_toISOString now));
               ("expiresAt", get_prop_opt userData "sessionExpiry");
               ("isActive", VBool true) ]);
      ("permissions", _getPermissions planId);
      ("metrics", metrics) ].

Definition getUserData (forceRefresh : bool) : M value :=
  try_catch
    (let* cached := gets currentUser in
     if negb forceRefresh && truthy cached then ret cached
     else
       let* userData := _getFromStorage config.storage.userDataKey in
       if negb (truthy userData) then ret VNull
       else
         let* now := gets clock in
         if negb (_isSessionValid now userData) then
           clearUserData false ;;
           ret VNull
         else
           let* subscription := _getFromStorage config.storage.subscriptionKey in
           let* stored_settings := _getFromStorage config.storage.settingsKey in
           let settings := js_or stored_settings (VObj []) in
           let planId :=
             js_or (get_prop_opt userData "planId")
                   (js_or (get_prop_opt subscription "planId") (VStr "free")) in
           let* plan := lift (get_index (VObj config.plans) planId) in
           let planData := js_or plan (plans_get (VStr "free")) in
           let* id :=
             (let id := get_prop_opt userData "id" in
              if truthy id then ret id else _generateUserId) in
           let* profileImage := lift (profileImage_of userData) in
           let* usage := lift (_calculateUsage planId userData) in
           let* metrics := _getUserMetrics userData in
           let completeUserData :=
             completeUserData now userData subscription settings planId planData
                              id profileImage usage metrics in
           modify (set_currentUser completeUserData) ;;
           _triggerEvent "dataLoaded" completeUserData ;;
           ret completeUserData)
    (fun error =>
       log "error" ("Error getting user data: " ++ error) ;;
       ret VNull).

Definition saveUserData (data : value) : M bool :=
  try_catch
    ((if negb (_validateUserData data) then throw "Error: Invalid user data" else ret tt) ;;
     let* current := getUserData false in
     let currentData := js_or current (VObj []) in
     let* now := gets clock in
     let updated :=
       obj_set (obj_assign (spread_props currentData) (spread_props data))
               "lastModified" (VStr (Date_toISOString now)) in
     let updatedData := VObj updated in
     let subscription := get_prop_opt updatedData "subscription" in
     let settings := get_prop_opt updatedData "settings" in
     let userData :=
       VObj (obj_without ["subscription"; "settings"; "usage"; "metrics"; "permissions"] updated) in
     _saveToStorage config.storage.userDataKey userData ;;
     (if truthy subscription
      then _saveToStorage config.storage.subscriptionKey subscription ;; ret tt
      else ret tt) ;;
     (if truthy settings
      then _saveToStorage config.storage.settingsKey settings ;; ret tt
      else ret tt) ;;
     modify (set_currentUser updatedData) ;;
     _triggerEvent "dataUpdated" updatedData ;;
     _notifyOtherTabs "userDataUpdated" updatedData ;;
     (if config.features.enableAutoSave then _queueServerSync updatedData else ret tt) ;;
     log "info" "User data saved successfully" ;;
     ret true)
    (fun error =>
       log "error" ("Error saving user data: " ++ error) ;;
       (if config.features.enableOfflineMode
        then _addToOfflineQueue "save" data
        else ret tt) ;;
       ret false).

(** The subscription object that [updateUserPlan] builds. *)
Definition new_subscription (now : Z) (planId planData subscriptionData : value) : value :=
  VObj (obj_assign
    [ ("planId", planId);
      ("planName", get_prop_opt planData "name");
      ("startDate", js_or (get_prop_opt subscriptionData "startDate")
                          (VStr (Date_toISOString now)));
      ("endDate", js_or (get_prop_opt subscriptionData "endDate")
                        (VStr (_calculateEndDate now planId)));
      ("status", VStr "active");
      ("autoRenew", VBool (negb (match get_prop_opt subscriptionData "autoRenew" with
                                 | VBool false => true
                                 | _ => false
                                 end)));
      ("paymentMethod", js_or (get_prop_opt subscriptionData "paymentMethod") (VStr "unknown"));
      ("amount", get_prop_opt planData "price");
      ("currency", js_or (get_prop_opt subscriptionData "currency") (VStr "USD")) ]
    (spread_props subscriptionData)).

Definition updateUserPlan (planId subscriptionData : value) : M bool :=
  try_catch
    ((if negb (truthy (plans_get planId))
      then throw ("Error: Invalid plan ID: " ++ js_ToString planId)
      else ret tt) ;;
     let planData := plans_get planId in
     let* currentUser := getUserData false in
     (if negb (truthy currentUser) then throw "Error: No user logged in" else ret tt) ;;
     let* now := gets clock in
     let subscription := new_subscription now planId planData subscriptionData in
     _saveToStorage config.storage.subscriptionKey subscription ;;
     saveUserData (VObj [("planId", planId); ("plan", get_prop_opt planData "name")]) ;;
     _triggerEvent "planChanged"
       (VObj [ ("oldPlan", get_prop_opt currentUser "planId");
               ("newPlan", planId);
               ("subscription", subscription) ]) ;;
     (if config.features.enableNotifications
      then _showNotification "Plan updated successfully!" "success"
      else ret tt) ;;
     ret true)
    (fun error =>
       log "error" ("Error updating plan: " ++ error) ;;
       ret false).


Definition hasAccess (feature : value) : M bool :=
  let* userData := getUserData false in
  if negb (truthy userData) then ret false
  else
    let permissions := get_prop_opt userData "permissions" in
    let* p := lift (get_index permissions feature) in
    ret (match p with VBool true => true | _ => false end).

Definition hasPlan (requiredPlan : value) : M bool :=
  let* userData := getUserData false in
  if negb (truthy userData) then ret false
  else
    let userPlanIndex := indexOf planHierarchy (get_prop_opt userData "planId") in
    let requiredPlanIndex := indexOf planHierarchy requiredPlan in
    ret (requiredPlanIndex <=? userPlanIndex).

Definition isLoggedIn : M bool :=
  let* userData := getUserData false in
  ret (negb (match userData with VNull => true | _ => false end)).

End Manager.

(** ** The other methods of [EmiralUserData] *)

(** [typeof v]. *)
Definition typeof (v : value) : string :=
  match v with
  | VUndef => "undefined"
  | VBool _ => "boolean"
  | VNum _ | VNaN => "number"
  | VStr _ => "string"
  | VNull | VArr _ | VObj _ => "object"
  | VFun _ => "function"
  end.

(** [Array.isArray v]. *)
Definition isArray (v : value) : bool :=
  match v with
  | VArr _ => true
  | _ => false
  end.

(** [key in o] for the properties [kvs] of an object [o]: an own property
    or one of those that objects inherit. *)
Definition has_property (kvs : props) (key : string) : bool :=
  match own_get kvs key with
  | Some _ => true
  | None =>
      match assoc_str Object_prototype_functions key with
      | Some _ => true
      | None => String.eqb key "__proto__"
      end
  end.

(** [o.k = v] in strict mode, for a name [k] that is neither an index nor
    [length] nor [__proto__].  An object takes the property, at the place of
    the one it had under this name or after the others; a primitive value
    refuses it with a TypeError.  An array or a function takes it as a
    named property of its own, which [JSON.stringify] skips and which
    [value] does not show. *)
Definition assign_prop (o : value) (k : string) (v : value) : outcome value :=
  match o with
  | VObj kvs => Ret (VObj (obj_set kvs k v))
  | VArr _ | VFun _ => Ret o
  | VUndef =>
      Throw ("TypeError: Cannot set properties of undefined (setting '" ++ k ++ "')")
  | VNull =>
      Throw ("TypeError: Cannot set properties of null (setting '" ++ k ++ "')")
  | VBool _ | VNum _ | VNaN | VStr _ =>
      Throw ("TypeError: Cannot create property '" ++ k ++ "' on " ++ typeof o)
  end.

(** [s.replace(p, '')] for a string [p]: the first occurrence of [p] is
    taken out. *)
Fixpoint remove_first (p s : string) : string :=
  if is_prefix p s then String.substring (String.length p) (String.length s) s
  else
    match s with
    | String c rest => String c (remove_first p rest)
    | EmptyString => EmptyString
    end.

(** What the page holds beside the manager's state: [sessionStorage], and
    the calls received by [window.gtag] when the page defines it ([None]
    when it does not), each with the action and the event label. *)
Record Page : Type := mkPage {
  manager : State;
  sessionStorage : gmap string string;
  gtag : option (list (value * text))
}.

Section ManagerOther.
Context {H : Host}.

(** *** Roles *)

Definition roleMap : props :=
  [ ("free", VStr "Free Member"); ("basic", VStr "Basic Member");
    ("pro", VStr "Pro Member"); ("enterprise", VStr "Enterprise Member") ].

Definition getMemberRole (planId : value) : outcome value :=
  let? role := get_index (VObj roleMap) planId in
  Ret (js_or role (VStr "Free Member")).

(** *** Settings *)

Definition updateSettings (settings : value) : M bool :=
  try_catch
    (let* stored_settings := _getFromStorage config.storage.settingsKey in
     let currentSettings := js_or stored_settings (VObj []) in
     let* now := gets clock in
     let updatedSettings :=
       VObj (obj_set (obj_assign (spread_props currentSettings) (spread_props settings))
                     "lastModified" (VStr (Date_toISOString now))) in
     _saveToStorage config.storage.settingsKey updatedSettings ;;
     let* cached := gets currentUser in
     (if truthy cached then
        let* updated := lift (assign_prop cached "settings" updatedSettings) in
        modify (set_currentUser updated)
      else ret tt) ;;
     _triggerEvent "settingsUpdated" updatedSettings ;;
     ret true)
    (fun error =>
       log "error" ("Error updating settings: " ++ error) ;;
       ret false).

(** *** Activity log *)

(** [JSON.parse(localStorage.getItem(key) || '[]')]. *)
Definition parse_item_or_empty_array (key : string) : M value :=
  let* item := gets (fun s => localStorage s !! key) in
  match item with
  | None => ret (VArr [])
  | Some (TJson v) => ret v
  | Some (TRaw t) =>
      if String.eqb t "" then ret (VArr [])
      else throw "SyntaxError: Unexpected token in JSON"
  end.

(** [log.splice(0, log.length - 100)] when [log.length > 100]. *)
Definition last_100 (log : list value) : list value :=
  if (100 <? Z.of_nat (length log)) then skipn (length log - 100) log else log.

Definition _addToActivityLog (activity : value) : M unit :=
  let logKey := config.storage.prefix ++ "activity_log" in
  let* log := parse_item_or_empty_array logKey in
  match log with
  | VArr entries =>
      let kept := last_100 (entries ++ [activity]) in
      modify (fun s => set_localStorage
                         (<[logKey := JSON_stringify (VArr kept)]> (localStorage s)) s)
  | VNull => throw "TypeError: Cannot read properties of null (reading 'push')"
  | _ => throw "TypeError: log.push is not a function"
  end.

Definition _getActivityLog : M value :=
  parse_item_or_empty_array (config.storage.prefix ++ "activity_log").

(** [_getSessionId], on the page. *)
Definition _getSessionId (p : Page) : string * Page :=
  let key := config.storage.prefix ++ "session_id" in
  let fresh :=
    let s := manager p in
    let sessionId :=
      "session_" ++ Z_to_string (clock s) ++ "_" ++ Math_random36 (draws s) in
    (sessionId,
     mkPage (set_draws (S (draws s)) s) (<[key := sessionId]> (sessionStorage p)) (gtag p)) in
  match sessionStorage p !! key with
  | Some sessionId => if String.eqb sessionId "" then fresh else (sessionId, p)
  | None => fresh
  end.

(** [trackActivity(action, data = {})], on the page. *)
Definition trackActivity (action data : value) (p : Page) : outcome unit * Page :=
  if negb config.features.enableAnalytics then (Ret tt, p)
  else
    let data := match data with VUndef => VObj [] | _ => data end in
    let timestamp := Date_toISOString (clock (manager p)) in
    let (sessionId, p1) := _getSessionId p in
    let activity :=
      VObj [ ("action", action); ("timestamp", VStr timestamp);
             ("data", data); ("sessionId", VStr sessionId) ] in
    match (_addToActivityLog activity ;; _triggerEvent "activityTracked" activity) (manager p1) with
    | (Throw e, s2) => (Throw e, mkPage s2 (sessionStorage p1) (gtag p1))
    | (Ret _, s2) =>
        (Ret tt,
         mkPage s2 (sessionStorage p1)
                (option_map (fun calls => (calls ++ [(action, JSON_stringify data)])%list) (gtag p1)))
    end.

(** *** Export and import *)

Definition exportUserData : M value :=
  let* userData := getUserData false in
  if negb (truthy userData) then ret VNull
  else
    let* now := gets clock in
    let* settings := _getFromStorage config.storage.settingsKey in
    let* activityLog := _getActivityLog in
    ret (VObj [ ("version", VStr "2.0.0");
                ("exportDate", VStr (Date_toISOString now));
                ("userData", userData);
                ("settings", settings);
                ("activityLog", activityLog) ]).

Definition importUserData (data : value) : M bool :=
  try_catch
    ((if negb (truthy data) || negb (is_str (get_prop_opt data "version") "2.0.0")
      then throw "Error: Invalid or incompatible data format"
      else ret tt) ;;
     (if truthy (get_prop_opt data "userData")
      then saveUserData (get_prop_opt data "userData") ;; ret tt
      else ret tt) ;;
     (if truthy (get_prop_opt data "settings")
      then updateSettings (get_prop_opt data "settings") ;; ret tt
      else ret tt) ;;
     _triggerEvent "dataImported" data ;;
     ret true)
    (fun error =>
       log "error" ("Error importing data: " ++ error) ;;
       ret false).

(** *** Changes made by other tabs *)

(** [_handleStorageChange(event)] for an event with the key [key] and the
    new value [newValue] (a string, or [null] when the key was removed). *)
Definition _handleStorageChange (key : string) (newValue : value) : M unit :=
  let key := remove_first config.storage.prefix key in
  if String.eqb key config.storage.userDataKey then
    if negb (truthy newValue) then
      modify (set_currentUser VNull) ;;
      _triggerEvent "userLoggedOut" VNull
    else
      modify (set_currentUser VNull) ;;
      getUserData true ;;
      let* cached := gets currentUser in
      _triggerEvent "dataUpdated" cached
  else if String.eqb key config.storage.subscriptionKey then
    getUserData true ;;
    _triggerEvent "subscriptionUpdated" VNull
  else ret tt.

(** The listener that [_setupEventListeners] registers for the [storage]
    event of the window; [key] is [null] when the storage was cleared. *)
Definition storage_listener (key : option string) (newValue : value) : M unit :=
  match key with
  | Some k =>
      if negb (String.eqb k "") && is_prefix config.storage.prefix k
      then _handleStorageChange k newValue
      else ret tt
  | None => ret tt
  end.

(** *** Server sync and the offline queue *)

(** [_syncWithServer]: the record that [getUserData()] returns is the
    cached object, and the assignment to its [lastSync] changes the
    cache. *)
Definition _syncWithServer : M unit :=
  let* userData := getUserData false in
  if truthy userData then
    let* now := gets clock in
    let* synced := lift (assign_prop userData "lastSync" (VStr (Date_toISOString now))) in
    modify (set_currentUser synced) ;;
    log "info" "Data synced with server"
  else ret tt.

(** The callback of the timer that [_startDataSync] starts. *)
Definition sync_tick : M unit :=
  let* loggedIn := isLoggedIn in
  if loggedIn then _syncWithServer else ret tt.

(** The loop of [_processOfflineQueue] over the copy of the queue. *)
Fixpoint replay (queue : list value) : M unit :=
  match queue with
  | [] => ret tt
  | item :: rest =>
      try_catch
        (let* action := lift (get_prop item "action") in
         if is_str action "save" then
           let* data := lift (get_prop item "data") in
           saveUserData data ;;
           ret tt
         else ret tt)
        (fun error =>
           modify (fun s => set_offlineQueue (offlineQueue s ++ [item]) s)) ;;
      replay rest
  end.

(** [_processOfflineQueue], for the value [onLine] of [navigator.onLine].
    Each [await] of the source is on a value that is no promise: the
    function resumes before any other event of the page is handled. *)
Definition _processOfflineQueue (onLine : bool) : M unit :=
  let* queue := gets offlineQueue in
  if negb onLine || (Z.of_nat (length queue) =? 0) then ret tt
  else
    log "info" ("Processing " ++ Z_to_string (Z.of_nat (length queue)) ++ " offline actions") ;;
    modify (set_offlineQueue []) ;;
    replay queue ;;
    let* remaining := gets offlineQueue in
    if Z.of_nat (length remaining) =? 0 then
      modify (fun s => set_localStorage
                         (delete (config.storage.prefix ++ "offline_queue") (localStorage s)) s)
    else
      modify (fun s => set_localStorage
                         (<[config.storage.prefix ++ "offline_queue"
                            := JSON_stringify (VArr remaining)]> (localStorage s)) s).

(** *** Deep merge of configurations *)

Definition _isObject (item : value) : bool :=
  truthy item && String.eqb (typeof item) "object" && negb (isArray item).

(** [Object.assign({}, target)]: the own properties of the target are set
    on a new object.  Under the name [__proto__] that runs the setter that
    [Object.prototype] gives, which makes an object or [null] the
    prototype of the new object and ignores any other value, so that the
    new object never has a property of this name as its own.  The result
    is [None] when the prototype is replaced: [value] does not represent
    such an object. *)
Definition Object_assign_new (target : value) : option props :=
  match target with
  | VObj fields =>
      match own_get fields "__proto__" with
      | None => Some fields
      | Some (VNull | VArr _ | VObj _ | VFun _) => None
      | Some _ => Some (obj_without ["__proto__"] fields)
      end
  | _ => Some (spread_props target)
  end.

(** [_deepMerge(target, source)].  The result is [None] when the merge
    replaces the prototype of the object that it builds.  That happens
    under the key [__proto__], in the copy of the target and in the loop
    over the source: [Object.assign(output, {[key]: v})] and
    [output[key] = v] run the setter too. *)
Fixpoint _deepMerge (target source : value) {struct source} : option value :=
  let output := Object_assign_new target in
  if _isObject target && _isObject source then
    match source with
    | VObj keys =>
        option_map VObj
          ((fix forEach (keys : props) (output : option props) {struct keys} : option props :=
              match keys with
              | [] => output
              | (key, source_key) :: rest =>
                  forEach rest
                    (match output with
                     | None => None
                     | Some output =>
                         if String.eqb key "__proto__" then
                           match source_key with
                           | VNull | VArr _ | VObj _ | VFun _ => None
                           | _ => Some output
                           end
                         else if _isObject source_key then
                           if negb (has_property (spread_props target) key)
                           then Some (obj_set output key source_key)
                           else option_map (obj_set output key)
                                  (_deepMerge (get_prop_opt target key) source_key)
                         else Some (obj_set output key source_key)
                     end)
              end) keys output)
    | _ => option_map VObj output
    end
  else option_map VObj output.

End ManagerOther.

(** *** Chart data *)

Section Charts.
Context {H : Host}.

(** The generators that draw on the calendar of the host and on random
    numbers; [getChartData] passes them the position of the plan plus one,
    or the record, and the options. *)
Variable _generateMonthlyData : Z -> value -> M value.
Variable _generateApiUsageData : value -> value -> M value.
Variable _generateStorageData : value -> value -> M value.
Variable _generateActivityData : value -> value -> M value.



End Charts.

(** *** Formatting *)

Section Formatting.
Context {H : Host}.

(** [v === z] for a number [z]. *)
Definition is_number (v : value) (z : Z) : bool :=
  match v with
  | VNum q => Qeq_bool q (inject_Z z)
  | _ => false
  end.

(** OrdinaryToPrimitive with the hint number: [valueOf] and then
    [toString] are tried. *)
Definition OrdinaryToPrimitive_number (kvs : props) : outcome value :=
  let try (name : string) (otherwise : outcome value) : outcome value :=
    match get_prop (VObj kvs) name with
    | Ret (VFun f) =>
        match call_method f kvs with
        | Ret r => if is_object r then otherwise else Ret r
        | Throw e => Throw e
        end
    | _ => otherwise
    end in
  try "valueOf"
    (try "toString" (Throw "TypeError: Cannot convert object to primitive value")).

(** ToPrimitive with the hint number, the first step of ToNumber and of
    ToNumeric: [valueOf] gives an array and a function back as they are,
    and their [toString] makes the text. *)
Definition ToPrimitive_number (v : value) : outcome value :=
  match v with
  | VObj kvs => OrdinaryToPrimitive_number kvs
  | VArr _ => let? text := ToString v in Ret (VStr text)
  | VFun _ => Ret (VStr (js_ToString v))
  | _ => Ret v
  end.

(** What the engine computes on double numbers from a value that is not an
    object: [new Intl.NumberFormat('en-US').format(p)], and for
    [formatBytes] the text
    [parseFloat((p / Math.pow(1024, i)).toFixed(2)) + ' ' + sizes[i]] with
    [i = Math.floor(Math.log(p) / Math.log(1024))]. *)
Variable Intl_NumberFormat_format : value -> string.
Variable formatBytes_text : value -> string.

(** The text is written in UTF-8. *)
Definition formatNumber (num : value) : outcome value :=
  if is_number num (-1) then Ret (VStr "∞")
  else
    let? p := ToPrimitive_number num in
    Ret (VStr (Intl_NumberFormat_format p)).

Definition formatBytes (bytes : value) : outcome value :=
  if is_number bytes 0 then Ret (VStr "0 Bytes")
  else if is_number bytes (-1) then Ret (VStr "Unlimited")
  else
    let? p := ToPrimitive_number bytes in
    Ret (VStr (formatBytes_text p)).


End Formatting.

(** ** The dashboard (js/dashboard.js) *)

Section Dashboard.
Context {H : Host}.




End Dashboard.

(** ** A host for examples: an engine in the UTC time zone *)

Module utc.

Definition digit (n : Z) : ascii := ascii_of_nat (Z.to_nat (48 + n mod 10)).

(** [n] written with [w] digits. *)
Fixpoint digits (w : nat) (n : Z) : string :=
  match w with
  | O => ""
  | S w' => digits w' (n / 10) ++ String (digit n) ""
  end.

(** Days since 1970-01-01 of a civil date, and back. *)
Definition days_from_civil (y m d : Z) : Z :=
  let y := if m <=? 2 then y - 1 else y in
  let era := y / 400 in
  let yoe := y - era * 400 in
  let doy := (153 * (if 2 <? m then m - 3 else m + 9) + 2) / 5 + d - 1 in
  let doe := yoe * 365 + yoe / 4 - yoe / 100 + doy in
  era * 146097 + doe - 719468.

Definition civil_from_days (z : Z) : Z * Z * Z :=
  let z := z + 719468 in
  let era := z / 146097 in
  let doe := z - era * 146097 in
  let yoe := (doe - doe / 1460 + doe / 36524 - doe / 146096) / 365 in
  let y := yoe + era * 400 in
  let doy := doe - (365 * yoe + yoe / 4 - yoe / 100) in
  let mp := (5 * doy + 2) / 153 in
  let d := doy - (153 * mp + 2) / 5 + 1 in
  let m := if mp <? 10 then mp + 3 else mp - 9 in
  (if m <=? 2 then y + 1 else y, m, d).

(** Years 0000 to 9999 print with four digits. *)
Definition toISOString (t : Z) : string :=
  let '(y, m, d) := civil_from_days (t / day_ms) in
  let ms := t mod day_ms in
  digits 4 y ++ "-" ++ digits 2 m ++ "-" ++ digits 2 d ++ "T" ++
  digits 2 (ms / 3600000) ++ ":" ++ digits 2 (ms / 60000 mod 60) ++ ":" ++
  digits 2 (ms / 1000 mod 60) ++ "." ++ digits 3 (ms mod 1000) ++ "Z".

Definition digit_value (c : ascii) : option Z :=
  let n := char_code c in
  if (48 <=? n) && (n <=? 57) then Some (n - 48) else None.

(** A run of decimal digits read as a number. *)
Fixpoint read_digits (acc : Z) (l : list ascii) : option Z :=
  match l with
  | [] => Some acc
  | c :: rest =>
      match digit_value c with
      | Some n => read_digits (acc * 10 + n) rest
      | None => None
      end
  end.

Definition field (s : string) (start len : nat) : option Z :=
  let f := String.substring start len s in
  if Nat.eqb (String.length f) len then read_digits 0 (list_ascii_of_string f) else None.

(** The format of [toISOString], [YYYY-MM-DDTHH:mm:ss.sssZ]; other texts
    are invalid dates here. *)
Definition parse (s : string) : option Z :=
  if negb (Nat.eqb (String.length s) 24) then None
  else if negb (String.eqb (String.substring 4 1 s ++ String.substring 7 1 s ++
                            String.substring 10 1 s ++ String.substring 13 1 s ++
                            String.substring 16 1 s ++ String.substring 19 1 s ++
                            String.substring 23 1 s) "--T::.Z") then None
  else
    match field s 0 4, field s 5 2, field s 8 2, field s 11 2, field s 14 2, field s 17 2,
          field s 20 3 with
    | Some y, Some m, Some d, Some hh, Some mm, Some ss, Some ms =>
        if (1 <=? m) && (m <=? 12) && (1 <=? d) && (d <=? 31) && (hh <=? 23) && (mm <=? 59)
           && (ss <=? 59)
        then Some (days_from_civil y m d * day_ms + hh * 3600000 + mm * 60000 + ss * 1000 + ms)
        else None
    | _, _, _, _, _, _, _ => None
    end.

Definition plusYears (t n : Z) : Z :=
  let '(y, m, d) := civil_from_days (t / day_ms) in
  (days_from_civil (y + n) m 1 + (d - 1)) * day_ms + t mod day_ms.

Definition plusDays (t n : Z) : Z := t + n * day_ms.

Definition month_names : list string :=
  [ "January"; "February"; "March"; "April"; "May"; "June"; "July"; "August";
    "September"; "October"; "November"; "December" ].

Definition toLocaleDateString (t : option Z) : string :=
  match t with
  | None => "Invalid Date"
  | Some t =>
      let '(y, m, d) := civil_from_days (t / day_ms) in
      nth (Z.to_nat (m - 1)) month_names "" ++ " " ++ Z_to_string d ++ ", " ++ Z_to_string y
  end.

(** Bhaskara's rational approximation of the sine, with 355/113 for pi. *)
Definition sin (x : Q) : Q :=
  let pi := (355 # 113)%Q in
  let turns := Qfloor (x / (2 * pi)) in
  let r := (x - inject_Z turns * (2 * pi))%Q in
  let half (y : Q) : Q := (16 * y * (pi - y) / (5 * pi * pi - 4 * y * (pi - y)))%Q in
  Qred (if Qle_bool r pi then half r else - half (r - pi))%Q.

(** The n-th draw of the random generator: a fixed sequence. *)
Definition random36 (n : nat) : string := digits 9 (Z.of_nat n * 48271 + 12345).

(** Decimal text of a rational: the integer part, then up to [fuel]
    fractional digits. *)
Fixpoint fraction_digits (fuel : nat) (r d : Z) : string :=
  match fuel with
  | O => ""
  | S fuel' =>
      if r =? 0 then ""
      else String (digit (r * 10 / d)) (fraction_digits fuel' (r * 10 mod d) d)
  end.

Definition Number_toString (q : Q) : string :=
  let n := Z.abs (Qnum q) in
  let d := Zpos (Qden q) in
  (if Qnum q <? 0 then "-" else "") ++ Z_to_string (n / d) ++
  (if n mod d =? 0 then "" else "." ++ fraction_digits 17 (n mod d) d).

Definition toFixed2 (q : Q) : string :=
  let n := Qfloor (Qabs q * inject_Z 100 + (1 # 2)) in
  (if Qle_bool 0 q then "" else "-") ++ Z_to_string (n / 100) ++ "." ++ digits 2 (n mod 100).

Fixpoint take_digits (l : list ascii) : list ascii * list ascii :=
  match l with
  | c :: rest =>
      match digit_value c with
      | Some _ => let (a, b) := take_digits rest in (c :: a, b)
      | None => ([], l)
      end
  | [] => ([], [])
  end.

(** A signed decimal prefix with an optional fraction; exponents are not
    read. *)
Definition read_decimal (l : list ascii) : option (Q * list ascii) :=
  let (neg, l) := match l with
                  | "-"%char :: rest => (true, rest)
                  | "+"%char :: rest => (false, rest)
                  | _ => (false, l)
                  end in
  let (ip, rest) := take_digits l in
  let (fp, rest') := match rest with
                     | "."%char :: r => take_digits r
                     | _ => ([], rest)
                     end in
  match ip, fp with
  | [], [] => None
  | _, _ =>
      match read_digits 0 (ip ++ fp) with
      | Some n =>
          let q := Qred (inject_Z n / inject_Z (10 ^ Z.of_nat (length fp)))%Q in
          Some (if neg then Qred (- q)%Q else q,
                match fp, rest with
                | [], "."%char :: _ => rest
                | _, _ => rest'
                end)
      | None => None
      end
  end.

Definition parseFloat (s : string) : option Q :=
  option_map fst (read_decimal (list_ascii_of_string (drop_spaces s))).

Definition parseInt (s : string) : option Z :=
  let l := list_ascii_of_string (drop_spaces s) in
  let (neg, l) := match l with
                  | "-"%char :: rest => (true, rest)
                  | "+"%char :: rest => (false, rest)
                  | _ => (false, l)
                  end in
  match fst (take_digits l) with
  | [] => None
  | ds => option_map (fun n => if neg then - n else n) (read_digits 0 ds)
  end.

Definition toNumber (s : string) : option Q :=
  let t := trim s in
  if String.eqb t "" then Some 0%Q
  else
    match read_decimal (list_ascii_of_string t) with
    | Some (q, []) => Some q
    | _ => None
    end.

(** Case mapping of the ASCII letters. *)
Definition lower (c : ascii) : ascii :=
  let n := char_code c in
  if (65 <=? n) && (n <=? 90) then ascii_of_nat (Z.to_nat (n + 32)) else c.
Definition upper (c : ascii) : ascii :=
  let n := char_code c in
  if (97 <=? n) && (n <=? 122) then ascii_of_nat (Z.to_nat (n - 32)) else c.
Definition map_string (f : ascii -> ascii) (s : string) : string :=
  string_of_list_ascii (map f (list_ascii_of_string s)).

End utc.

Definition utc_host : Host := {|
  Date_parse := utc.parse;
  Date_toISOString := utc.toISOString;
  Date_plusYears := utc.plusYears;
  Date_plusDays := utc.plusDays;
  Date_toLocaleDateString := utc.toLocaleDateString;
  Math_sin := utc.sin;
  Math_random36 := utc.random36;
  Number_toString := utc.Number_toString;
  parseFloat := utc.parseFloat;
  parseInt := utc.parseInt;
  String_toNumber := utc.toNumber;
  Number_toFixed2 := utc.toFixed2;
  String_toLowerCase := utc.map_string utc.lower;
  String_toUpperCase := utc.map_string utc.upper;
  has_BroadcastChannel := true
|}.

(** A fresh page: nothing stored, nobody listening. *)
Definition initial_state (now : Z) : State :=
  mkState now 0 ∅ VNull ∅ None [] [] [] [] [].


(** ** Vocabulary of the properties *)

(** Registering the callbacks [cbs] one after the other with [on]. *)
Fixpoint on_all (event : string) (cbs : list callback) : M unit :=
  match cbs with
  | [] => ret tt
  | cb :: rest => on event cb ;; on_all event rest
  end.

(** The Set that results from adding [cbs] in order to the Set [acc]. *)
Definition added_to (acc cbs : list callback) : list callback :=
  fold_left (fun acc cb => set_add cb acc) cbs acc.

(** The calls that [emit] makes for the listeners [l]. *)
Definition calls_of (data : value) (l : list callback) : list (nat * value) :=
  map (fun cb => (cb_id cb, data)) l.

(** The console lines for those of the listeners [l] that throw. *)
Definition error_lines (eventName : string) (data : value) (l : list callback)
  : list (string * string) :=
  flat_map (fun cb => match cb_run cb data with
                      | Some e => [("error", "[EmiralUserData] Error in event listener for "
                                               ++ eventName ++ ": " ++ e)]
                      | None => []
                      end) l.

(** The record that [saveUserData] builds from the current record and the
    patch: [{...currentData, ...data, lastModified: now}]. *)
Definition merged {H : Host} (now : Z) (current data : value) : props :=
  obj_set (obj_assign (spread_props (js_or current (VObj []))) (spread_props data))
          "lastModified" (VStr (Date_toISOString now)).

(** The keys that [saveUserData] takes out of the record before it stores
    it under the user-data key. *)
Definition separated_keys : list string :=
  ["subscription"; "settings"; "usage"; "metrics"; "permissions"].

(** The keys of [localStorage] that the manager writes. *)
Definition user_key : string := config.storage.prefix ++ config.storage.userDataKey.
Definition subscription_key : string := config.storage.prefix ++ config.storage.subscriptionKey.
Definition settings_key : string := config.storage.prefix ++ config.storage.settingsKey.
Definition offline_queue_key : string := config.storage.prefix ++ "offline_queue".

(** A state that differs from [s] only by what was logged: console lines,
    listener calls and window events. *)
Definition with_logs (c : list (string * string)) (i : list (nat * value))
  (d : list (string * value)) (s : State) : State :=
  mkState (clock s) (draws s) (localStorage s) (currentUser s) (listeners s)
          (syncInterval s) (offlineQueue s) c i d (posted s).

Definition logs_only (s s' : State) : Prop := exists c i d, s' = with_logs c i d s.

(** The stored value that [_getFromStorage key] returns. *)
Definition stored (s : State) (key : string) : value :=
  match localStorage s !! (config.storage.prefix ++ key) with
  | Some (TJson v) => v
  | _ => VNull
  end.

(** The plan id that [getUserData] resolves from storage. *)
Definition planId_of (s : State) : value :=
  js_or (get_prop_opt (stored s config.storage.userDataKey) "planId")
        (js_or (get_prop_opt (stored s config.storage.subscriptionKey) "planId")
               (VStr "free")).

(** The stored user record is absent, or its enrichment throws. *)
Definition read_fails {H : Host} (s : State) : Prop :=
  truthy (stored s config.storage.userDataKey) = false \/
  (exists e, profileImage_of (stored s config.storage.userDataKey) = Throw e) \/
  (exists e, _calculateUsage (planId_of s) (stored s config.storage.userDataKey) = Throw e).

(** The patch that [updateUserPlan] passes to [saveUserData]. *)
Definition plan_patch {H : Host} (planId : value) : value :=
  VObj [("planId", planId); ("plan", get_prop_opt (plans_get planId) "name")].

(** The payload of the [planChanged] event. *)
Definition planChanged_payload {H : Host} (now : Z) (u planId details : value) : value :=
  VObj [ ("oldPlan", get_prop_opt u "planId"); ("newPlan", planId);
         ("subscription", new_subscription now planId (plans_get planId) details) ].

(** The optional argument [subscriptionData]: absent ([null]) or an
    object. *)
Definition details_value (details : option props) : value :=
  match details with
  | Some kvs => VObj kvs
  | None => VNull
  end.

Definition details_props (details : option props) : props :=
  match details with
  | Some kvs => kvs
  | None => []
  end.

(** The permissions that a plan grants. *)
Definition granted_features : list string :=
  [ "canUseAPI"; "canExportData"; "canCustomizeModels"; "canAccessAnalytics";
    "canUseAdvancedAnalytics"; "canInviteTeamMembers"; "canUseWhiteLabel";
    "canAccessPrioritySupport"; "canRequestCustomFeatures";
    "hasUnlimitedAPI"; "hasUnlimitedStorage"; "hasUnlimitedProjects" ].

(** A state that holds the same data as [s]: it differs at most by the
    count of random draws and by what was logged. *)
Definition same_data (s s' : State) : Prop :=
  localStorage s' = localStorage s /\ currentUser s' = currentUser s /\
  clock s' = clock s /\ listeners s' = listeners s /\
  offlineQueue s' = offlineQueue s /\ syncInterval s' = syncInterval s /\
  posted s' = posted s.

(** The record that [getUserData] builds from what is stored in [s]. *)
Definition loaded_record {H : Host} (s : State) (id profileImage usage metrics : value) : value :=
  completeUserData (clock s)
    (stored s config.storage.userDataKey)
    (stored s config.storage.subscriptionKey)
    (js_or (stored s config.storage.settingsKey) (VObj []))
    (planId_of s)
    (js_or (plans_get (planId_of s)) (plans_get (VStr "free")))
    id profileImage usage metrics.

(** The properties of the record that [getUserData] builds. *)
Definition loaded_keys : list string :=
  [ "id"; "name"; "email"; "profileImage"; "plan"; "planId"; "planData"; "usage";
    "subscription"; "settings"; "session"; "permissions"; "metrics" ].

(** The plan that a permission asks for. *)
Definition feature_plan : list (string * string) :=
  [ ("canAccessAnalytics", "free");
    ("canUseAPI", "basic"); ("canExportData", "basic"); ("canCustomizeModels", "basic");
    ("canUseAdvancedAnalytics", "pro"); ("canInviteTeamMembers", "pro");
    ("canUseWhiteLabel", "pro"); ("canAccessPrioritySupport", "pro");
    ("canRequestCustomFeatures", "enterprise"); ("hasUnlimitedAPI", "enterprise");
    ("hasUnlimitedStorage", "enterprise"); ("hasUnlimitedProjects", "enterprise") ].

(** The cache holds [null] or an object, as after every assignment that
    the source makes to [_state.currentUser]. *)
Definition cache_holds_a_record (s : State) : Prop :=
  currentUser s = VNull \/ exists fields, currentUser s = VObj fields.

(** The settings that [updateSettings] builds:
    [{...currentSettings, ...settings, lastModified: now}]. *)
Definition updated_settings {H : Host} (s : State) (settings : value) : props :=
  obj_set (obj_assign (spread_props (js_or (stored s config.storage.settingsKey) (VObj [])))
                      (spread_props settings))
          "lastModified" (VStr (Date_toISOString (clock s))).

(** Further keys of the storages. *)
Definition activity_log_key : string := config.storage.prefix ++ "activity_log".
Definition session_id_key : string := config.storage.prefix ++ "session_id".

(** The entries of the stored activity log, when the stored text is absent
    or holds an array. *)
Definition activity_log (s : State) : option (list value) :=
  match localStorage s !! activity_log_key with
  | None => Some []
  | Some (TRaw t) => if String.eqb t "" then Some [] else None
  | Some (TJson (VArr entries)) => Some entries
  | Some (TJson _) => None
  end.

(** An element of an array as [JSON.parse(JSON.stringify(...))] gives it
    back. *)
Definition json_element (x : value) : value :=
  match x with
  | VUndef | VFun _ => VNull
  | _ => json_clean x
  end.

(** The entry that [trackActivity] logs. *)
Definition activity {H : Host} (action data : value) (now : Z) (sessionId : string) : value :=
  VObj [ ("action", action); ("timestamp", VStr (Date_toISOString now));
         ("data", match data with VUndef => VObj [] | _ => data end);
         ("sessionId", VStr sessionId) ].

(** An entry of the offline queue: a save that failed. *)
Definition queued_save (data : value) (timestamp : string) : value :=
  VObj [ ("action", VStr "save"); ("data", data); ("timestamp", VStr timestamp) ].

(** The keys of [localStorage] that the operations on the user record
    write: the record, the subscription, the settings, the offline queue
    and the short-lived keys of the fallback of [_notifyOtherTabs]. *)
Definition written_key (k : string) : Prop :=
  In k [user_key; subscription_key; settings_key; offline_queue_key] \/
  is_prefix (config.storage.prefix ++ "sync_") k = true.

(** Two states whose storages agree outside the written keys. *)
Definition same_other_keys (s s' : State) : Prop :=
  forall k, ~ written_key k -> localStorage s' !! k = localStorage s !! k.

(** The value that [_deepMerge(target, source)] gives to a key of the
    source, for the properties [target] of the target. *)
Definition merged_value (target : props) (key : string) (source_key : value) : value :=
  if _isObject source_key then
    if negb (has_property target key) then source_key
    else default VUndef (_deepMerge (get_prop_opt (VObj target) key) source_key)
  else source_key.

(** No object of a value, at any depth of its properties, has an own
    property named [__proto__]. *)
Fixpoint proto_free (v : value) : bool :=
  match v with
  | VObj kvs =>
      (fix all (l : props) : bool :=
         match l with
         | [] => true
         | (k, x) :: rest => negb (String.eqb k "__proto__") && proto_free x && all rest
         end) kvs
  | _ => true
  end.

(** A computation that keeps the cache a record. *)
Definition keeps_the_cache {A} (m : M A) : Prop :=
  forall s, cache_holds_a_record s -> cache_holds_a_record (snd (m s)).

(** ** Concrete states for the examples *)

Module example.

(** 2023-11-14T22:13:20.000Z. *)
Definition now : Z := 1700000000000.

Definition ada : value :=
  VObj [ ("name", VStr "Ada Lovelace"); ("email", VStr "ada@example.com");
         ("planId", VStr "pro") ].

(** A fresh page on which Ada has just signed up: [saveUserData(ada)]. *)
Definition signed_up : State :=
  snd (saveUserData (H := utc_host) ada (initial_state now)).

(** The same page after the record was read again from storage. *)
Definition reloaded : State := snd (getUserData (H := utc_host) true signed_up).

(** A patch whose session ended on 2020-01-01. *)
Definition expired_patch : value :=
  VObj [ ("name", VStr "Ada Lovelace"); ("email", VStr "ada@example.com");
         ("sessionExpiry", VStr "2020-01-01T00:00:00.000Z") ].

Definition expired_record : value :=
  VObj [ ("name", VStr "Ada Lovelace"); ("email", VStr "ada@example.com");
         ("sessionExpiry", VStr "2020-01-01T00:00:00.000Z");
         ("lastModified", VStr "2023-11-14T22:13:20.000Z") ].

(** A fresh page on which the expired patch was saved. *)
Definition expired_cached : State :=
  snd (saveUserData (H := utc_host) expired_patch (initial_state now)).

(** A page that finds the expired record in storage and has no cache. *)
Definition expired_stored : State :=
  mkState now 0 {[ user_key := TJson expired_record ]} VNull ∅ None [] [] [] [] [].

(** Ada logs in for a day, the record is read from storage, and the tab
    stays open for two days. *)
Definition one_day_patch : value :=
  VObj [ ("name", VStr "Ada Lovelace"); ("email", VStr "ada@example.com");
         ("sessionExpiry", VStr "2023-11-15T22:13:20.000Z") ].

Definition two_days_later : State :=
  set_clock (now + 2 * day_ms)
    (snd (getUserData (H := utc_host) true
            (snd (saveUserData (H := utc_host) one_day_patch (initial_state now))))).

Definition enterprise_user : value :=
  VObj [ ("name", VStr "Grace Hopper"); ("email", VStr "grace@example.com");
         ("planId", VStr "enterprise") ].

Definition on_enterprise : State :=
  snd (saveUserData (H := utc_host) enterprise_user (initial_state now)).

(** Two listeners: the first throws, the second returns. *)
Definition failing_listener : callback :=
  {| cb_id := 1; cb_run := fun _ => Some "Error: listener failed" |}.
Definition quiet_listener : callback := {| cb_id := 2; cb_run := fun _ => None |}.

End example.

(** ** Further states for the examples *)

Module scenario.

(** A page that finds in storage a record whose name is one space. *)
Definition blank_record : value :=
  VObj [ ("name", VStr " "); ("email", VStr "ada@example.com") ].

Definition blank_stored : State :=
  mkState example.now 0 {[ user_key := TJson blank_record ]} VNull ∅ None [] [] [] [] [].

(** A fresh page on which Ada logged in for a day. *)
Definition logged_in_for_a_day : State :=
  snd (saveUserData (H := utc_host) example.one_day_patch (initial_state example.now)).

(** A fresh page with its [sessionStorage], on which no analytics script
    is loaded. *)
Definition fresh_page : Page := mkPage (initial_state example.now) ∅ None.

(** A patch that [_validateUserData] rejects. *)
Definition bad_patch : value := VObj [ ("email", VStr "bad-email") ].

(** A page that went offline with the rejected patch in its queue. *)
Definition offline : State :=
  mkState example.now 0 ∅ VNull ∅ None
          [ queued_save bad_patch "2023-11-14T22:00:00.000Z" ] [] [] [] [].

(** Settings and a patch of them. *)
Definition stored_settings : props :=
  [ ("theme", VObj [ ("mode", VStr "dark"); ("size", VInt 12) ]); ("lang", VStr "en") ].

Definition settings_patch : props := [ ("theme", VObj [ ("mode", VStr "light") ]) ].

End scenario.

(** * Properties *)

(** ** Property keys *)

Section PropertyKeys.
Context {H : Host}.

Lemma ToPropertyKey_primitive (k : value) :
  is_object k = false -> ToPropertyKey k = Ret (js_ToString k).
Proof. destruct k; try discriminate; reflexivity. Qed.

Lemma get_index_primitive (o k : value) :
  is_object k = false -> restricted o (js_ToString k) = false ->
  get_index o k = get_prop o (js_ToString k).
Proof.
  intros Hk Hr. unfold get_index. rewrite (ToPropertyKey_primitive k Hk), Hr.
  now destruct o.
Qed.





(** The access [this.config.plans[planId]] of [getUserData] and
    [_calculateUsage]. *)
Lemma plans_access_returns (planId plan : value) :
  get_index (VObj config.plans) planId = Ret plan -> plan = plans_get planId.
Proof. intros Hp. unfold plans_get. now rewrite Hp. Qed.

Lemma plans_access_throws (planId userData : value) (e : string) :
  get_index (VObj config.plans) planId = Throw e -> _calculateUsage planId userData = Throw e.
Proof. intros Hp. unfold _calculateUsage. now rewrite Hp. Qed.

End PropertyKeys.

(** ** Plan order *)

Lemma index_from_lower_bound (keys : list string) (s : string) :
  forall i, -1 <= i -> -1 <= index_from i keys s.
Proof.
  induction keys as [|k rest IH]; intros i Hi; simpl.
  - lia.
  - destruct (String.eqb k s); [lia | apply IH; lia].
Qed.

Lemma indexOf_lower_bound (keys : list string) (v : value) : -1 <= indexOf keys v.
Proof.
  destruct v; simpl; try lia. apply index_from_lower_bound. lia.
Qed.

Lemma index_from_absent (keys : list string) (s : string) :
  ~ In s keys -> forall i, index_from i keys s = -1.
Proof.
  induction keys as [|k rest IH]; intros Hn i; simpl; [reflexivity|].
  destruct (String.eqb_spec k s) as [->|Hne].
  - exfalso. apply Hn. now left.
  - apply IH. intros Hin. apply Hn. now right.
Qed.

Section PlanOrder.
Context {H : Host}.

(** C6.  The keys of the plan table, in their order, are free, basic, pro
    and enterprise, at positions 0 to 3.  When [getUserData()] returns a
    user, [hasPlan(requiredPlan)] returns true exactly when the position of
    the user's [planId] is at least the position of [requiredPlan]; so
    [hasPlan("pro")] is true for a user on enterprise and false for a user
    on basic.  When [getUserData()] returns [null], [hasPlan] and
    [hasAccess] return false. *)
Theorem hasPlan_follows_plan_order (s : State) (requiredPlan u : value) :
  fst (getUserData false s) = Ret u ->
  map (fun p => indexOf planHierarchy (VStr p)) ["free"; "basic"; "pro"; "enterprise"]
    = [0; 1; 2; 3] /\
  (truthy u = true ->
     fst (hasPlan requiredPlan s)
       = Ret (indexOf planHierarchy requiredPlan
                <=? indexOf planHierarchy (get_prop_opt u "planId")) /\
     (get_prop_opt u "planId" = VStr "enterprise" ->
        fst (hasPlan (VStr "pro") s) = Ret true) /\
     (get_prop_opt u "planId" = VStr "basic" ->
        fst (hasPlan (VStr "pro") s) = Ret false)) /\
  (u = VNull ->
     fst (hasPlan requiredPlan s) = Ret false /\
     forall feature, fst (hasAccess feature s) = Ret false).
Proof.
  intros Hu. split; [reflexivity|].
  unfold hasPlan, hasAccess, bind.
  destruct (getUserData false s) as [[v|e] s1]; simpl in Hu; [|discriminate].
  injection Hu as ->. split.
  - intros Ht. rewrite Ht. simpl. repeat split.
    + intros ->. reflexivity.
    + intros ->. reflexivity.
  - intros ->. simpl. split; [reflexivity | intros; reflexivity].
Qed.

(** C10 (amended).  A string [p] that is not a key of the plan table has
    position -1 in the plan hierarchy, the position of the plan of a user
    is never below -1, and so, for every state in which [getUserData()]
    returns a user, [hasPlan(p)] returns true.  The position of the plan
    of a user can be -1 itself, and [hasPlan] then returns false for
    every plan of the table. *)
Theorem hasPlan_unknown_plan_is_true (s : State) (p : string) (u : value) :
  ~ In p planHierarchy ->
  fst (getUserData false s) = Ret u ->
  truthy u = true ->
  indexOf planHierarchy (VStr p) = -1 /\
  -1 <= indexOf planHierarchy (get_prop_opt u "planId") /\
  fst (hasPlan (VStr p) s) = Ret true /\
  (indexOf planHierarchy (get_prop_opt u "planId") = -1 ->
   forall q, In q planHierarchy -> fst (hasPlan (VStr q) s) = Ret false).
Proof.
  intros Hp Hu Ht.
  assert (Hidx : indexOf planHierarchy (VStr p) = -1)
    by (apply index_from_absent; exact Hp).
  split; [exact Hidx|]. split; [apply indexOf_lower_bound|].
  unfold hasPlan, bind.
  destruct (getUserData false s) as [[v|e] s1]; simpl in Hu; [|discriminate].
  injection Hu as ->. rewrite Ht. unfold ret. cbn [negb fst]. split.
  - rewrite Hidx. f_equal. apply Z.leb_le. apply indexOf_lower_bound.
  - intros Hminus q Hq. rewrite Hminus. f_equal.
    unfold planHierarchy in Hq. cbn in Hq.
    destruct Hq as [<- | [<- | [<- | [<- | []]]]]; reflexivity.
Qed.

End PlanOrder.

(** ** Avatar *)

Lemma js_or_truthy (a b : value) : truthy a = true -> js_or a b = a.
Proof. intros Ht. unfold js_or. now rewrite Ht. Qed.

Lemma js_or_falsy (a b : value) : truthy a = false -> js_or a b = b.
Proof. intros Ht. unfold js_or. now rewrite Ht. Qed.

Lemma NoDup_nth_distinct (l : list string) (i j : nat) :
  NoDup l -> (i < length l)%nat -> (j < length l)%nat -> i <> j -> nth i l "" <> nth j l "".
Proof.
  intros Hnd Hi Hj Hij Heq. apply Hij.
  apply NoDup_ListNoDup in Hnd.
  exact (proj1 (List.NoDup_nth l "") Hnd i j Hi Hj Heq).
Qed.

Lemma background_color_distinct (colors : list string) (a b : string) :
  NoDup colors -> colors <> [] ->
  palette_index colors a <> palette_index colors b ->
  background_color colors a <> background_color colors b.
Proof.
  intros Hnd Hne Hidx. unfold background_color.
  assert (Hlen : 0 < Z.of_nat (length colors)) by (destruct colors; [congruence | simpl; lia]).
  assert (Ha := Z.mod_pos_bound (Z.abs (string_hash a)) _ Hlen).
  assert (Hb := Z.mod_pos_bound (Z.abs (string_hash b)) _ Hlen).
  fold (palette_index colors a) in Ha. fold (palette_index colors b) in Hb.
  apply NoDup_nth_distinct; [exact Hnd | lia | lia | lia].
Qed.

Lemma _getDefaultAvatar_colors_NoDup : NoDup _getDefaultAvatar_colors.
Proof. apply (bool_decide_unpack _). vm_compute. reflexivity. Qed.

Lemma generateUserAvatar_colors_NoDup : NoDup generateUserAvatar_colors.
Proof. apply (bool_decide_unpack _). vm_compute. reflexivity. Qed.

Section AvatarProperties.
Context {H : Host}.

Lemma avatar_depends_on_name_and_email colors svg1 svg2 svg3 (u u' : value) :
  get_prop_opt u "name" = get_prop_opt u' "name" ->
  get_prop_opt u "email" = get_prop_opt u' "email" ->
  avatar colors svg1 svg2 svg3 u = avatar colors svg1 svg2 svg3 u'.
Proof. intros Hn He. unfold avatar. rewrite Hn, He. reflexivity. Qed.

Lemma avatar_output colors svg1 svg2 svg3 (u : value) (e : string) (out : value) :
  get_prop_opt u "email" = VStr e -> e <> "" ->
  avatar colors svg1 svg2 svg3 u = Ret out ->
  exists initials,
    out = VStr ("data:image/svg+xml;base64," ++
                btoa (utf8 (svg1 ++ background_color colors (String_toLowerCase e) ++
                            svg2 ++ initials ++ svg3))).
Proof.
  intros He Hne. unfold avatar. rewrite He.
  assert (Ht : truthy (VStr e) = true).
  { simpl. destruct (String.eqb_spec e ""); [contradiction | reflexivity]. }
  rewrite !(js_or_truthy (VStr e)) by exact Ht.
  destruct (avatar_initials _ _) as [i|]; [|discriminate].
  destruct (toUpperCase i) as [initials|]; [|discriminate].
  cbn [toLowerCase]. intros [= Hout]. subst out. exists initials. reflexivity.
Qed.

(** C7 (amended).  The avatar generators ([_getDefaultAvatar] of
    js/auth-popups.js and [generateUserAvatar] of js/dashboard.js) are
    functions of the name and the email alone: two calls on user data with
    the same name and email give the same outcome, byte for byte.  For a
    user with a (non-empty) email the data URL encodes the SVG whose fill
    colour is the palette entry at index [Math.abs(hash) % colors.length],
    for the hash of the lower-cased email; and two emails get different
    colours whenever the absolute values of their hashes differ modulo the
    palette size. *)
Theorem avatar_is_deterministic :
  (forall u u' : value,
     get_prop_opt u "name" = get_prop_opt u' "name" ->
     get_prop_opt u "email" = get_prop_opt u' "email" ->
     _getDefaultAvatar u = _getDefaultAvatar u' /\
     generateUserAvatar u = generateUserAvatar u') /\
  (forall (u : value) (e : string) (out : value),
     get_prop_opt u "email" = VStr e -> e <> "" ->
     (_getDefaultAvatar u = Ret out ->
      exists initials,
        out = VStr ("data:image/svg+xml;base64," ++
                    btoa (utf8 (_getDefaultAvatar_svg1 ++
                                background_color _getDefaultAvatar_colors (String_toLowerCase e) ++
                                _getDefaultAvatar_svg2 ++ initials ++ _getDefaultAvatar_svg3)))) /\
     (generateUserAvatar u = Ret out ->
      exists initials,
        out = VStr ("data:image/svg+xml;base64," ++
                    btoa (utf8 (generateUserAvatar_svg1 ++
                                background_color generateUserAvatar_colors (String_toLowerCase e) ++
                                generateUserAvatar_svg2 ++ initials ++ generateUserAvatar_svg3))))) /\
  (forall e1 e2 : string,
     (palette_index _getDefaultAvatar_colors e1 <> palette_index _getDefaultAvatar_colors e2 ->
      background_color _getDefaultAvatar_colors e1 <> background_color _getDefaultAvatar_colors e2) /\
     (palette_index generateUserAvatar_colors e1 <> palette_index generateUserAvatar_colors e2 ->
      background_color generateUserAvatar_colors e1 <> background_color generateUserAvatar_colors e2)).
Proof.
  split; [|split].
  - intros u u' Hn He. split; apply avatar_depends_on_name_and_email; assumption.
  - intros u e out He Hne. split; apply avatar_output; assumption.
  - intros e1 e2. split; apply background_color_distinct;
      auto using _getDefaultAvatar_colors_NoDup, generateUserAvatar_colors_NoDup; discriminate.
Qed.

End AvatarProperties.

(** ** What the helpers leave unchanged *)

Lemma logs_only_refl (s : State) : logs_only s s.
Proof. exists (console s), (invoked s), (dispatched s). now destruct s. Qed.

Lemma logs_only_trans (s1 s2 s3 : State) :
  logs_only s1 s2 -> logs_only s2 s3 -> logs_only s1 s3.
Proof. intros (c & i & d & ->) (c' & i' & d' & ->). now exists c', i', d'. Qed.

Section Frames.
Context {H : Host}.

Lemma log_spec (level msg : string) (s : State) :
  exists s', log level msg s = (Ret tt, s') /\ logs_only s s'.
Proof.
  unfold log. destruct (_ || _).
  - eexists. split; [reflexivity|].
    now do 3 eexists.
  - exists s. split; [reflexivity | apply logs_only_refl].
Qed.

Lemma _getFromStorage_spec (key : string) (s : State) :
  exists s', _getFromStorage key s = (Ret (stored s key), s') /\ logs_only s s'.
Proof.
  unfold _getFromStorage, stored, try_catch, bind, gets. cbn [fst snd].
  destruct (localStorage s !! _) as [[v|t]|].
  - exists s. split; [reflexivity | apply logs_only_refl].
  - destruct (String.eqb t "").
    + exists s. split; [reflexivity | apply logs_only_refl].
    + unfold throw.
      match goal with
      | |- context [log ?l ?m ?s0] => destruct (log_spec l m s0) as (s' & -> & Hl)
      end.
      exists s'. split; [reflexivity | exact Hl].
  - exists s. split; [reflexivity | apply logs_only_refl].
Qed.

Lemma forEach_listener_spec (eventName : string) (data : value) (l : list callback) :
  forall s, exists s', forEach_listener eventName data l s = (Ret tt, s') /\ logs_only s s'.
Proof.
  induction l as [|cb rest IH]; intros s; simpl.
  - exists s. split; [reflexivity | apply logs_only_refl].
  - unfold bind, try_catch, call, modify, bind.
    destruct (cb_run cb data) as [e|].
    + unfold throw.
      match goal with
      | |- context [log ?l ?m ?s0] => destruct (log_spec l m s0) as (s1 & -> & Hl1)
      end.
      destruct (IH s1) as (s2 & -> & Hl2). exists s2. split; [reflexivity|].
      eapply logs_only_trans; [|exact Hl2]. eapply logs_only_trans; [|exact Hl1].
      now do 3 eexists.
    + unfold ret.
      destruct (IH (set_invoked (invoked s ++ [(cb_id cb, data)]) s)) as (s2 & -> & Hl2).
      exists s2. split; [reflexivity|].
      eapply logs_only_trans; [|exact Hl2].
      now do 3 eexists.
Qed.

Lemma _triggerEvent_spec (eventName : string) (data : value) (s : State) :
  exists s', _triggerEvent eventName data s = (Ret tt, s') /\ logs_only s s'.
Proof.
  unfold _triggerEvent, bind, gets, ret, window_dispatchEvent, modify.
  cbn [config.events.logEvents config.events.enableCustomEvents].
  destruct (listeners s !! eventName) as [l|].
  - destruct (forEach_listener_spec eventName data l s) as (s1 & -> & Hl).
    eexists. split; [reflexivity|].
    eapply logs_only_trans; [exact Hl|].
    now do 3 eexists.
  - eexists. split; [reflexivity|].
    now do 3 eexists.
Qed.

End Frames.

(** ** Listeners *)

Section Listeners.

Lemma forEach_listener_exact (eventName : string) (data : value) (l : list callback) :
  forall s,
    forEach_listener eventName data l s =
      (Ret tt, with_logs (console s ++ error_lines eventName data l)
                         (invoked s ++ calls_of data l) (dispatched s) s).
Proof.
  induction l as [|cb rest IH]; intros s; simpl.
  - unfold ret, with_logs. rewrite !app_nil_r. now destruct s.
  - unfold bind at 1. unfold try_catch, call, modify, bind.
    destruct (cb_run cb data) as [e|]; unfold throw, ret, log, modify, bind;
      cbn -[forEach_listener with_logs]; rewrite IH; unfold with_logs; cbn; rewrite <- ?app_assoc; reflexivity.
Qed.

Lemma _triggerEvent_exact (eventName : string) (data : value) (s : State) :
  let l := default [] (listeners s !! eventName) in
  _triggerEvent eventName data s =
    (Ret tt, with_logs (console s ++ error_lines eventName data l)
                       (invoked s ++ calls_of data l)
                       (dispatched s ++ [("emiralai:" ++ eventName, data)]) s).
Proof.
  unfold _triggerEvent, bind, gets, ret, window_dispatchEvent, modify.
  cbn [config.events.logEvents config.events.enableCustomEvents].
  destruct (listeners s !! eventName) as [l|]; cbn [default].
  - rewrite forEach_listener_exact. reflexivity.
  - cbn. unfold with_logs. rewrite !app_nil_r. reflexivity.
Qed.

Lemma on_all_listeners (event : string) (cbs : list callback) :
  forall s,
    fst (on_all event cbs s) = Ret tt /\
    default [] (listeners (snd (on_all event cbs s)) !! event)
      = added_to (default [] (listeners s !! event)) cbs /\
    invoked (snd (on_all event cbs s)) = invoked s /\
    console (snd (on_all event cbs s)) = console s.
Proof.
  induction cbs as [|cb rest IH]; intros s; simpl.
  - repeat split.
  - unfold bind, on, modify. cbn [fst snd].
    destruct (IH (set_listeners
                    (<[event := set_add cb (default [] (listeners s !! event))]> (listeners s)) s))
      as (Hr & Hl & Hi & Hc).
    rewrite Hr, Hl, Hi, Hc. cbn. rewrite lookup_insert_eq. repeat split.
Qed.

Lemma set_add_fresh (cb : callback) (acc : list callback) :
  ~ In (cb_id cb) (map cb_id acc) -> set_add cb acc = (acc ++ [cb])%list.
Proof.
  intros Hn. unfold set_add.
  destruct (existsb _ acc) eqn:E; [|reflexivity].
  apply existsb_exists in E as (c & Hc & Heq). apply Nat.eqb_eq in Heq.
  exfalso. apply Hn. rewrite <- Heq. now apply in_map.
Qed.

Lemma added_to_distinct (cbs : list callback) :
  forall acc, List.NoDup (map cb_id (acc ++ cbs)) -> added_to acc cbs = (acc ++ cbs)%list.
Proof.
  induction cbs as [|cb rest IH]; intros acc Hnd; simpl.
  - now rewrite app_nil_r.
  - unfold added_to in *. simpl. rewrite set_add_fresh.
    + rewrite IH; rewrite <- app_assoc; [reflexivity | exact Hnd].
    + rewrite map_app in Hnd. simpl in Hnd.
      apply List.NoDup_remove_2 in Hnd. intros Hin. apply Hnd.
      apply in_or_app. now left.
Qed.

Lemma set_add_keeps (cb c : callback) (acc : list callback) :
  In (cb_id c) (map cb_id acc) \/ cb_id c = cb_id cb ->
  In (cb_id c) (map cb_id (set_add cb acc)).
Proof.
  intros Hc. unfold set_add. destruct (existsb _ acc) eqn:E.
  - destruct Hc as [Hc | Hc]; [exact Hc|].
    apply existsb_exists in E as (c' & Hc' & Heq). apply Nat.eqb_eq in Heq.
    rewrite Hc, <- Heq. now apply in_map.
  - rewrite map_app. apply in_or_app. destruct Hc as [Hc | Hc]; [now left|].
    right. simpl. now left.
Qed.

Lemma added_to_keeps (cbs : list callback) (c : callback) :
  forall acc,
    In (cb_id c) (map cb_id acc) \/ In c cbs ->
    In (cb_id c) (map cb_id (added_to acc cbs)).
Proof.
  induction cbs as [|cb rest IH]; intros acc Hc; simpl.
  - destruct Hc as [Hc | []]. exact Hc.
  - unfold added_to in *. simpl. apply IH.
    destruct Hc as [Hc | [-> | Hc]].
    + left. apply set_add_keeps. now left.
    + left. apply set_add_keeps. now right.
    + now right.
Qed.

(** C8.  After the callbacks [cbs] have been registered for an event, in
    this order, [emit] returns normally and has called, synchronously and
    in the order of their registration, the listeners of the event, each
    with the payload: the calls made are those of the Set that [on] built,
    which holds every registered callback once, at the place of its first
    registration.  A listener that throws adds a line to the console and
    does not stop the later ones.  When the callbacks are distinct, the
    calls made are exactly [cbs]. *)
Theorem emit_calls_listeners_in_registration_order
  (event : string) (data : value) (cbs : list callback) (s : State) :
  listeners s !! event = None ->
  let s1 := snd (on_all event cbs s) in
  let s2 := snd (_triggerEvent event data s1) in
  fst (_triggerEvent event data s1) = Ret tt /\
  invoked s2 = (invoked s ++ calls_of data (added_to [] cbs))%list /\
  console s2 = (console s ++ error_lines event data (added_to [] cbs))%list /\
  (forall cb, In cb cbs -> In (cb_id cb, data) (calls_of data (added_to [] cbs))) /\
  (List.NoDup (map cb_id cbs) -> added_to [] cbs = cbs).
Proof.
  intros Hnone s1 s2.
  destruct (on_all_listeners event cbs s) as (_ & Hl & Hi & Hc).
  rewrite Hnone in Hl. cbn [default] in Hl. fold s1 in Hl, Hi, Hc.
  assert (Hrun := _triggerEvent_exact event data s1). cbn zeta in Hrun. rewrite Hl in Hrun.
  subst s2. rewrite Hrun. cbn. rewrite Hi, Hc. repeat split.
  - intros cb Hin.
    assert (Hid := added_to_keeps cbs cb [] (or_intror Hin)).
    apply in_map_iff in Hid as (c & Hc' & Hin'). unfold calls_of.
    apply in_map_iff. exists c. now rewrite Hc'.
  - intros Hnd. now apply (added_to_distinct cbs []).
Qed.

End Listeners.

(** ** Reading and clearing *)

Ltac step_log :=
  match goal with
  | |- context [log ?l ?m ?s0] =>
      let s' := fresh "s" in
      destruct (log_spec l m s0) as (s' & -> & (? & ? & ? & ->))
  end.

Ltac step_trigger :=
  match goal with
  | |- context [_triggerEvent ?e ?d ?s0] =>
      let s' := fresh "s" in
      destruct (_triggerEvent_spec e d s0) as (s' & -> & (? & ? & ? & ->))
  end.

Ltac step_read :=
  match goal with
  | |- context [_getFromStorage ?k ?s0] =>
      let s' := fresh "s" in
      destruct (_getFromStorage_spec k s0) as (s' & -> & (? & ? & ? & ->))
  end.


Arguments truthy : simpl never.
Arguments js_or : simpl never.
Arguments get_prop_opt : simpl never.
Arguments get_index : simpl never.
Arguments plans_get : simpl never.
Arguments profileImage_of : simpl never.
Arguments _calculateUsage : simpl never.
Arguments _enhanceSubscription : simpl never.
Arguments _getPermissions : simpl never.
Arguments _isSessionValid : simpl never.
Arguments _validateUserData : simpl never.
Arguments new_subscription : simpl never.
Arguments JSON_stringify : simpl never.
Arguments spread_props : simpl never.
Arguments obj_assign : simpl never.
Arguments obj_set : simpl never.
Arguments obj_without : simpl never.
Arguments Z_to_string : simpl never.
Arguments indexOf : simpl never.
Arguments new_Date : simpl never.
Arguments parseInt_item : simpl never.
Arguments completeUserData : simpl never.

Section Reading.
Context {H : Host}.

Lemma clearUserData_spec (clearSettings : bool) (s : State) :
  exists s',
    clearUserData clearSettings s = (Ret tt, s') /\
    currentUser s' = VNull /\
    localStorage s' !! user_key = None /\
    localStorage s' !! subscription_key = None /\
    clock s' = clock s /\ draws s' = draws s /\ listeners s' = listeners s.
Proof.
  unfold clearUserData, try_catch.
  unfold _removeFromStorage, _notifyOtherTabs, bind, modify, gets, ret.
  destruct clearSettings; cbn -[_triggerEvent log];
    (destruct (syncInterval s); cbn -[_triggerEvent log];
     step_trigger; cbn -[log];
     destruct has_BroadcastChannel; cbn -[log];
     step_log; eexists; (split; [reflexivity|]); cbn;
     repeat split; unfold user_key, subscription_key; cbn; simplify_map_eq; reflexivity).
Qed.

End Reading.

Section ReadingUser.
Context {H : Host}.

Lemma _getUserMetrics_spec (userData : value) (s : State) :
  exists m, _getUserMetrics userData s = (Ret m, s).
Proof. unfold _getUserMetrics, bind, gets, ret. eexists. reflexivity. Qed.

(** [getUserData] never throws; it returns [null] or a truthy record that
    is then the cached one.  When a read that was not forced returns
    [null], nothing is cached and the stored record is absent or cannot be
    enriched. *)
Lemma getUserData_spec (forceRefresh : bool) (s : State) :
  exists v s',
    getUserData forceRefresh s = (Ret v, s') /\
    clock s' = clock s /\ listeners s' = listeners s /\
    (v = VNull /\ (forceRefresh = false -> truthy (currentUser s') = false /\ read_fails s')
     \/ (truthy v = true /\ currentUser s' = v)).
Proof.
  unfold getUserData, try_catch. unfold bind at 1. unfold gets at 1.
  destruct (negb forceRefresh && truthy (currentUser s)) eqn:Hc.
  - unfold ret. exists (currentUser s), s. repeat split.
    right. apply andb_prop in Hc as [_ Hc]. now split.
  - assert (Hcache : forceRefresh = false -> truthy (currentUser s) = false)
      by (now intros ->).
    unfold bind at 1. step_read.
    destruct (negb (truthy (stored s config.storage.userDataKey))) eqn:Habs.
    { unfold ret. do 2 eexists. split; [reflexivity|]. cbn. repeat split.
      left. split; [reflexivity|]. intros Hf. split; [auto|].
      left. unfold stored. cbn. fold (stored s config.storage.userDataKey).
      now apply negb_true_iff. }
    unfold bind at 1. unfold gets at 1. cbn [clock with_logs].
    destruct (negb (_isSessionValid _ _)).
    { unfold bind, ret.
      match goal with
      | |- context [clearUserData ?b ?s0] =>
          destruct (clearUserData_spec b s0) as (s' & -> & Hcu & Hu & _ & Hk & _ & Hl)
      end.
      do 2 eexists. split; [reflexivity|]. cbn in Hk, Hl. repeat split; auto.
      left. split; [reflexivity|]. intros _. rewrite Hcu. split; [reflexivity|].
      left. unfold stored. fold user_key. now rewrite Hu. }
    unfold bind at 1. step_read. unfold bind at 1. step_read.
    unfold bind at 1, lift at 1.
    destruct (get_index (VObj config.plans) _) as [plan|e] eqn:Hplan.
    2: { cbn beta iota. unfold bind, ret. step_log.
         do 2 eexists. split; [reflexivity|]. cbn. repeat split.
         left. split; [reflexivity|]. intros Hf. split; [auto|].
         right. right. exists e. apply plans_access_throws. exact Hplan. }
    unfold bind at 1.
    match goal with
    | |- context [(if truthy ?i then ret ?i else _generateUserId) ?s0] =>
        assert (Hid : exists v n, (if truthy i then ret i else _generateUserId) s0
                                  = (Ret v, set_draws n s0))
    end.
    { destruct (truthy (get_prop_opt _ "id")); unfold ret, _generateUserId, bind, gets, modify;
        do 2 eexists; reflexivity. }
    destruct Hid as (id & n & ->).
    unfold bind at 1, lift.
    destruct (profileImage_of _) as [img|e] eqn:Himg.
    2: { cbn beta iota. unfold bind, ret. step_log.
         do 2 eexists. split; [reflexivity|]. cbn. repeat split.
         left. split; [reflexivity|]. intros Hf. split; [auto|].
         right. left. exists e. exact Himg. }
    unfold bind at 1. destruct (_calculateUsage _ _) as [usage|e] eqn:Husage.
    2: { cbn beta iota. unfold bind, ret. step_log.
         do 2 eexists. split; [reflexivity|]. cbn. repeat split.
         left. split; [reflexivity|]. intros Hf. split; [auto|].
         right. right. exists e. exact Husage. }
    unfold bind at 1.
    match goal with
    | |- context [_getUserMetrics ?u ?s0] =>
        destruct (_getUserMetrics_spec u s0) as (m & ->)
    end.
    unfold bind at 1, modify. unfold bind at 1. step_trigger. unfold ret.
    do 2 eexists. split; [reflexivity|]. cbn. repeat split; auto.
Qed.

(** With nothing cached, a read of a stored record that is absent or
    cannot be enriched returns [null]. *)
Lemma getUserData_null_if (s : State) :
  truthy (currentUser s) = false -> read_fails s -> fst (getUserData false s) = Ret VNull.
Proof.
  intros Hc Hfail.
  enough (Hrun : exists s', getUserData false s = (Ret VNull, s'))
    by (destruct Hrun as (s' & ->); reflexivity).
  unfold getUserData, try_catch. unfold bind at 1. unfold gets at 1.
  rewrite Hc. cbn [negb andb].
  unfold bind at 1. step_read.
  destruct (negb (truthy (stored s config.storage.userDataKey))) eqn:Habs.
  { unfold ret. eexists. reflexivity. }
  unfold bind at 1. unfold gets at 1. cbn [clock with_logs].
  destruct (negb (_isSessionValid _ _)).
  { unfold bind, ret.
    match goal with
    | |- context [clearUserData ?b ?s0] =>
        destruct (clearUserData_spec b s0) as (s' & -> & _)
    end.
    eexists. reflexivity. }
  unfold bind at 1. step_read. unfold bind at 1. step_read.
  unfold bind at 1, lift at 1.
  destruct (get_index (VObj config.plans) _) as [plan|e0].
  2: { cbn beta iota. unfold bind, ret. step_log. eexists. reflexivity. }
  unfold bind at 1.
  match goal with
  | |- context [(if truthy ?i then ret ?i else _generateUserId) ?s0] =>
      assert (Hid : exists v n, (if truthy i then ret i else _generateUserId) s0
                                = (Ret v, set_draws n s0))
  end.
  { destruct (truthy (get_prop_opt _ "id")); unfold ret, _generateUserId, bind, gets, modify;
      do 2 eexists; reflexivity. }
  destruct Hid as (id & n & ->).
  unfold bind at 1, lift.
  destruct Hfail as [Ha | [(e & He) | (e & He)]].
  - apply negb_false_iff in Habs. congruence.
  - rewrite He. cbn beta iota. unfold bind, ret. step_log. eexists. reflexivity.
  - destruct (profileImage_of _) as [img|e'].
    2: { cbn beta iota. unfold bind, ret. step_log. eexists. reflexivity. }
    unfold bind at 1.
    change (stored (with_logs x x0 x1 s) config.storage.subscriptionKey)
      with (stored s config.storage.subscriptionKey).
    fold (planId_of s). rewrite He.
    cbn beta iota. unfold bind, ret. step_log. eexists. reflexivity.
Qed.

(** A read without [forceRefresh] is served from the cache when there is
    one: the cached record is returned as it is and nothing changes. *)
Lemma getUserData_cached (s : State) :
  truthy (currentUser s) = true -> getUserData false s = (Ret (currentUser s), s).
Proof.
  intros Hc. unfold getUserData, try_catch, bind, gets. cbn [negb andb].
  rewrite Hc. reflexivity.
Qed.

(** Two reads in a row give the same result. *)
Lemma getUserData_twice (s : State) :
  fst (getUserData false (snd (getUserData false s))) = fst (getUserData false s).
Proof.
  destruct (getUserData_spec false s) as (v & s' & Hget & _ & _ & [[-> Hnull] | [Ht Hc]]);
    rewrite Hget; cbn [fst snd].
  - destruct (Hnull eq_refl) as [Hc Hfail]. now apply getUserData_null_if.
  - rewrite getUserData_cached by (now rewrite Hc). cbn [fst]. now rewrite Hc.
Qed.

(** C1 (amended).  When [getUserData] reads storage, that is when
    [forceRefresh] is set or nothing is cached, and the stored user record
    carries a (truthy) [sessionExpiry] whose time is strictly before the
    time of the call, it returns [null], removes the stored record and the
    subscription, and empties the cache.  A read served from the cache
    returns the cached record without looking at its expiry. *)
Theorem getUserData_expired_session
  (s : State) (forceRefresh : bool) (record sessionExpiry : value) (expiry : Z) :
  localStorage s !! user_key = Some (TJson record) ->
  truthy record = true ->
  get_prop_opt record "sessionExpiry" = sessionExpiry ->
  truthy sessionExpiry = true ->
  new_Date sessionExpiry = Some expiry ->
  expiry < clock s ->
  (forceRefresh = true \/ truthy (currentUser s) = false ->
     fst (getUserData forceRefresh s) = Ret VNull /\
     localStorage (snd (getUserData forceRefresh s)) !! user_key = None /\
     localStorage (snd (getUserData forceRefresh s)) !! subscription_key = None /\
     currentUser (snd (getUserData forceRefresh s)) = VNull) /\
  (forceRefresh = false -> truthy (currentUser s) = true ->
     getUserData forceRefresh s = (Ret (currentUser s), s)).
Proof.
  intros Hstored Hrec Hse Htr Hdate Hexp. split.
  - intros Hread.
    enough (Hrun : exists s', getUserData forceRefresh s = (Ret VNull, s') /\
                     localStorage s' !! user_key = None /\
                     localStorage s' !! subscription_key = None /\
                     currentUser s' = VNull)
      by (destruct Hrun as (s' & -> & Hrun); exact (conj eq_refl Hrun)).
    assert (Hc : negb forceRefresh && truthy (currentUser s) = false).
    { destruct Hread as [-> | ->]; [reflexivity | apply andb_false_r]. }
    unfold getUserData, try_catch. unfold bind at 1. unfold gets at 1. rewrite Hc.
    unfold bind at 1. step_read.
    assert (Hst : stored s config.storage.userDataKey = record).
    { unfold stored. fold user_key. now rewrite Hstored. }
    rewrite Hst, Hrec. cbn [negb].
    unfold bind at 1. unfold gets at 1. cbn [clock with_logs].
    assert (Hinv : _isSessionValid (clock s) record = false).
    { unfold _isSessionValid. rewrite Hse, Htr, Hdate. cbn [negb]. apply Z.ltb_ge. lia. }
    rewrite Hinv. cbn [negb]. unfold bind, ret.
    match goal with
    | |- context [clearUserData ?b ?s0] =>
        destruct (clearUserData_spec b s0) as (s' & -> & Hcu & Hu & Hsub & _)
    end.
    exists s'. auto.
  - intros -> Hc. now apply getUserData_cached.
Qed.

End ReadingUser.

(** ** Objects *)

Lemma own_get_obj_set (l : props) (k k' : string) (v : value) :
  own_get (obj_set l k v) k' = if String.eqb k k' then Some v else own_get l k'.
Proof.
  unfold obj_set. induction l as [|[k0 v0] rest IH]; simpl.
  - reflexivity.
  - destruct (String.eqb_spec k0 k) as [->|Hne]; simpl.
    + destruct (String.eqb k k'); reflexivity.
    + fold (obj_set rest k v). destruct (String.eqb_spec k0 k') as [->|Hne'].
      * destruct (String.eqb_spec k k'); [congruence | reflexivity].
      * exact IH.
Qed.

Lemma own_get_absent (l : props) (k : string) :
  ~ In k (map fst l) -> own_get l k = None.
Proof.
  induction l as [|[k0 v0] rest IH]; simpl; intros Hn; [reflexivity|].
  destruct (String.eqb_spec k0 k) as [->|Hne]; [exfalso; auto | apply IH; auto].
Qed.

Lemma own_get_present (l : props) (k : string) (v : value) :
  List.NoDup (map fst l) -> In (k, v) l -> own_get l k = Some v.
Proof.
  induction l as [|[k0 v0] rest IH]; simpl; intros Hnd Hin; [contradiction|].
  inversion Hnd as [|? ? Hnotin Hnd']; subst.
  destruct Hin as [[= -> ->] | Hin].
  - now rewrite String.eqb_refl.
  - destruct (String.eqb_spec k0 k) as [->|Hne]; [|now apply IH].
    exfalso. apply Hnotin. change k with (fst (k, v)). now apply in_map.
Qed.

Lemma own_get_obj_assign (b : props) (k : string) :
  List.NoDup (map fst b) ->
  forall a,
    own_get (obj_assign a b) k
      = match own_get b k with
        | Some v => Some v
        | None => own_get a k
        end.
Proof.
  unfold obj_assign. induction b as [|[k0 v0] rest IH]; simpl; intros Hnd a; [reflexivity|].
  inversion Hnd as [|? ? Hnotin Hnd']; subst.
  rewrite IH by exact Hnd'. rewrite own_get_obj_set.
  destruct (String.eqb_spec k0 k) as [->|Hne]; [|reflexivity].
  now rewrite own_get_absent.
Qed.


Lemma json_clean_object (l : props) :
  exists l', json_clean (VObj l) = VObj l' /\
             forall k, own_get l k = None -> own_get l' k = None.
Proof.
  induction l as [|[k0 v0] rest (l' & Heq & Hl')].
  - exists []. split; [reflexivity | auto].
  - simpl in Heq. injection Heq as Heq.
    destruct v0; simpl; rewrite ?Heq;
      try (exists l'; split; [reflexivity|]; intros k; simpl;
           destruct (String.eqb k0 k); [discriminate | apply Hl']);
      (eexists; split; [reflexivity|]; intros k; simpl;
       destruct (String.eqb k0 k); [discriminate | apply Hl']).
Qed.

(** ** Saving *)

Section Saving.
Context {H : Host}.

(** The effect of [saveUserData] on a patch that passes validation.  The
    call fails only when the message to the other tabs cannot be cloned,
    and has written the record by then. *)
Lemma saveUserData_valid (data : value) (s : State) :
  _validateUserData data = true ->
  exists current s1 s',
    getUserData false s = (Ret current, s1) /\
    let updated := merged (clock s) current data in
    let subscription := get_prop_opt (VObj updated) "subscription" in
    let settings := get_prop_opt (VObj updated) "settings" in
    saveUserData data s
      = (Ret (negb (has_BroadcastChannel && has_function (VObj updated))), s') /\
    currentUser s' = VObj updated /\
    localStorage s' !! user_key
      = Some (JSON_stringify (VObj (obj_without separated_keys updated))) /\
    localStorage s' !! subscription_key
      = (if truthy subscription then Some (JSON_stringify subscription)
         else localStorage s1 !! subscription_key) /\
    localStorage s' !! settings_key
      = (if truthy settings then Some (JSON_stringify settings)
         else localStorage s1 !! settings_key) /\
    clock s' = clock s /\ listeners s' = listeners s.
Proof.
  intros Hv.
  destruct (getUserData_spec false s) as (current & s1 & Hget & Hk & Hl & _).
  exists current, s1.
  unfold saveUserData, try_catch. unfold bind at 1. rewrite Hv. cbn [negb].
  unfold ret at 1. unfold bind at 1. rewrite Hget.
  unfold bind at 1. unfold gets at 1. rewrite Hk.
  fold (merged (clock s) current data).
  set (updated := merged (clock s) current data).
  unfold _saveToStorage, bind, modify, ret, _queueServerSync.
  cbn [config.features.enableAutoSave config.features.enableOfflineMode].
  destruct (truthy (get_prop_opt (VObj updated) "subscription")),
           (truthy (get_prop_opt (VObj updated) "settings"));
    cbn -[_triggerEvent _notifyOtherTabs log _addToOfflineQueue has_function];
    step_trigger; unfold _notifyOtherTabs, bind, gets, modify, throw;
    (destruct has_BroadcastChannel; [destruct (has_function (VObj updated))|]);
    cbn -[log _addToOfflineQueue]; repeat step_log;
    unfold _addToOfflineQueue, bind, gets, modify, ret; cbn;
    eexists; (split; [reflexivity|]); (split; [reflexivity|]); cbn;
    unfold user_key, subscription_key, settings_key; cbn;
    repeat split; simplify_map_eq; auto.
Qed.

(** The effect of [saveUserData] on a patch that fails validation: the
    patch goes to the offline queue and nothing else is written. *)
Lemma saveUserData_invalid (data : value) (s : State) :
  _validateUserData data = false ->
  exists s',
    saveUserData data s = (Ret false, s') /\
    currentUser s' = currentUser s /\
    localStorage s' = <[offline_queue_key := JSON_stringify (VArr (offlineQueue s'))]> (localStorage s).
Proof.
  intros Hv. unfold saveUserData, try_catch. unfold bind at 1. rewrite Hv. cbn [negb].
  unfold throw. cbn beta iota. unfold bind at 1. step_log.
  cbn [config.features.enableOfflineMode].
  unfold _addToOfflineQueue, bind, gets, modify, ret. cbn.
  eexists. split; [reflexivity|]. cbn. split; reflexivity.
Qed.

Lemma saveUserData_true_valid (data : value) (s : State) :
  fst (saveUserData data s) = Ret true -> _validateUserData data = true.
Proof.
  intros Hr. destruct (_validateUserData data) eqn:Hv; [reflexivity|].
  destruct (saveUserData_invalid data s Hv) as (s' & Heq & _).
  rewrite Heq in Hr. discriminate.
Qed.

(** C4 (amended).  For every patch that fails validation, [saveUserData]
    returns false and leaves the stored user record, the stored
    subscription, the stored settings and the cached record as they were.
    In particular a patch fails validation when it carries an email that is
    present in the sense of the guard [data.email &&] (not the empty
    string) and does not match the shape local@domain.tld. *)
Theorem saveUserData_rejects_invalid_patch :
  (forall (s : State) (data : value),
     _validateUserData data = false ->
     fst (saveUserData data s) = Ret false /\
     localStorage (snd (saveUserData data s)) !! user_key = localStorage s !! user_key /\
     localStorage (snd (saveUserData data s)) !! subscription_key
       = localStorage s !! subscription_key /\
     localStorage (snd (saveUserData data s)) !! settings_key
       = localStorage s !! settings_key /\
     currentUser (snd (saveUserData data s)) = currentUser s) /\
  (forall (data email : value),
     get_prop_opt data "email" = email ->
     truthy email = true ->
     _isValidEmail email = false ->
     _validateUserData data = false).
Proof.
  split.
  - intros s data Hv.
    destruct (saveUserData_invalid data s Hv) as (s' & -> & Hc & Hls).
    cbn [fst snd]. rewrite Hls.
    unfold user_key, subscription_key, settings_key, offline_queue_key. cbn.
    repeat split; simplify_map_eq; auto.
  - intros data email He Ht Hinv. unfold _validateUserData.
    destruct data; try reflexivity; rewrite He, Ht, Hinv; reflexivity.
Qed.


End Saving.

(** ** Reading after saving *)

Section RoundTrip.
Context {H : Host}.

(** C2 (amended).  After a call of [saveUserData] that returns true, the
    next [getUserData()] returns, from the cache and without changing the
    state, an object that has every property of the patch with the value
    the patch gives it, except [lastModified], which holds the time of the
    save.  And two calls of [getUserData()] in a row, with nothing in
    between, return the same result.  (The hypothesis on the patch says
    that it is a JavaScript object: its properties have distinct names.) *)
Theorem getUserData_after_saveUserData (s : State) (data : value) :
  fst (saveUserData data s) = Ret true ->
  List.NoDup (map fst (spread_props data)) ->
  let s' := snd (saveUserData data s) in
  (exists record,
     getUserData false s' = (Ret (VObj record), s') /\
     (forall k v, In (k, v) (spread_props data) -> k <> "lastModified" ->
                  own_get record k = Some v) /\
     own_get record "lastModified" = Some (VStr (Date_toISOString (clock s)))) /\
  (forall s0 : State,
     fst (getUserData false (snd (getUserData false s0))) = fst (getUserData false s0)).
Proof.
  intros Hr Hnd s'. subst s'. split; [|apply getUserData_twice].
  destruct (saveUserData_valid data s (saveUserData_true_valid data s Hr))
    as (current & s1 & s' & _ & Hsave & Hcache & _).
  rewrite Hsave. cbn [snd]. exists (merged (clock s) current data). split; [|split].
  - rewrite <- Hcache. apply getUserData_cached. now rewrite Hcache.
  - intros k v Hin Hk. unfold merged. rewrite own_get_obj_set.
    destruct (String.eqb_spec "lastModified" k) as [<-|_]; [congruence|].
    rewrite own_get_obj_assign by exact Hnd.
    now rewrite (own_get_present _ _ _ Hnd Hin).
  - unfold merged. rewrite own_get_obj_set. now rewrite String.eqb_refl.
Qed.

End RoundTrip.

(** ** Changing the plan *)

Lemma assoc_str_absent (l : list (string * string)) (k : string) :
  ~ In k (map fst l) -> assoc_str l k = None.
Proof.
  induction l as [|[k0 v0] rest IH]; simpl; intros Hn; [reflexivity|].
  destruct (String.eqb_spec k0 k) as [->|Hne]; [exfalso; auto | apply IH; auto].
Qed.

Section Plan.
Context {H : Host}.

Lemma plans_get_catalog (p : string) :
  In p planHierarchy ->
  truthy (plans_get (VStr p)) = true /\
  exists name, get_prop_opt (plans_get (VStr p)) "name" = VStr name.
Proof.
  intros Hin. unfold planHierarchy in Hin. simpl in Hin.
  destruct Hin as [<- | [<- | [<- | [<- | []]]]]; (split; [reflexivity | eexists; reflexivity]).
Qed.

Lemma plans_get_unknown (p : string) :
  ~ In p planHierarchy ->
  ~ In p (map fst Object_prototype_functions) ->
  p <> "__proto__" ->
  plans_get (VStr p) = VUndef.
Proof.
  intros Hc Hi Hp. unfold plans_get. rewrite get_index_primitive by reflexivity.
  unfold get_prop. cbn [js_ToString].
  change (spread_props (VObj config.plans)) with config.plans.
  rewrite own_get_absent by exact Hc.
  unfold inherited_get. rewrite assoc_str_absent by exact Hi.
  destruct (String.eqb_spec p "__proto__"); [contradiction | reflexivity].
Qed.

Lemma plan_patch_valid (planId : value) :
  truthy (plans_get planId) = true -> _validateUserData (plan_patch planId) = true.
Proof.
  intros Hp. unfold _validateUserData, plan_patch.
  change (get_prop_opt (VObj [("planId", planId);
                              ("plan", get_prop_opt (plans_get planId) "name")]) "email")
    with VUndef.
  change (get_prop_opt (VObj [("planId", planId);
                              ("plan", get_prop_opt (plans_get planId) "name")]) "planId")
    with planId.
  rewrite Hp. cbn. now rewrite andb_false_r.
Qed.

Lemma updateUserPlan_success (planId details u : value) (s : State) :
  truthy (plans_get planId) = true ->
  fst (getUserData false s) = Ret u ->
  truthy u = true ->
  exists s',
    updateUserPlan planId details s = (Ret true, s') /\
    let subscription := new_subscription (clock s) planId (plans_get planId) details in
    let payload := planChanged_payload (clock s) u planId details in
    let updated := merged (clock s) u (plan_patch planId) in
    In ("emiralai:planChanged", payload) (dispatched s') /\
    (forall l cb, listeners s !! "planChanged" = Some l -> In cb l ->
                  In (cb_id cb, payload) (invoked s')) /\
    currentUser s' = VObj updated /\
    localStorage s' !! user_key
      = Some (JSON_stringify (VObj (obj_without separated_keys updated))) /\
    localStorage s' !! subscription_key
      = Some (JSON_stringify (if truthy (get_prop_opt (VObj updated) "subscription")
                              then get_prop_opt (VObj updated) "subscription"
                              else subscription)).
Proof.
  intros Hp Hu Ht.
  destruct (getUserData_spec false s) as (v & s1 & Hget & Hk & Hl & Hres).
  rewrite Hget in Hu. cbn in Hu. injection Hu as ->.
  destruct Hres as [[-> _] | [_ Hc]]; [discriminate|].
  unfold updateUserPlan, try_catch. unfold bind at 1. rewrite Hp. cbn [negb].
  unfold ret at 1. unfold bind at 1. rewrite Hget. unfold bind at 1. rewrite Ht. cbn [negb].
  unfold ret at 1. unfold bind at 1. unfold gets at 1. rewrite Hk.
  unfold bind at 1. unfold _saveToStorage at 1. unfold bind at 1, modify at 1, ret at 1.
  fold (plan_patch planId).
  set (sub := new_subscription (clock s) planId (plans_get planId) details).
  unfold bind at 1.
  match goal with
  | |- context [saveUserData ?d ?s0] =>
      destruct (saveUserData_valid d s0 (plan_patch_valid planId Hp))
        as (cur & s2 & s3 & Hget2 & Hsave & Hcache & Hku & Hks & _ & Hk3 & Hl3)
  end.
  rewrite getUserData_cached in Hget2 by (cbn; now rewrite Hc).
  injection Hget2 as <- <-.
  cbn [clock listeners currentUser set_localStorage] in Hsave, Hcache, Hku, Hks, Hk3, Hl3.
  rewrite Hk, Hc in *.
  rewrite Hsave. cbn beta iota.
  unfold bind at 1. rewrite _triggerEvent_exact. cbn zeta.
  cbn [config.features.enableNotifications]. unfold _showNotification.
  cbn [config.features.enableNotifications negb].
  unfold bind at 1. unfold bind at 1. rewrite _triggerEvent_exact. cbn zeta.
  unfold window_dispatchEvent, modify, ret. cbn beta iota.
  eexists. split; [reflexivity|].
  cbn [dispatched invoked currentUser localStorage listeners with_logs set_dispatched].
  fold (planChanged_payload (clock s) u planId details).
  rewrite Hl3, Hl.
  split; [|split; [|split; [|split]]].
  - apply in_or_app. left. apply in_or_app. left. apply in_or_app. right. now left.
  - intros l cb Hls Hin. rewrite Hls. cbn [default].
    apply in_or_app. left. apply in_or_app. right.
    unfold calls_of. apply in_map_iff. now exists cb.
  - exact Hcache.
  - exact Hku.
  - rewrite Hks. cbn. unfold subscription_key. rewrite lookup_insert_eq.
    destruct (truthy (get_prop_opt _ "subscription")); reflexivity.
Qed.

(** An unknown plan is refused before anything is read or written. *)
Lemma updateUserPlan_invalid_plan (planId details : value) (s : State) :
  truthy (plans_get planId) = false ->
  exists s', updateUserPlan planId details s = (Ret false, s') /\ logs_only s s'.
Proof.
  intros Hp. unfold updateUserPlan, try_catch. unfold bind at 1. rewrite Hp. cbn [negb].
  unfold throw. cbn beta iota. unfold bind, ret.
  match goal with
  | |- context [log ?l ?m ?s0] => destruct (log_spec l m s0) as (s' & -> & Hl)
  end.
  exists s'. split; [reflexivity | exact Hl].
Qed.

Lemma updateUserPlan_no_user (planId details : value) (s : State) :
  fst (getUserData false s) = Ret VNull ->
  fst (updateUserPlan planId details s) = Ret false.
Proof.
  intros Hu. destruct (truthy (plans_get planId)) eqn:Hp.
  2: { destruct (updateUserPlan_invalid_plan planId details s Hp) as (s' & -> & _).
       reflexivity. }
  destruct (getUserData_spec false s) as (v & s1 & Hget & _).
  rewrite Hget in Hu. cbn in Hu. injection Hu as ->.
  unfold updateUserPlan, try_catch. unfold bind at 1. rewrite Hp. cbn [negb].
  unfold ret at 1. unfold bind at 1. rewrite Hget. unfold bind at 1.
  change (truthy VNull) with false. cbn [negb]. unfold throw. cbn beta iota.
  unfold bind, ret. step_log. reflexivity.
Qed.

End Plan.

Section PlanChange.
Context {H : Host}.

Lemma details_absent_field (details : option props) (k : string) :
  own_get (details_props details) k = None ->
  assoc_str Object_prototype_functions k = None -> k <> "__proto__" ->
  get_prop_opt (details_value details) k = VUndef.
Proof.
  intros Hk Hi Hp. destruct details as [kvs|]; [|reflexivity].
  cbn [details_props details_value] in *. unfold get_prop_opt, get_prop.
  change (spread_props (VObj kvs)) with kvs. rewrite Hk.
  unfold inherited_get. rewrite Hi.
  destruct (String.eqb_spec k "__proto__"); [contradiction | reflexivity].
Qed.

(** The subscription that [updateUserPlan] builds: the details given by the
    caller come last and override the defaults. *)
Lemma new_subscription_fields (now : Z) (planId : value) (details : option props) :
  List.NoDup (map fst (details_props details)) ->
  exists sub,
    new_subscription now planId (plans_get planId) (details_value details) = VObj sub /\
    (forall k v, own_get (details_props details) k = Some v -> own_get sub k = Some v) /\
    (own_get (details_props details) "status" = None ->
       own_get sub "status" = Some (VStr "active")) /\
    (own_get (details_props details) "startDate" = None ->
       own_get sub "startDate" = Some (VStr (Date_toISOString now))) /\
    (own_get (details_props details) "endDate" = None ->
       own_get sub "endDate" = Some (VStr (_calculateEndDate now planId))).
Proof.
  intros Hnd. unfold new_subscription. eexists. split; [reflexivity|].
  assert (Hsp : spread_props (details_value details) = details_props details)
    by (destruct details; reflexivity).
  rewrite Hsp. repeat split.
  - intros k v Hk. rewrite own_get_obj_assign by exact Hnd. now rewrite Hk.
  - intros Hk. rewrite own_get_obj_assign by exact Hnd. now rewrite Hk.
  - intros Hk. rewrite own_get_obj_assign by exact Hnd. rewrite Hk. cbn.
    rewrite details_absent_field by (auto; discriminate). reflexivity.
  - intros Hk. rewrite own_get_obj_assign by exact Hnd. rewrite Hk. cbn.
    rewrite details_absent_field by (auto; discriminate). reflexivity.
Qed.

(** C5 (amended).  For a plan id [planId] for which the plan table has an
    entry (every id of the catalog has one) and a state in which
    [getUserData()] returns a user [u], [updateUserPlan(planId, details)]
    returns true and
    - builds a Subscription in which the properties of [details] override
      the defaults: without them its status is "active", its startDate the
      current time and its endDate the current time plus 30 days (plus 100
      years for the free plan);
    - calls [saveUserData({planId, plan})], after which the cached record
      and the stored user record carry the new plan id and plan name;
    - dispatches the planChanged event, and calls the planChanged
      listeners, with the old plan id, the new plan id and the
      Subscription;
    - leaves the Subscription under the subscription key when the record
      [u] has no subscription of its own.
    It returns false, changing nothing but the console, when the plan
    table has no entry for [planId], which is the case of every string
    that is neither a catalog id nor the name of a member that objects
    inherit; and it returns false when [getUserData()] returns [null].
    (The first hypothesis says that the details are a JavaScript object:
    its properties have distinct names.) *)
Theorem updateUserPlan_builds_subscription
  (s : State) (planId : value) (details : option props) (u : value) :
  List.NoDup (map fst (details_props details)) ->
  fst (getUserData false s) = Ret u ->
  let d := details_value details in
  let run := updateUserPlan planId d s in
  (truthy (plans_get planId) = true -> truthy u = true ->
     exists sub,
       new_subscription (clock s) planId (plans_get planId) d = VObj sub /\
       (forall k v, own_get (details_props details) k = Some v -> own_get sub k = Some v) /\
       (own_get (details_props details) "status" = None ->
          own_get sub "status" = Some (VStr "active")) /\
       (own_get (details_props details) "startDate" = None ->
          own_get sub "startDate" = Some (VStr (Date_toISOString (clock s)))) /\
       (own_get (details_props details) "endDate" = None ->
          own_get sub "endDate"
            = Some (VStr (if is_str planId "free"
                          then Date_toISOString (Date_plusYears (clock s) 100)
                          else Date_toISOString (Date_plusDays (clock s) 30)))) /\
       fst run = Ret true /\
       (exists record,
          currentUser (snd run) = VObj record /\
          own_get record "planId" = Some planId /\
          own_get record "plan" = Some (get_prop_opt (plans_get planId) "name") /\
          localStorage (snd run) !! user_key
            = Some (JSON_stringify (VObj (obj_without separated_keys record)))) /\
       In ("emiralai:planChanged",
           VObj [ ("oldPlan", get_prop_opt u "planId"); ("newPlan", planId);
                  ("subscription", VObj sub) ])
          (dispatched (snd run)) /\
       (forall l cb, listeners s !! "planChanged" = Some l -> In cb l ->
          In (cb_id cb,
              VObj [ ("oldPlan", get_prop_opt u "planId"); ("newPlan", planId);
                     ("subscription", VObj sub) ])
             (invoked (snd run))) /\
       (truthy (get_prop_opt u "subscription") = false ->
          localStorage (snd run) !! subscription_key = Some (JSON_stringify (VObj sub)))) /\
  (truthy (plans_get planId) = false -> fst run = Ret false /\ logs_only s (snd run)) /\
  (u = VNull -> fst run = Ret false) /\
  (forall p, In p planHierarchy -> truthy (plans_get (VStr p)) = true) /\
  (forall p, ~ In p planHierarchy -> ~ In p (map fst Object_prototype_functions) ->
             p <> "__proto__" -> truthy (plans_get (VStr p)) = false).
Proof.
  intros Hnd Hu d run. split; [|split; [|split; [|split]]].
  - intros Hp Ht.
    destruct (new_subscription_fields (clock s) planId details Hnd)
      as (sub & Hsub & Hover & Hstatus & Hstart & Hend).
    destruct (updateUserPlan_success planId d u s Hp Hu Ht)
      as (s' & Hrun & Hev & Hcalls & Hcache & Huser & Hstored).
    exists sub. subst run. rewrite Hrun. cbn [fst snd].
    unfold planChanged_payload in Hev, Hcalls. fold d in Hsub. rewrite Hsub in *.
    repeat split; auto.
    + exists (merged (clock s) u (plan_patch planId)).
      repeat split; auto; unfold merged; rewrite own_get_obj_set; cbn [String.eqb Ascii.eqb Bool.eqb];
        rewrite own_get_obj_assign by (repeat constructor; simpl; intuition discriminate);
        reflexivity.
    + intros Hnone. rewrite Hstored.
      assert (Hsame : get_prop_opt (VObj (merged (clock s) u (plan_patch planId))) "subscription"
                      = get_prop_opt (VObj (spread_props (js_or u (VObj [])))) "subscription").
      { unfold get_prop_opt, get_prop.
        change (spread_props (VObj ?l)) with l.
        unfold merged. rewrite own_get_obj_set. cbn [String.eqb Ascii.eqb Bool.eqb].
        rewrite own_get_obj_assign by (repeat constructor; simpl; intuition discriminate).
        reflexivity. }
      rewrite Hsame. rewrite js_or_truthy by exact Ht.
      assert (Hu' : truthy (get_prop_opt (VObj (spread_props u)) "subscription") = false).
      { destruct u; try exact Hnone; try reflexivity. }
      now rewrite Hu'.
  - intros Hp. destruct (updateUserPlan_invalid_plan planId d s Hp) as (s' & Hrun & Hl).
    subst run. rewrite Hrun. now split.
  - intros ->. now apply updateUserPlan_no_user.
  - intros p Hin. now apply plans_get_catalog.
  - intros p Hc Hi Hp. now rewrite plans_get_unknown.
Qed.

End PlanChange.

(** ** Exceptions *)

Lemma try_catch_total {A} (m : M A) (handler : string -> M A) (s : State) :
  (forall e s0, exists a s1, handler e s0 = (Ret a, s1)) ->
  exists a s1, try_catch m handler s = (Ret a, s1).
Proof.
  intros Hh. unfold try_catch. destruct (m s) as [[a|e] s0].
  - now exists a, s0.
  - apply Hh.
Qed.

(** * Further properties *)

(** ** The shape of an email *)

Lemma span_email_spec (l : list ascii) :
  l = (fst (span_email l) ++ snd (span_email l))%list /\
  forallb email_char (fst (span_email l)) = true /\
  match snd (span_email l) with
  | [] => True
  | c :: _ => email_char c = false
  end.
Proof.
  induction l as [|c rest (Heq & Hall & Hnext)]; simpl.
  - auto.
  - destruct (email_char c) eqn:Hc.
    + destruct (span_email rest) as [a b]. simpl in *. rewrite Hc, Hall.
      repeat split; [congruence | exact Hnext].
    + simpl. rewrite Hc. auto.
Qed.

Lemma span_email_prefix (a b : list ascii) (c : ascii) :
  forallb email_char a = true -> email_char c = false ->
  span_email (a ++ c :: b) = (a, c :: b).
Proof.
  intros Ha Hc. induction a as [|x a IH]; simpl in *.
  - now rewrite Hc.
  - apply andb_prop in Ha as [Hx Ha]. rewrite Hx, (IH Ha). reflexivity.
Qed.

Lemma existsb_removelast_dot (t : list ascii) :
  existsb (fun c => Ascii.eqb c ".") (removelast t) = true <->
  exists d u, u <> [] /\ t = (d ++ "."%char :: u)%list.
Proof.
  induction t as [|x t IH].
  - simpl. split; [discriminate | intros (d & u & _ & Heq); now destruct d].
  - destruct t as [|y t'].
    + simpl. split; [discriminate|].
      intros (d & u & Hu & Heq). destruct d as [|? [|? ?]]; simpl in Heq.
      * injection Heq as _ <-. congruence.
      * discriminate.
      * discriminate.
    + change (removelast (x :: y :: t')) with (x :: removelast (y :: t')).
      cbn [existsb]. rewrite orb_true_iff, IH. split.
      * intros [Hx | (d & u & Hu & Heq)].
        -- apply Ascii.eqb_eq in Hx as ->. exists [], (y :: t'). now split.
        -- exists (x :: d), u. split; [exact Hu | simpl; congruence].
      * intros (d & u & Hu & Heq). destruct d as [|x' d]; simpl in Heq.
        -- injection Heq as -> _. left. apply Ascii.eqb_refl.
        -- injection Heq as -> Heq. right. now exists d, u.
Qed.

Lemma has_inner_dot_spec (l : list ascii) :
  has_inner_dot l = true <->
  exists d u, d <> [] /\ u <> [] /\ l = (d ++ "."%char :: u)%list.
Proof.
  destruct l as [|x t]; simpl.
  - split; [discriminate | intros (d & u & _ & _ & Heq); now destruct d].
  - rewrite existsb_removelast_dot. split.
    + intros (d & u & Hu & ->). exists (x :: d), u. repeat split; auto; discriminate.
    + intros (d & u & Hd & Hu & Heq). destruct d as [|x' d]; [congruence|].
      simpl in Heq. injection Heq as -> ->. now exists d, u.
Qed.

Section EmailShape.
Context {H : Host}.

(** X1.  _isValidEmail accepts a string exactly when it has the shape
    local@domain.tld, where the local part, the domain and the top-level
    part are not empty and hold neither white space nor an at sign (the
    domain and the top-level part may hold further dots). *)
Theorem _isValidEmail_accepts_exactly_local_at_domain_tld (s : string) :
  _isValidEmail (VStr s) = true <->
  exists local domain tld : list ascii,
    local <> [] /\ domain <> [] /\ tld <> [] /\
    forallb email_char (local ++ domain ++ tld) = true /\
    s = string_of_list_ascii (local ++ "@"%char :: domain ++ "."%char :: tld).
Proof.
  unfold _isValidEmail, email_regex_test. cbn [js_ToString]. split.
  - destruct (span_email_spec (list_ascii_of_string s)) as (Heq & Hall & Hnext).
    destruct (span_email (list_ascii_of_string s)) as [[|a0 a] [|c rest]];
      try discriminate.
    cbn [fst snd] in *. intros Hm.
    apply andb_prop in Hm as [Hm Hdot]. apply andb_prop in Hm as [Hat Hrest].
    apply Ascii.eqb_eq in Hat as ->.
    apply has_inner_dot_spec in Hdot as (d & u & Hd & Hu & ->).
    exists (a0 :: a), d, u.
    split; [discriminate|]. split; [exact Hd|]. split; [exact Hu|]. split.
    + rewrite forallb_app in Hrest. apply andb_prop in Hrest as [Hd' Hu'].
      cbn [forallb] in Hu'. apply andb_prop in Hu' as [_ Hu'].
      rewrite !forallb_app, Hall, Hd', Hu'. reflexivity.
    + rewrite <- Heq. now rewrite string_of_list_ascii_of_string.
  - intros (local & domain & tld & Hl & Hd & Ht & Hall & ->).
    rewrite list_ascii_of_string_of_list_ascii.
    rewrite !forallb_app in Hall.
    apply andb_prop in Hall as [Hla Hall]. apply andb_prop in Hall as [Hda Hta].
    rewrite span_email_prefix by (auto; reflexivity).
    destruct local as [|l0 local]; [congruence|].
    assert (Hdotc : email_char "."%char = true) by reflexivity.
    rewrite forallb_app. cbn [forallb]. rewrite Hda, Hdotc, Hta.
    cbn [andb Ascii.eqb Bool.eqb].
    apply has_inner_dot_spec. now exists domain, tld.
Qed.

End EmailShape.

Section Permissions.
Context {H : Host}.

(** X2.  Permissions grow with the plan: when plan id p is not above plan id
    q in the plan order (an unknown id counts as below free), every
    permission flag that _getPermissions grants to p it grants to q, the
    upgrade prompt and the usage limits shown to q are shown to p, and
    an unknown plan id is granted no permission flag. *)
Theorem _getPermissions_grow_with_the_plan (p q : value) (k : string) :
  indexOf planHierarchy p <= indexOf planHierarchy q ->
  (In k granted_features ->
     get_prop_opt (_getPermissions p) k = VBool true ->
     get_prop_opt (_getPermissions q) k = VBool true) /\
  (In k ["showUpgradePrompts"; "showUsageLimits"] ->
     get_prop_opt (_getPermissions q) k = VBool true ->
     get_prop_opt (_getPermissions p) k = VBool true) /\
  (In k granted_features -> indexOf planHierarchy p = -1 ->
     get_prop_opt (_getPermissions p) k = VBool false).
Proof.
  intros Hle. unfold _getPermissions, granted_features.
  set (i := indexOf planHierarchy p) in *. set (j := indexOf planHierarchy q) in *.
  split; [|split].
  - intros Hk. cbn [In] in Hk.
    repeat (destruct Hk as [<- | Hk]); try contradiction;
      unfold get_prop_opt, get_prop; cbn; intros [= Hi]; f_equal; lia.
  - intros Hk. cbn [In] in Hk.
    repeat (destruct Hk as [<- | Hk]); try contradiction;
      unfold get_prop_opt, get_prop; cbn; intros [= Hi]; f_equal; lia.
  - intros Hk Hi. cbn [In] in Hk. rewrite Hi.
    repeat (destruct Hk as [<- | Hk]); try contradiction; reflexivity.
Qed.

End Permissions.

(** ** Palette *)

Lemma to_int32_range (z : Z) : - 2 ^ 31 <= to_int32 z < 2 ^ 31.
Proof.
  unfold to_int32. assert (Hm := Z.mod_pos_bound z (2 ^ 32) ltac:(lia)).
  cbv zeta. destruct (Z.ltb_spec (z mod 2 ^ 32) (2 ^ 31)); lia.
Qed.

Lemma fold_hash_range (l : list ascii) (h : Z) :
  - 2 ^ 31 <= h < 2 ^ 31 -> - 2 ^ 31 <= fold_left hash_step l h < 2 ^ 31.
Proof.
  revert h. induction l as [|c l IH]; intros h Hh; simpl; [exact Hh|].
  apply IH. apply to_int32_range.
Qed.

Lemma background_color_in_palette (colors : list string) (str : string) :
  colors <> [] -> In (background_color colors str) colors.
Proof.
  intros Hne. unfold background_color, palette_index. apply nth_In.
  assert (Hlen : 0 < Z.of_nat (length colors)) by (destruct colors; [congruence | simpl; lia]).
  assert (Hm := Z.mod_pos_bound (Z.abs (string_hash str)) _ Hlen). lia.
Qed.

(** X3.  For every string the avatar hash stays within the signed 32-bit
    integers, the palette index is within the palette (15 colours in
    _getDefaultAvatar, 10 in generateUserAvatar), and the background
    colour is a colour of the palette. *)
Theorem avatar_colour_is_taken_from_the_palette (str : string) :
  - 2 ^ 31 <= string_hash str < 2 ^ 31 /\
  0 <= palette_index _getDefaultAvatar_colors str < 15 /\
  0 <= palette_index generateUserAvatar_colors str < 10 /\
  In (background_color _getDefaultAvatar_colors str) _getDefaultAvatar_colors /\
  In (background_color generateUserAvatar_colors str) generateUserAvatar_colors.
Proof.
  split; [apply fold_hash_range; lia|].
  split; [apply Z.mod_pos_bound; reflexivity|].
  split; [apply Z.mod_pos_bound; reflexivity|].
  split; apply background_color_in_palette; discriminate.
Qed.

(** ** Subscription *)



Section Subscription.
Context {H : Host}.


End Subscription.

(** ** Reading from storage *)


Lemma logs_only_same_data (s s' : State) : logs_only s s' -> same_data s s'.
Proof. intros (c & i & d & ->). repeat split. Qed.

Section ReadingStorage.
Context {H : Host}.

Lemma clearUserData_effect (clearSettings : bool) (s : State) :
  exists s',
    clearUserData clearSettings s = (Ret tt, s') /\
    currentUser s' = VNull /\ syncInterval s' = None /\
    localStorage s' !! user_key = None /\
    localStorage s' !! subscription_key = None /\
    localStorage s' !! settings_key
      = (if clearSettings then None else localStorage s !! settings_key) /\
    dispatched s' = (dispatched s ++ [("emiralai:userLoggedOut", VNull)])%list /\
    invoked s' = (invoked s ++ calls_of VNull (default [] (listeners s !! "userLoggedOut")))%list /\
    posted s' = (if has_BroadcastChannel
                 then (posted s ++ [("userLoggedOut", VNull)])%list else posted s) /\
    clock s' = clock s /\ draws s' = draws s /\ listeners s' = listeners s /\
    offlineQueue s' = offlineQueue s.
Proof.
  unfold clearUserData, try_catch.
  unfold _removeFromStorage, _notifyOtherTabs, bind, modify, gets, ret.
  destruct clearSettings; cbn -[_triggerEvent log];
    (destruct (syncInterval s) eqn:Hsync; cbn -[_triggerEvent log];
     rewrite _triggerEvent_exact; cbn -[log];
     destruct has_BroadcastChannel; cbn;
     eexists; (split; [reflexivity|]); cbn;
     repeat apply conj; unfold user_key, subscription_key, settings_key; cbn;
     simplify_map_eq; rewrite ?Hsync; reflexivity).
Qed.

(** What [getUserData] does when it reads storage: when [forceRefresh] is
    set or nothing is cached. *)
Lemma getUserData_reads (forceRefresh : bool) (s : State) :
  forceRefresh = true \/ truthy (currentUser s) = false ->
  let record := stored s config.storage.userDataKey in
  exists v s',
    getUserData forceRefresh s = (Ret v, s') /\
    ((truthy record = false /\ v = VNull /\ same_data s s') \/
     (truthy record = true /\ _isSessionValid (clock s) record = false /\ v = VNull /\
      exists s0, same_data s s0 /\ clearUserData false s0 = (Ret tt, s')) \/
     (truthy record = true /\ _isSessionValid (clock s) record = true /\ v = VNull /\
      ((exists e, profileImage_of record = Throw e) \/
       (exists e, _calculateUsage (planId_of s) record = Throw e)) /\
      same_data s s') \/
     (truthy record = true /\ _isSessionValid (clock s) record = true /\
      exists id profileImage usage metrics,
        profileImage_of record = Ret profileImage /\
        _calculateUsage (planId_of s) record = Ret usage /\
        (truthy (get_prop_opt record "id") = true -> id = get_prop_opt record "id") /\
        v = loaded_record s id profileImage usage metrics /\
        currentUser s' = v /\
        localStorage s' = localStorage s /\ clock s' = clock s /\
        listeners s' = listeners s /\ offlineQueue s' = offlineQueue s /\
        syncInterval s' = syncInterval s /\ posted s' = posted s /\
        In ("emiralai:dataLoaded", v) (dispatched s') /\
        (forall l cb, listeners s !! "dataLoaded" = Some l -> In cb l ->
                      In (cb_id cb, v) (invoked s')))).
Proof.
  intros Hread. cbv zeta.
  assert (Hc : negb forceRefresh && truthy (currentUser s) = false).
  { destruct Hread as [-> | ->]; [reflexivity | apply andb_false_r]. }
  unfold getUserData, try_catch. unfold bind at 1. unfold gets at 1. rewrite Hc.
  unfold bind at 1. step_read.
  remember (stored s config.storage.userDataKey) as record eqn:Hrecord.
  destruct (truthy record) eqn:Hrec; cbn [negb].
  2: { unfold ret. do 2 eexists. split; [reflexivity|]. left. repeat split. }
  unfold bind at 1. unfold gets at 1. cbn [clock with_logs].
  destruct (_isSessionValid (clock s) record) eqn:Hvalid; cbn [negb].
  2: { unfold bind, ret.
       match goal with
       | |- context [clearUserData ?b ?s0] =>
           destruct (clearUserData_effect b s0) as (s' & Hclear & _)
       end.
       rewrite Hclear. do 2 eexists. split; [reflexivity|]. right. left.
       repeat split. eexists. split; [|exact Hclear]. repeat split. }
  unfold bind at 1. step_read. unfold bind at 1. step_read.
  repeat change (stored (with_logs ?c ?i ?d ?t) ?k) with (stored t k).
  assert (Hplan : js_or (get_prop_opt record "planId")
                    (js_or (get_prop_opt (stored s config.storage.subscriptionKey) "planId")
                       (VStr "free")) = planId_of s)
    by (unfold planId_of; now rewrite Hrecord).
  rewrite Hplan.
  unfold bind at 1, lift at 1.
  destruct (get_index (VObj config.plans) (planId_of s)) as [plan|e] eqn:Haccess.
  2: { cbn beta iota. unfold bind, ret. step_log.
       do 2 eexists. split; [reflexivity|]. right. right. left.
       repeat split. right. exists e. now apply plans_access_throws. }
  apply plans_access_returns in Haccess. subst plan.
  unfold bind at 1.
  match goal with
  | |- context [(if truthy ?i then ret ?i else _generateUserId) ?s0] =>
      assert (Hid : exists v n, (if truthy i then ret i else _generateUserId) s0
                                = (Ret v, set_draws n s0) /\
                                (truthy i = true -> v = i))
  end.
  { destruct (truthy (get_prop_opt _ "id")); unfold ret, _generateUserId, bind, gets, modify;
      do 2 eexists; (split; [reflexivity|]); [reflexivity | discriminate]. }
  destruct Hid as (id & n & -> & Hid).
  unfold bind at 1, lift.
  destruct (profileImage_of record) as [img|e] eqn:Himg.
  2: { cbn beta iota. unfold bind, ret. step_log.
       do 2 eexists. split; [reflexivity|]. right. right. left.
       repeat split. left. now exists e. }
  unfold bind at 1. destruct (_calculateUsage (planId_of s) record) as [usage|e] eqn:Husage.
  2: { cbn beta iota. unfold bind, ret. step_log.
       do 2 eexists. split; [reflexivity|]. right. right. left.
       repeat split. right. now exists e. }
  unfold bind at 1.
  match goal with
  | |- context [_getUserMetrics ?u ?s0] =>
      destruct (_getUserMetrics_spec u s0) as (m & ->)
  end.
  unfold bind at 1, modify. unfold bind at 1. rewrite _triggerEvent_exact. unfold ret.
  do 2 eexists. split; [reflexivity|]. right. right. right.
  split; [reflexivity|]. split; [reflexivity|].
  exists id, img, usage, m.
  cbn [currentUser localStorage clock listeners offlineQueue syncInterval posted dispatched
       invoked with_logs set_currentUser set_draws].
  assert (Hloaded : completeUserData (clock s) record
                      (stored s config.storage.subscriptionKey)
                      (js_or (stored s config.storage.settingsKey) (VObj []))
                      (planId_of s)
                      (js_or (plans_get (planId_of s)) (plans_get (VStr "free")))
                      id img usage m
                    = loaded_record s id img usage m)
    by (unfold loaded_record; now rewrite Hrecord).
  rewrite Hloaded.
  repeat (split; [reflexivity || assumption|]). split.
  - apply in_or_app. right. now left.
  - intros l cb Hl Hin. rewrite Hl. cbn [default]. apply in_or_app. right.
    unfold calls_of. apply in_map_iff. now exists cb.
Qed.

End ReadingStorage.

(** ** Names without a letter *)

Lemma drop_spaces_blank (n : string) :
  forallb is_space (list_ascii_of_string n) = true -> drop_spaces n = "".
Proof.
  induction n as [|c n IH]; simpl; [reflexivity|].
  intros Hb. apply andb_prop in Hb as [-> Hb]. now apply IH.
Qed.

Lemma trim_blank (n : string) :
  forallb is_space (list_ascii_of_string n) = true -> trim n = "".
Proof. intros Hb. unfold trim. now rewrite (drop_spaces_blank n Hb). Qed.

Lemma blank_is_not_Guest_User (n : string) :
  forallb is_space (list_ascii_of_string n) = true ->
  match VStr n with
  | VStr "Guest User" => true
  | _ => false
  end = false.
Proof.
  destruct n as [|c n]; [reflexivity|]. simpl. intros Hb.
  apply andb_prop in Hb as [Hc _].
  destruct c as [[] [] [] [] [] [] [] []]; try reflexivity; discriminate.
Qed.

Section BlankName.
Context {H : Host}.

Lemma avatar_blank_name colors svg1 svg2 svg3 (userData : value) (n : string) :
  get_prop_opt userData "name" = VStr n -> n <> "" ->
  forallb is_space (list_ascii_of_string n) = true ->
  avatar colors svg1 svg2 svg3 userData
    = Throw "TypeError: Cannot read properties of undefined (reading 'toUpperCase')".
Proof.
  intros Hn Hne Hb. unfold avatar. rewrite Hn.
  assert (Ht : truthy (VStr n) = true).
  { unfold truthy. destruct (String.eqb_spec n ""); [contradiction | reflexivity]. }
  rewrite (js_or_truthy (VStr n)) by exact Ht.
  unfold avatar_initials. rewrite Ht, (blank_is_not_Guest_User n Hb).
  cbn [negb andb]. rewrite (trim_blank n Hb). reflexivity.
Qed.

End BlankName.

Section Loading.
Context {H : Host}.

(** X6.  A stored record whose name is not empty but holds only white space,
    and which has no profile image, cannot be loaded: _getDefaultAvatar
    and generateUserAvatar throw a TypeError on it (the initials are
    read from an empty list of words), and getUserData, when it reads
    storage, returns null. While the session is valid it leaves storage
    and cache as they were. *)
Theorem blank_name_cannot_be_loaded
  (s : State) (forceRefresh : bool) (n : string) :
  forceRefresh = true \/ truthy (currentUser s) = false ->
  let record := stored s config.storage.userDataKey in
  get_prop_opt record "name" = VStr n ->
  n <> "" ->
  forallb is_space (list_ascii_of_string n) = true ->
  truthy (get_prop_opt record "profileImage") = false ->
  _getDefaultAvatar record
    = Throw "TypeError: Cannot read properties of undefined (reading 'toUpperCase')" /\
  generateUserAvatar record
    = Throw "TypeError: Cannot read properties of undefined (reading 'toUpperCase')" /\
  fst (getUserData forceRefresh s) = Ret VNull /\
  (_isSessionValid (clock s) record = true ->
   localStorage (snd (getUserData forceRefresh s)) = localStorage s /\
   currentUser (snd (getUserData forceRefresh s)) = currentUser s).
Proof.
  intros Hread record Hn Hne Hb Himg.
  assert (Hav := avatar_blank_name _getDefaultAvatar_colors _getDefaultAvatar_svg1
                   _getDefaultAvatar_svg2 _getDefaultAvatar_svg3 record n Hn Hne Hb).
  fold (_getDefaultAvatar record) in Hav.
  split; [exact Hav|].
  split; [apply (avatar_blank_name _ _ _ _ record n Hn Hne Hb)|].
  assert (Hprof : profileImage_of record = Throw
            "TypeError: Cannot read properties of undefined (reading 'toUpperCase')").
  { unfold profileImage_of. rewrite Himg. exact Hav. }
  destruct (getUserData_reads forceRefresh s Hread) as (v & s' & Hrun & Hcases).
  fold record in Hcases. rewrite Hrun. cbn [fst snd].
  destruct Hcases as [(_ & -> & Hsame) | [(_ & Hinv & -> & _) | [(_ & _ & -> & _ & Hsame)
                     | (_ & _ & id & img & usage & metrics & Hok & _)]]].
  - split; [reflexivity|]. intros _. destruct Hsame as (Hl & Hc & _). now split.
  - split; [reflexivity|]. congruence.
  - split; [reflexivity|]. intros _. destruct Hsame as (Hl & Hc & _). now split.
  - congruence.
Qed.

Lemma getUserData_absent (forceRefresh : bool) (s : State) :
  forceRefresh = true \/ truthy (currentUser s) = false ->
  localStorage s !! user_key = None ->
  exists s', getUserData forceRefresh s = (Ret VNull, s') /\ same_data s s'.
Proof.
  intros Hread Hnone.
  destruct (getUserData_reads forceRefresh s Hread) as (v & s' & Hrun & Hcases).
  assert (Hrec : truthy (stored s config.storage.userDataKey) = false).
  { unfold stored. fold user_key. now rewrite Hnone. }
  rewrite Hrec in Hcases.
  destruct Hcases as [(_ & -> & Hsame) | [(? & _) | [(? & _) | (? & _)]]]; try discriminate.
  now exists s'.
Qed.

(** X7.  clearUserData always returns. Afterwards the cache is null, the
    record and the subscription are gone from storage (the settings only
    when clearSettings is set), the sync timer is stopped, userLoggedOut
    has been dispatched on the window and posted on the BroadcastChannel
    when there is one, and getUserData returns null while isLoggedIn,
    hasPlan and hasAccess return false. *)
Theorem clearUserData_logs_the_user_out (clearSettings : bool) (s : State) :
  let s' := snd (clearUserData clearSettings s) in
  fst (clearUserData clearSettings s) = Ret tt /\
  currentUser s' = VNull /\
  localStorage s' !! user_key = None /\
  localStorage s' !! subscription_key = None /\
  localStorage s' !! settings_key
    = (if clearSettings then None else localStorage s !! settings_key) /\
  syncInterval s' = None /\
  dispatched s' = (dispatched s ++ [("emiralai:userLoggedOut", VNull)])%list /\
  posted s' = (if has_BroadcastChannel
               then (posted s ++ [("userLoggedOut", VNull)])%list else posted s) /\
  (forall forceRefresh, fst (getUserData forceRefresh s') = Ret VNull) /\
  fst (isLoggedIn s') = Ret false /\
  (forall requiredPlan, fst (hasPlan requiredPlan s') = Ret false) /\
  (forall feature, fst (hasAccess feature s') = Ret false).
Proof.
  destruct (clearUserData_effect clearSettings s)
    as (s' & Hrun & Hc & Hsync & Hu & Hsub & Hset & Hd & _ & Hp & _).
  rewrite Hrun. cbn [fst snd].
  assert (Hget : forall forceRefresh, fst (getUserData forceRefresh s') = Ret VNull).
  { intros forceRefresh.
    destruct (getUserData_absent forceRefresh s') as (s2 & -> & _); auto.
    right. now rewrite Hc. }
  repeat (split; [assumption || reflexivity|]).
  assert (Hget' := Hget false).
  unfold isLoggedIn, hasPlan, hasAccess, bind.
  destruct (getUserData false s') as [[v|e] s2]; cbn [fst] in Hget'; [|discriminate].
  injection Hget' as ->. repeat split.
Qed.

(** X8.  When getUserData reads storage and returns a record, the record has
    exactly the thirteen keys id, name, email, profileImage, plan,
    planId, planData, usage, subscription, settings, session,
    permissions and metrics (other stored fields are not passed on).
    Name and email default to Guest User and guest@emiralai.com, the
    plan fields come from the plan table, a stored id is kept; the
    record becomes the cache, storage is unchanged and dataLoaded is
    dispatched with it. *)
Theorem getUserData_builds_the_record_from_storage
  (s : State) (forceRefresh : bool) (u : value) :
  forceRefresh = true \/ truthy (currentUser s) = false ->
  fst (getUserData forceRefresh s) = Ret u ->
  u <> VNull ->
  let record := stored s config.storage.userDataKey in
  let planData := js_or (plans_get (planId_of s)) (plans_get (VStr "free")) in
  exists fields,
    u = VObj fields /\
    map fst fields = loaded_keys /\
    own_get fields "name" = Some (js_or (get_prop_opt record "name") (VStr "Guest User")) /\
    own_get fields "email"
      = Some (js_or (get_prop_opt record "email") (VStr "guest@emiralai.com")) /\
    own_get fields "planId" = Some (planId_of s) /\
    own_get fields "plan" = Some (get_prop_opt planData "name") /\
    own_get fields "planData" = Some planData /\
    own_get fields "permissions" = Some (_getPermissions (planId_of s)) /\
    own_get fields "subscription"
      = Some (_enhanceSubscription (clock s) (stored s config.storage.subscriptionKey)
                                   planData) /\
    own_get fields "settings"
      = Some (js_or (stored s config.storage.settingsKey) (VObj [])) /\
    (truthy (get_prop_opt record "id") = true ->
       own_get fields "id" = Some (get_prop_opt record "id")) /\
    currentUser (snd (getUserData forceRefresh s)) = u /\
    localStorage (snd (getUserData forceRefresh s)) = localStorage s /\
    In ("emiralai:dataLoaded", u) (dispatched (snd (getUserData forceRefresh s))).
Proof.
  intros Hread Hu Hnn. cbv zeta.
  destruct (getUserData_reads forceRefresh s Hread) as (v & s' & Hrun & Hcases).
  rewrite Hrun in *. cbn [fst snd] in *. injection Hu as ->.
  destruct Hcases as [(_ & -> & _) | [(_ & _ & -> & _) | [(_ & _ & -> & _)
                     | (_ & _ & id & img & usage & metrics & _ & _ & Hid & -> & Hc & Hl
                        & _ & _ & _ & _ & _ & Hev & _)]]]; try congruence.
  eexists. split; [reflexivity|]. split; [reflexivity|].
  do 8 (split; [reflexivity|]).
  split; [intros Ht; cbn; now rewrite (Hid Ht)|].
  split; [exact Hc|]. split; [exact Hl | exact Hev].
Qed.

End Loading.

Lemma own_get_obj_without_none (ks : list string) (l : props) (k : string) :
  own_get l k = None -> own_get (obj_without ks l) k = None.
Proof.
  unfold obj_without. induction l as [|[k0 v0] rest IH]; simpl; [reflexivity|].
  destruct (String.eqb_spec k0 k) as [->|Hne]; [discriminate|]. intros Hk.
  destruct (existsb (String.eqb k0) ks); simpl; [now apply IH|].
  destruct (String.eqb_spec k0 k); [contradiction | now apply IH].
Qed.

Section AfterLoading.
Context {H : Host}.

(** X9.  After a record was loaded from storage, hasAccess on each of the
    twelve permission flags answers as hasPlan on the plan that grants
    the flag: true exactly when that plan is not above the user's plan
    in the plan order. *)
Theorem hasAccess_is_a_plan_gate
  (s : State) (forceRefresh : bool) (u : value) (feature plan : string) :
  forceRefresh = true \/ truthy (currentUser s) = false ->
  fst (getUserData forceRefresh s) = Ret u ->
  u <> VNull ->
  In (feature, plan) feature_plan ->
  let s' := snd (getUserData forceRefresh s) in
  fst (hasAccess (VStr feature) s') = fst (hasPlan (VStr plan) s') /\
  fst (hasPlan (VStr plan) s')
    = Ret (indexOf planHierarchy (VStr plan) <=? indexOf planHierarchy (planId_of s)).
Proof.
  intros Hread Hu Hnn Hin. cbv zeta.
  destruct (getUserData_reads forceRefresh s Hread) as (v & s' & Hrun & Hcases).
  rewrite Hrun in *. cbn [fst snd] in *. injection Hu as ->.
  destruct Hcases as [(_ & -> & _) | [(_ & _ & -> & _) | [(_ & _ & -> & _)
                     | (_ & _ & id & img & usage & metrics & _ & _ & _ & -> & Hc & _)]]];
    try congruence.
  unfold hasAccess, hasPlan, bind.
  rewrite getUserData_cached by (now rewrite Hc). rewrite Hc.
  change (truthy (loaded_record s id img usage metrics)) with true. cbn [negb].
  change (get_prop_opt (loaded_record s id img usage metrics) "planId") with (planId_of s).
  change (get_prop_opt (loaded_record s id img usage metrics) "permissions")
    with (_getPermissions (planId_of s)).
  unfold _getPermissions. set (i := indexOf planHierarchy (planId_of s)).
  unfold feature_plan in Hin. cbn [In] in Hin.
  unfold lift, ret.
  repeat (destruct Hin as [[= <- <-] | Hin]); try contradiction;
    rewrite get_index_primitive by reflexivity;
    unfold get_prop; change (spread_props (VObj ?l)) with l;
    cbn [js_ToString own_get String.eqb Ascii.eqb Bool.eqb fst];
    match goal with
    | |- context [indexOf planHierarchy (VStr ?p)] =>
        let z := eval vm_compute in (indexOf planHierarchy (VStr p)) in
        change (indexOf planHierarchy (VStr p)) with z
    end;
    destruct (_ <=? i); split; reflexivity.
Qed.

(** X10.  After getUserData has loaded the record from storage, a successful
    saveUserData whose patch holds no sessionExpiry writes a record
    without sessionExpiry (the loaded record keeps the expiry only as
    session.expiresAt), so the stored session is valid at every later
    time. *)
Theorem saveUserData_after_a_load_drops_the_session_expiry
  (s : State) (u data : value) :
  fst (getUserData true s) = Ret u ->
  u <> VNull ->
  let s1 := snd (getUserData true s) in
  fst (saveUserData data s1) = Ret true ->
  List.NoDup (map fst (spread_props data)) ->
  own_get (spread_props data) "sessionExpiry" = None ->
  exists record,
    localStorage (snd (saveUserData data s1)) !! user_key = Some (TJson (VObj record)) /\
    own_get record "sessionExpiry" = None /\
    forall now, _isSessionValid now (VObj record) = true.
Proof.
  intros Hu Hnn s1 Hsave Hnd Hdata. subst s1.
  destruct (getUserData_reads true s (or_introl eq_refl)) as (v & s1 & Hrun & Hcases).
  rewrite Hrun in *. cbn [fst snd] in *. injection Hu as ->.
  destruct Hcases as [(_ & -> & _) | [(_ & _ & -> & _) | [(_ & _ & -> & _)
                     | (_ & _ & id & img & usage & metrics & _ & _ & _ & -> & Hc & _)]]];
    try congruence.
  destruct (saveUserData_valid data s1 (saveUserData_true_valid data s1 Hsave))
    as (current & s2 & s3 & Hget & Hrun2 & _ & Hstored & _).
  rewrite getUserData_cached in Hget by (now rewrite Hc).
  injection Hget as <- <-. rewrite Hrun2. cbn [snd].
  destruct (json_clean_object
              (obj_without separated_keys
                 (merged (clock s1) (currentUser s1) data)))
    as (record & Hclean & Hkeys).
  exists record. split; [|split].
  - rewrite Hstored. unfold JSON_stringify. now rewrite Hclean.
  - apply Hkeys. apply own_get_obj_without_none. unfold merged.
    rewrite own_get_obj_set. cbn [String.eqb Ascii.eqb Bool.eqb].
    rewrite own_get_obj_assign by exact Hnd. rewrite Hdata, Hc. reflexivity.
  - intros now. unfold _isSessionValid, get_prop_opt, get_prop.
    change (spread_props (VObj record)) with record.
    assert (Hnone : own_get record "sessionExpiry" = None).
    { apply Hkeys. apply own_get_obj_without_none. unfold merged.
      rewrite own_get_obj_set. cbn [String.eqb Ascii.eqb Bool.eqb].
      rewrite own_get_obj_assign by exact Hnd. rewrite Hdata, Hc. reflexivity. }
    rewrite Hnone. reflexivity.
Qed.

End AfterLoading.

(** ** Unsubscribing *)

Lemma set_delete_calls (cb : callback) (l : list callback) (data : value) :
  ~ In (cb_id cb, data) (calls_of data (set_delete cb l)) /\
  (forall c, In c l -> cb_id c <> cb_id cb ->
             In (cb_id c, data) (calls_of data (set_delete cb l))).
Proof.
  unfold calls_of, set_delete. split.
  - intros Hin. apply in_map_iff in Hin as (c & [= Hid] & Hc).
    apply filter_In in Hc as [_ Hc]. apply negb_true_iff, Nat.eqb_neq in Hc. congruence.
  - intros c Hc Hne. apply in_map_iff. exists c. split; [reflexivity|].
    apply filter_In. split; [exact Hc|]. now apply negb_true_iff, Nat.eqb_neq.
Qed.

Lemma set_delete_fresh (cb : callback) (l : list callback) :
  ~ In (cb_id cb) (map cb_id l) -> set_delete cb l = l.
Proof.
  unfold set_delete. induction l as [|c l IH]; simpl; [reflexivity|]. intros Hn.
  destruct (Nat.eqb_spec (cb_id c) (cb_id cb)) as [Heq | Hne]; simpl.
  - exfalso. apply Hn. now left.
  - rewrite IH; [reflexivity | tauto].
Qed.

Lemma set_delete_app (cb : callback) (l1 l2 : list callback) :
  set_delete cb (l1 ++ l2) = (set_delete cb l1 ++ set_delete cb l2)%list.
Proof. unfold set_delete. apply List.filter_app. Qed.

(** X11.  off always returns. After off(event, cb) an emit of the event
    calls the remaining listeners in their order and never cb, every
    other listener of the event is still called, and the listeners of
    other events are untouched; on followed by off of a callback that
    was not registered restores the listeners of the event. *)
Theorem off_removes_the_listener
  (event : string) (cb : callback) (data : value) (s : State) :
  let l := default [] (listeners s !! event) in
  let s1 := snd (off event cb s) in
  let s2 := snd (_triggerEvent event data s1) in
  fst (off event cb s) = Ret tt /\
  invoked s2 = (invoked s ++ calls_of data (set_delete cb l))%list /\
  ~ In (cb_id cb, data) (calls_of data (set_delete cb l)) /\
  (forall c, In c l -> cb_id c <> cb_id cb ->
             In (cb_id c, data) (calls_of data (set_delete cb l))) /\
  (forall other, other <> event -> listeners s1 !! other = listeners s !! other) /\
  (~ In (cb_id cb) (map cb_id l) ->
     default [] (listeners (snd (off event cb (snd (on event cb s)))) !! event) = l).
Proof.
  cbv zeta. split; [reflexivity|].
  destruct (set_delete_calls cb (default [] (listeners s !! event)) data) as [Hnot Hkeep].
  split; [|split; [exact Hnot|split; [exact Hkeep|split]]].
  - rewrite _triggerEvent_exact. cbv zeta. unfold off, modify. cbn [snd].
    destruct (listeners s !! event) as [l|] eqn:Hl; cbn [default].
    + cbn. rewrite lookup_insert_eq. reflexivity.
    + rewrite Hl. reflexivity.
  - intros other Hne. unfold off, modify. cbn [snd].
    destruct (listeners s !! event) as [l|]; [|reflexivity].
    cbn. now rewrite lookup_insert_ne.
  - intros Hfresh. unfold off, on, modify. cbn [snd]. cbn. rewrite lookup_insert_eq.
    cbn. rewrite lookup_insert_eq. cbn [default].
    rewrite set_add_fresh by exact Hfresh. rewrite set_delete_app.
    rewrite set_delete_fresh by exact Hfresh. unfold set_delete. cbn.
    rewrite Nat.eqb_refl. cbn. apply app_nil_r.
Qed.

Section Notifications.
Context {H : Host}.

(** X12.  _showNotification always returns and dispatches
    emiralai:notification on the window twice with the same detail (once
    through _triggerEvent and once directly), while the listeners
    registered for notification are called once. *)
Theorem _showNotification_reaches_the_window_twice (message type : string) (s : State) :
  let detail := VObj [("message", VStr message); ("type", VStr type)] in
  let s' := snd (_showNotification message type s) in
  fst (_showNotification message type s) = Ret tt /\
  dispatched s'
    = (dispatched s ++ [ ("emiralai:notification", detail);
                         ("emiralai:notification", detail) ])%list /\
  invoked s' = (invoked s ++ calls_of detail (default [] (listeners s !! "notification")))%list.
Proof.
  cbv zeta. unfold _showNotification. cbn [config.features.enableNotifications negb].
  unfold bind. rewrite _triggerEvent_exact. cbv zeta.
  unfold window_dispatchEvent, modify. cbn. rewrite <- app_assoc. repeat split.
Qed.

(** X13.  getMemberRole maps the four plan ids to their roles and gives Free
    Member for every other string that is no member name of
    Object.prototype (nor __proto__).  For every argument that converts
    to a property key it returns a truthy value; for an argument whose
    conversion throws, as the object with the property toString set to
    1, it throws what the conversion throws.  For the id toString it
    returns the inherited function instead of a role. *)
Theorem getMemberRole_falls_back_to_the_free_role :
  map (fun p => getMemberRole (VStr p)) planHierarchy
    = [ Ret (VStr "Free Member"); Ret (VStr "Basic Member");
        Ret (VStr "Pro Member"); Ret (VStr "Enterprise Member") ] /\
  (forall p, ~ In p planHierarchy -> ~ In p (map fst Object_prototype_functions) ->
             p <> "__proto__" -> getMemberRole (VStr p) = Ret (VStr "Free Member")) /\
  (forall planId key,
     ToPropertyKey planId = Ret key ->
     exists role, getMemberRole planId = Ret role /\ truthy role = true) /\
  (forall planId e, ToPropertyKey planId = Throw e -> getMemberRole planId = Throw e) /\
  getMemberRole (VObj [("toString", VInt 1)])
    = Throw "TypeError: Cannot convert object to primitive value" /\
  getMemberRole (VStr "toString") = Ret (VFun "toString").
Proof.
  split; [reflexivity|]. split; [|split; [|split; [|split; reflexivity]]].
  - intros p Hc Hi Hp. unfold getMemberRole. rewrite get_index_primitive by reflexivity.
    unfold get_prop. cbn [js_ToString].
    change (spread_props (VObj roleMap)) with roleMap.
    rewrite own_get_absent by exact Hc.
    unfold inherited_get. rewrite assoc_str_absent by exact Hi.
    destruct (String.eqb_spec p "__proto__"); [contradiction | reflexivity].
  - intros planId key Hkey. unfold getMemberRole, get_index. rewrite Hkey.
    unfold get_prop. change (spread_props (VObj roleMap)) with roleMap.
    assert (Hor : forall role, truthy (js_or role (VStr "Free Member")) = true).
    { intros role. unfold js_or. destruct (truthy role) eqn:E; [exact E | reflexivity]. }
    destruct (own_get roleMap key) as [role|];
      (eexists; split; [reflexivity | apply Hor]).
  - intros planId e Hkey. unfold getMemberRole, get_index. now rewrite Hkey.
Qed.

End Notifications.

(** ** Settings *)

Section Settings.
Context {H : Host}.

Lemma updateSettings_effect (settings : value) (s : State) :
  cache_holds_a_record s ->
  exists s',
    updateSettings settings s = (Ret true, s') /\
    let updated := VObj (updated_settings s settings) in
    localStorage s' = <[settings_key := JSON_stringify updated]> (localStorage s) /\
    currentUser s'
      = match currentUser s with
        | VObj fields => VObj (obj_set fields "settings" updated)
        | cached => cached
        end /\
    In ("emiralai:settingsUpdated", updated) (dispatched s') /\
    (forall l cb, listeners s !! "settingsUpdated" = Some l -> In cb l ->
                  In (cb_id cb, updated) (invoked s')) /\
    clock s' = clock s /\ listeners s' = listeners s /\
    offlineQueue s' = offlineQueue s /\ syncInterval s' = syncInterval s /\
    posted s' = posted s /\ draws s' = draws s.
Proof.
  intros Hcache. unfold updateSettings, try_catch.
  unfold bind at 1. step_read.
  unfold bind at 1. unfold gets at 1. cbn [clock with_logs].
  fold (updated_settings s settings).
  set (updated := VObj (updated_settings s settings)).
  unfold bind at 1. unfold _saveToStorage, bind, modify, ret, gets.
  cbn [currentUser localStorage set_localStorage with_logs snd fst].
  destruct Hcache as [Hc | (fields & Hc)]; rewrite Hc.
  - change (truthy VNull) with false. cbv beta iota.
    rewrite _triggerEvent_exact. cbv zeta.
    eexists. split; [reflexivity|]. cbn.
    split; [reflexivity|]. split; [exact Hc|]. split.
    + apply in_or_app. right. now left.
    + split; [|repeat split].
      intros l cb Hl Hin. rewrite Hl. cbn [default]. apply in_or_app. right.
      unfold calls_of. apply in_map_iff. now exists cb.
  - change (truthy (VObj fields)) with true. cbv beta iota. unfold lift. cbn [assign_prop]. cbv beta iota.
    rewrite _triggerEvent_exact. cbv zeta.
    eexists. split; [reflexivity|]. cbn.
    split; [reflexivity|]. split; [reflexivity|]. split.
    + apply in_or_app. right. now left.
    + split; [|repeat split].
      intros l cb Hl Hin. rewrite Hl. cbn [default]. apply in_or_app. right.
      unfold calls_of. apply in_map_iff. now exists cb.
Qed.

(** [updateSettings] returns normally in every state. *)
Lemma updateSettings_total (settings : value) (s : State) :
  exists b s', updateSettings settings s = (Ret b, s').
Proof.
  unfold updateSettings. apply try_catch_total.
  intros e s0. unfold bind, ret. step_log. do 2 eexists. reflexivity.
Qed.

Lemma own_get_obj_assign_general (b : props) (k : string) :
  forall a, own_get b k = None -> own_get (obj_assign a b) k = own_get a k.
Proof.
  unfold obj_assign. induction b as [|[k0 v0] rest IH]; simpl; intros a Hk; [reflexivity|].
  destruct (String.eqb_spec k0 k) as [->|Hne]; [discriminate|].
  rewrite IH by exact Hk. rewrite own_get_obj_set.
  destruct (String.eqb_spec k0 k); [contradiction | reflexivity].
Qed.

(** X14.  With a cache that is null or an object, updateSettings returns
    true and stores the stored settings overwritten key by key by the
    given ones, with lastModified set to the current time. The stored
    record and subscription are untouched, a cached record gets the new
    settings, and settingsUpdated is dispatched with them. *)
Theorem updateSettings_merges_into_the_stored_settings (settings : value) (s : State) :
  cache_holds_a_record s ->
  List.NoDup (map fst (spread_props settings)) ->
  let s' := snd (updateSettings settings s) in
  let current := spread_props (js_or (stored s config.storage.settingsKey) (VObj [])) in
  fst (updateSettings settings s) = Ret true /\
  exists updated,
    localStorage s' !! settings_key = Some (JSON_stringify (VObj updated)) /\
    (forall k v, own_get (spread_props settings) k = Some v -> k <> "lastModified" ->
                 own_get updated k = Some v) /\
    (forall k, own_get (spread_props settings) k = None -> k <> "lastModified" ->
               own_get updated k = own_get current k) /\
    own_get updated "lastModified" = Some (VStr (Date_toISOString (clock s))) /\
    localStorage s' !! user_key = localStorage s !! user_key /\
    localStorage s' !! subscription_key = localStorage s !! subscription_key /\
    (currentUser s = VNull -> currentUser s' = VNull) /\
    (forall fields, currentUser s = VObj fields ->
                    currentUser s' = VObj (obj_set fields "settings" (VObj updated))) /\
    In ("emiralai:settingsUpdated", VObj updated) (dispatched s').
Proof.
  intros Hcache Hnd. cbv zeta.
  destruct (updateSettings_effect settings s Hcache)
    as (s' & Hrun & Hls & Hc & Hev & _).
  rewrite Hrun. cbn [fst snd]. split; [reflexivity|].
  exists (updated_settings s settings).
  split; [|split; [|split; [|split; [|split; [|split; [|split; [|split]]]]]]].
  - rewrite Hls. unfold settings_key. apply lookup_insert_eq.
  - intros k v Hk Hne. unfold updated_settings. rewrite own_get_obj_set.
    destruct (String.eqb_spec "lastModified" k) as [<-|_]; [congruence|].
    rewrite own_get_obj_assign by exact Hnd. now rewrite Hk.
  - intros k Hk Hne. unfold updated_settings. rewrite own_get_obj_set.
    destruct (String.eqb_spec "lastModified" k) as [<-|_]; [congruence|].
    now apply own_get_obj_assign_general.
  - unfold updated_settings. rewrite own_get_obj_set. now rewrite String.eqb_refl.
  - rewrite Hls. unfold settings_key, user_key. cbn. now rewrite lookup_insert_ne.
  - rewrite Hls. unfold settings_key, subscription_key. cbn. now rewrite lookup_insert_ne.
  - intros Hnull. now rewrite Hc, Hnull.
  - intros fields Hf. now rewrite Hc, Hf.
  - exact Hev.
Qed.

End Settings.

(** ** Activity log *)

Lemma last_100_skipn (l : list value) : last_100 l = skipn (length l - 100) l.
Proof.
  unfold last_100. destruct (Z.ltb_spec 100 (Z.of_nat (length l))) as [Hlt | Hge]; [reflexivity|].
  replace (length l - 100)%nat with 0%nat by lia. reflexivity.
Qed.

Lemma last_100_length (l : list value) : length (last_100 l) = Nat.min 100 (length l).
Proof. rewrite last_100_skipn, length_skipn. lia. Qed.

Section ActivityLog.
Context {H : Host}.

Lemma parse_activity_log (s : State) (entries : list value) :
  activity_log s = Some entries ->
  parse_item_or_empty_array activity_log_key s = (Ret (VArr entries), s).
Proof.
  unfold activity_log, parse_item_or_empty_array, bind, gets, ret.
  destruct (localStorage s !! activity_log_key) as [[v|t]|].
  - destruct v; try discriminate. now intros [= ->].
  - destruct (String.eqb t ""); [now intros [= <-] | discriminate].
  - now intros [= <-].
Qed.

Lemma _addToActivityLog_effect (entry : value) (s : State) (entries : list value) :
  activity_log s = Some entries ->
  _addToActivityLog entry s
    = (Ret tt,
       set_localStorage
         (<[activity_log_key := TJson (VArr (map json_element (last_100 (entries ++ [entry]))))]>
            (localStorage s)) s).
Proof.
  intros Hlog. unfold _addToActivityLog, bind.
  fold activity_log_key. rewrite (parse_activity_log s entries Hlog).
  reflexivity.
Qed.

(** X15.  When the stored activity log is absent or an array of n entries,
    _addToActivityLog appends the entry and stores the last 100 entries:
    min(100, n+1) entries ending with the new one, which _getActivityLog
    then returns. No other key of storage, the cache or the dispatched
    events change. *)
Theorem _addToActivityLog_keeps_the_last_100
  (entry : value) (s : State) (entries : list value) :
  activity_log s = Some entries ->
  let s' := snd (_addToActivityLog entry s) in
  let kept := map json_element (skipn (length (entries ++ [entry]) - 100) (entries ++ [entry])) in
  fst (_addToActivityLog entry s) = Ret tt /\
  activity_log s' = Some kept /\
  fst (_getActivityLog s') = Ret (VArr kept) /\
  length kept = Nat.min 100 (S (length entries)) /\
  List.last kept VNull = json_element entry /\
  (forall k, k <> activity_log_key -> localStorage s' !! k = localStorage s !! k) /\
  currentUser s' = currentUser s /\ dispatched s' = dispatched s.
Proof.
  intros Hlog. cbv zeta. rewrite (_addToActivityLog_effect entry s entries Hlog).
  cbn [fst snd]. rewrite <- last_100_skipn.
  set (kept := map json_element (last_100 (entries ++ [entry]))).
  assert (Hlog' : activity_log
                    (set_localStorage (<[activity_log_key := TJson (VArr kept)]> (localStorage s)) s)
                  = Some kept).
  { unfold activity_log. cbn. now rewrite lookup_insert_eq. }
  split; [reflexivity|]. split; [exact Hlog'|]. split; [|split; [|split; [|split]]].
  - unfold _getActivityLog. fold activity_log_key.
    now rewrite (parse_activity_log _ kept Hlog').
  - unfold kept. rewrite length_map, last_100_length, length_app. cbn [length].
    now rewrite Nat.add_1_r.
  - unfold kept. rewrite last_100_skipn.
    assert (Hsplit : exists front, skipn (length (entries ++ [entry]) - 100) (entries ++ [entry])
                                   = (front ++ [entry])%list).
    { rewrite length_app. cbn [length]. rewrite skipn_app.
      replace (length entries + 1 - 100 - length entries)%nat with 0%nat by lia.
      eexists. reflexivity. }
    destruct Hsplit as (front & ->). rewrite map_app. cbn [map]. apply last_last.
  - intros k Hk. cbn. now rewrite lookup_insert_ne.
  - split; reflexivity.
Qed.

Lemma _getSessionId_spec (p : Page) :
  exists sessionId,
    fst (_getSessionId p) = sessionId /\ sessionId <> "" /\
    sessionStorage (snd (_getSessionId p)) !! session_id_key = Some sessionId /\
    (forall id, sessionStorage p !! session_id_key = Some id -> id <> "" ->
                sessionId = id /\ snd (_getSessionId p) = p) /\
    gtag (snd (_getSessionId p)) = gtag p /\
    exists n, manager (snd (_getSessionId p)) = set_draws n (manager p).
Proof.
  unfold _getSessionId. fold session_id_key.
  destruct (sessionStorage p !! session_id_key) as [id|] eqn:Hid.
  - destruct (String.eqb_spec id "") as [->|Hne].
    + eexists. split; [reflexivity|]. cbn. split; [discriminate|].
      split; [apply lookup_insert_eq|]. split; [intros id [= <-] Hn; congruence|].
      split; [reflexivity | eexists; reflexivity].
    + exists id. cbn. split; [reflexivity|]. split; [exact Hne|]. split; [exact Hid|].
      split; [intros id' [= <-] _; now split|]. split; [reflexivity|].
      exists (draws (manager p)). now destruct (manager p).
  - eexists. split; [reflexivity|]. cbn. split; [discriminate|].
    split; [apply lookup_insert_eq|]. split; [discriminate|].
    split; [reflexivity | eexists; reflexivity].
Qed.

(** X16.  trackActivity returns when the stored log is absent or an array:
    it appends the entry {action, timestamp, data ({} by default),
    sessionId} to the log and dispatches activityTracked with it. The
    session id is not empty, is kept in sessionStorage and is the stored
    one when there is one; the action is sent to gtag when the page has
    it. *)
Theorem trackActivity_logs_the_activity_under_one_session_id
  (action data : value) (p : Page) (entries : list value) :
  activity_log (manager p) = Some entries ->
  let p' := snd (trackActivity action data p) in
  fst (trackActivity action data p) = Ret tt /\
  exists sessionId,
    let entry := activity action data (clock (manager p)) sessionId in
    sessionId <> "" /\
    sessionStorage p' !! session_id_key = Some sessionId /\
    (forall id, sessionStorage p !! session_id_key = Some id -> id <> "" -> sessionId = id) /\
    activity_log (manager p')
      = Some (map json_element (last_100 (entries ++ [entry]))) /\
    In ("emiralai:activityTracked", entry) (dispatched (manager p')) /\
    gtag p'
      = option_map
          (fun calls =>
             (calls ++ [(action, JSON_stringify (match data with
                                                 | VUndef => VObj []
                                                 | _ => data
                                                 end))])%list)
          (gtag p).
Proof.
  intros Hlog. cbv zeta. unfold trackActivity.
  cbn [config.features.enableAnalytics negb].
  destruct (_getSessionId_spec p) as (sessionId & Hfst & Hne & Hstored & Hsame & Hg & n & Hm).
  destruct (_getSessionId p) as [sid p1]. cbn [fst snd] in *. subst sid.
  fold (activity action data (clock (manager p)) sessionId).
  set (entry := activity action data (clock (manager p)) sessionId).
  assert (Hlog1 : activity_log (manager p1) = Some entries).
  { rewrite Hm. exact Hlog. }
  unfold bind. rewrite (_addToActivityLog_effect entry (manager p1) entries Hlog1).
  rewrite _triggerEvent_exact. cbv zeta. cbn [fst snd].
  split; [reflexivity|]. exists sessionId.
  split; [exact Hne|]. split; [exact Hstored|]. split; [intros id Hid Hn; now apply Hsame|].
  split; [|split].
  - unfold activity_log. cbn. now rewrite lookup_insert_eq.
  - cbn. apply in_or_app. right. now left.
  - cbn. now rewrite Hg.
Qed.

End ActivityLog.

(** ** The two session checks *)

Section SessionChecks.
Context {H : Host}.


End SessionChecks.

(** ** Changes made by other tabs *)

Section OtherTabs.
Context {H : Host}.

(** A forced read that starts from an empty cache leaves in the cache
    what it returns. *)
Lemma getUserData_fills_the_cache (s : State) :
  currentUser s = VNull ->
  exists v s',
    getUserData true s = (Ret v, s') /\ currentUser s' = v /\
    (v = VNull \/ exists fields, v = VObj fields).
Proof.
  intros Hc.
  destruct (getUserData_reads true s (or_introl eq_refl)) as (v & s' & Hrun & Hcases).
  exists v, s'. split; [exact Hrun|].
  destruct Hcases as [(_ & -> & Hsame) | [(_ & _ & -> & s0 & _ & Hclear) | [(_ & _ & -> & _ & Hsame)
                     | (_ & _ & id & img & usage & metrics & _ & _ & _ & -> & Hcache & _)]]].
  - destruct Hsame as (_ & -> & _). split; [exact Hc | now left].
  - destruct (clearUserData_effect false s0) as (s2 & Hrun2 & Hnull & _).
    rewrite Hclear in Hrun2. injection Hrun2 as <-. split; [exact Hnull | now left].
  - destruct Hsame as (_ & -> & _). split; [exact Hc | now left].
  - split; [exact Hcache|]. right. eexists. reflexivity.
Qed.

(** X18.  A storage event on the user key with no new value empties the
    cache and dispatches userLoggedOut; with a new value the cache is
    dropped, reloaded from storage, and dataUpdated carries the result.
    An event on the subscription key reloads the record and dispatches
    subscriptionUpdated; an event on any other key, on a key without the
    prefix or without a key changes nothing. *)
Theorem _handleStorageChange_refreshes_the_cache (newValue : value) (s : State) :
  (truthy newValue = false ->
     let s' := snd (_handleStorageChange user_key newValue s) in
     currentUser s' = VNull /\ localStorage s' = localStorage s /\
     dispatched s' = (dispatched s ++ [("emiralai:userLoggedOut", VNull)])%list) /\
  (truthy newValue = true ->
     let s' := snd (_handleStorageChange user_key newValue s) in
     exists v,
       fst (getUserData true (set_currentUser VNull s)) = Ret v /\
       currentUser s' = v /\
       List.last (dispatched s') ("", VNull) = ("emiralai:dataUpdated", v)) /\
  (let s' := snd (_handleStorageChange subscription_key newValue s) in
   exists v,
     fst (getUserData true s) = Ret v /\
     (v <> VNull -> currentUser s' = v) /\
     List.last (dispatched s') ("", VNull) = ("emiralai:subscriptionUpdated", VNull)) /\
  (forall key,
     remove_first config.storage.prefix key <> config.storage.userDataKey ->
     remove_first config.storage.prefix key <> config.storage.subscriptionKey ->
     _handleStorageChange key newValue s = (Ret tt, s)) /\
  (forall key, is_prefix config.storage.prefix key = false ->
               storage_listener (Some key) newValue s = (Ret tt, s)) /\
  storage_listener None newValue s = (Ret tt, s).
Proof.
  split; [|split; [|split; [|split; [|split]]]].
  - intros Hv. cbv zeta. unfold _handleStorageChange.
    change (remove_first config.storage.prefix user_key) with config.storage.userDataKey.
    rewrite String.eqb_refl, Hv. cbn [negb]. unfold bind, modify.
    rewrite _triggerEvent_exact. cbn. repeat split.
  - intros Hv. cbv zeta.
    destruct (getUserData_fills_the_cache (set_currentUser VNull s) eq_refl)
      as (v & s1 & Hrun & Hc & _).
    assert (Hstep : exists s', _handleStorageChange user_key newValue s = (Ret tt, s') /\
                               currentUser s' = v /\
                               List.last (dispatched s') ("", VNull) = ("emiralai:dataUpdated", v)).
    { unfold _handleStorageChange.
      change (remove_first config.storage.prefix user_key) with config.storage.userDataKey.
      rewrite String.eqb_refl, Hv. cbn [negb]. unfold bind at 1. unfold modify at 1.
      unfold bind at 1. rewrite Hrun. unfold bind, gets. rewrite _triggerEvent_exact.
      eexists. split; [reflexivity|]. cbn. split; [exact Hc|].
      rewrite Hc. apply last_last. }
    destruct Hstep as (s' & Hstep & Hcache & Hlast). rewrite Hstep, Hrun. cbn [fst snd].
    now exists v.
  - cbv zeta.
    destruct (getUserData_spec true s) as (v & s1 & Hrun & _ & _ & Hres).
    assert (Hstep : exists s', _handleStorageChange subscription_key newValue s = (Ret tt, s') /\
                               currentUser s' = currentUser s1 /\
                               List.last (dispatched s') ("", VNull)
                                 = ("emiralai:subscriptionUpdated", VNull)).
    { unfold _handleStorageChange.
      change (remove_first config.storage.prefix subscription_key)
        with config.storage.subscriptionKey.
      change (String.eqb config.storage.subscriptionKey config.storage.userDataKey) with false.
      rewrite String.eqb_refl. cbv iota.
      unfold bind. rewrite Hrun. rewrite _triggerEvent_exact.
      eexists. split; [reflexivity|]. cbn. split; [reflexivity | apply last_last]. }
    destruct Hstep as (s' & Hstep & Hcache & Hlast). rewrite Hstep, Hrun. cbn [fst snd].
    exists v. split; [reflexivity|]. split; [|exact Hlast].
    intros Hnn. rewrite Hcache. destruct Hres as [[-> _] | [_ Hc]]; [congruence | exact Hc].
  - intros key Hu Hsub. unfold _handleStorageChange.
    destruct (String.eqb_spec (remove_first config.storage.prefix key)
                config.storage.userDataKey); [contradiction|].
    destruct (String.eqb_spec (remove_first config.storage.prefix key)
                config.storage.subscriptionKey); [contradiction | reflexivity].
  - intros key Hp. unfold storage_listener. rewrite Hp. now rewrite andb_false_r.
  - reflexivity.
Qed.

End OtherTabs.

(** ** The offline queue *)

Section OfflineQueue.
Context {H : Host}.

Lemma saveUserData_rejected (data : value) (s : State) :
  _validateUserData data = false ->
  exists s',
    saveUserData data s = (Ret false, s') /\
    offlineQueue s'
      = (offlineQueue s ++ [queued_save data (Date_toISOString (clock s))])%list /\
    localStorage s'
      = <[offline_queue_key := JSON_stringify (VArr (offlineQueue s'))]> (localStorage s) /\
    currentUser s' = currentUser s /\ clock s' = clock s /\ listeners s' = listeners s /\
    syncInterval s' = syncInterval s /\ posted s' = posted s /\
    dispatched s' = dispatched s /\ invoked s' = invoked s /\ draws s' = draws s.
Proof.
  intros Hv. unfold saveUserData, try_catch. unfold bind at 1. rewrite Hv. cbn [negb].
  unfold throw. cbn beta iota. unfold bind at 1. unfold log.
  cbn [config.features.debugMode String.eqb Ascii.eqb Bool.eqb orb
       config.features.enableOfflineMode].
  unfold _addToOfflineQueue, bind, gets, modify, ret. cbn.
  eexists. split; [reflexivity|]. cbn. repeat split.
Qed.

Lemma replay_rejected (patches : list (value * string)) :
  Forall (fun p => _validateUserData (fst p) = false) patches ->
  forall s,
    exists s',
      replay (map (fun p => queued_save (fst p) (snd p)) patches) s = (Ret tt, s') /\
      offlineQueue s'
        = (offlineQueue s
           ++ map (fun p => queued_save (fst p) (Date_toISOString (clock s))) patches)%list /\
      (forall k, k <> offline_queue_key -> localStorage s' !! k = localStorage s !! k) /\
      currentUser s' = currentUser s /\ clock s' = clock s /\ listeners s' = listeners s /\
      syncInterval s' = syncInterval s /\ posted s' = posted s /\
      dispatched s' = dispatched s /\ invoked s' = invoked s.
Proof.
  induction 1 as [|[data timestamp] patches Hinv _ IH]; intros s.
  - exists s. cbn. rewrite app_nil_r. repeat split.
  - cbn [map fst snd replay]. unfold bind at 1, try_catch.
    unfold bind at 1, lift at 1. unfold queued_save at 1. unfold get_prop at 1.
    change (spread_props (VObj ?l)) with l.
    cbn [own_get String.eqb Ascii.eqb Bool.eqb is_str].
    unfold bind at 1, lift at 1. unfold queued_save at 1. unfold get_prop at 1.
    change (spread_props (VObj ?l)) with l.
    cbn [own_get String.eqb Ascii.eqb Bool.eqb].
    cbn [fst] in Hinv.
    destruct (saveUserData_rejected data s Hinv)
      as (s1 & Hrun & Hq & Hls & Hc & Hk & Hl & Hsi & Hp & Hd & Hi & _).
    unfold bind at 1. rewrite Hrun. unfold ret at 1.
    destruct (IH s1) as (s2 & Hrun2 & Hq2 & Hls2 & Hc2 & Hk2 & Hl2 & Hsi2 & Hp2 & Hd2 & Hi2).
    rewrite Hrun2. exists s2. split; [reflexivity|].
    rewrite Hq2, Hq, Hk, <- app_assoc. split; [reflexivity|].
    split.
    { intros k Hne. rewrite Hls2 by exact Hne. rewrite Hls. now rewrite lookup_insert_ne. }
    repeat split; congruence.
Qed.

(** X19.  Online, a queue of saves whose patches _validateUserData rejects
    is never emptied: _processOfflineQueue queues each patch again, in
    order, with the current time as its timestamp, and writes the queue
    to storage; the cache, the events and the other keys are unchanged.
    Offline the call does nothing. *)
Theorem _processOfflineQueue_keeps_the_rejected_patches
  (s : State) (patches : list (value * string)) :
  offlineQueue s = map (fun p => queued_save (fst p) (snd p)) patches ->
  Forall (fun p => _validateUserData (fst p) = false) patches ->
  let s' := snd (_processOfflineQueue true s) in
  fst (_processOfflineQueue true s) = Ret tt /\
  offlineQueue s' = map (fun p => queued_save (fst p) (Date_toISOString (clock s))) patches /\
  (patches <> [] ->
     localStorage s' !! offline_queue_key = Some (JSON_stringify (VArr (offlineQueue s')))) /\
  (forall k, k <> offline_queue_key -> localStorage s' !! k = localStorage s !! k) /\
  currentUser s' = currentUser s /\
  dispatched s' = dispatched s /\
  _processOfflineQueue false s = (Ret tt, s).
Proof.
  intros Hq Hinv. cbv zeta.
  assert (Hoff : _processOfflineQueue false s = (Ret tt, s)) by reflexivity.
  destruct patches as [|p patches].
  { assert (Hrun : _processOfflineQueue true s = (Ret tt, s)).
    { unfold _processOfflineQueue, bind, gets. rewrite Hq. reflexivity. }
    rewrite Hrun. cbn [fst snd map] in *. repeat split; intros; congruence. }
  assert (Hrun : exists s',
             _processOfflineQueue true s = (Ret tt, s') /\
             offlineQueue s'
               = map (fun p => queued_save (fst p) (Date_toISOString (clock s))) (p :: patches) /\
             localStorage s' !! offline_queue_key
               = Some (JSON_stringify (VArr (offlineQueue s'))) /\
             (forall k, k <> offline_queue_key -> localStorage s' !! k = localStorage s !! k) /\
             currentUser s' = currentUser s /\ dispatched s' = dispatched s).
  { unfold _processOfflineQueue. unfold bind at 1, gets at 1. rewrite Hq.
    cbn [negb orb length map]. 
    replace (Z.of_nat (S (length (map (fun p0 => queued_save (fst p0) (snd p0)) patches))) =? 0)
      with false by (symmetry; apply Z.eqb_neq; lia).
    unfold bind at 1. unfold log.
    cbn [config.features.debugMode String.eqb Ascii.eqb Bool.eqb orb]. unfold ret at 1.
    unfold bind at 1, modify at 1.
    destruct (replay_rejected (p :: patches) Hinv (set_offlineQueue [] s))
      as (s1 & Hrun & Hq1 & Hls1 & Hc1 & Hk1 & _ & _ & _ & Hd1 & _).
    unfold bind at 1. cbn [map] in Hrun. rewrite Hrun.
    unfold bind, gets, modify. rewrite Hq1. cbn [offlineQueue set_offlineQueue app map length].
    replace (Z.of_nat (S (length (map (fun p0 => queued_save (fst p0)
                                         (Date_toISOString (clock (set_offlineQueue [] s))))
                                      patches))) =? 0)
      with false by (symmetry; apply Z.eqb_neq; lia).
    eexists. split; [reflexivity|]. cbn. rewrite Hq1.
    split; [reflexivity|]. split; [apply lookup_insert_eq|]. split; [|split; assumption].
    intros k Hne. fold offline_queue_key. rewrite lookup_insert_ne by congruence.
    now apply Hls1. }
  destruct Hrun as (s' & -> & Hq' & Hst & Hls & Hc & Hd). cbn [fst snd].
  repeat split; auto.
Qed.

End OfflineQueue.

(** ** Keys *)

Lemma is_prefix_append (p x : string) : is_prefix p (p ++ x) = true.
Proof.
  induction p as [|c p IH]; simpl; [reflexivity|]. now rewrite Ascii.eqb_refl, IH.
Qed.

Lemma not_written_key (k : string) :
  ~ written_key k ->
  k <> user_key /\ k <> subscription_key /\ k <> settings_key /\ k <> offline_queue_key /\
  forall now, k <> config.storage.prefix ++ "sync_" ++ Z_to_string now.
Proof.
  intros Hk. unfold written_key in Hk. cbn [In] in Hk.
  repeat split; try (intros ->; apply Hk; tauto).
  intros now ->. apply Hk. right.
  change (config.storage.prefix ++ "sync_" ++ Z_to_string now)
    with ((config.storage.prefix ++ "sync_") ++ Z_to_string now).
  apply is_prefix_append.
Qed.

Lemma same_other_keys_refl (s : State) : same_other_keys s s.
Proof. now intros k _. Qed.

Lemma same_other_keys_trans (s1 s2 s3 : State) :
  same_other_keys s1 s2 -> same_other_keys s2 s3 -> same_other_keys s1 s3.
Proof. intros H12 H23 k Hk. now rewrite H23, H12. Qed.

Lemma same_other_keys_eq (s s' : State) :
  localStorage s' = localStorage s -> same_other_keys s s'.
Proof. intros Heq k _. now rewrite Heq. Qed.

Section Frames2.
Context {H : Host}.

Lemma _notifyOtherTabs_frame (event : string) (data : value) (s : State) :
  exists o s', _notifyOtherTabs event data s = (o, s') /\ same_other_keys s s' /\
               currentUser s' = currentUser s /\ offlineQueue s' = offlineQueue s /\
               clock s' = clock s.
Proof.
  unfold _notifyOtherTabs. destruct has_BroadcastChannel.
  - destruct (has_function data); unfold throw, modify; do 2 eexists;
      (split; [reflexivity|]); (split; [apply same_other_keys_refl || (now intros k _) | repeat split]).
  - unfold bind, gets, modify. do 2 eexists. split; [reflexivity|]. split; [|repeat split].
    intros k Hk. cbn. destruct (not_written_key k Hk) as (_ & _ & _ & _ & Hsync).
    rewrite lookup_delete_ne; [reflexivity|]. intros Heq. now apply (Hsync (clock s)).
Qed.

Lemma clearUserData_frame (clearSettings : bool) (s : State) :
  same_other_keys s (snd (clearUserData clearSettings s)).
Proof.
  intros k Hk. destruct (not_written_key k Hk) as (Hu & Hsub & Hset & _ & Hsync).
  unfold clearUserData, try_catch.
  unfold _removeFromStorage, _notifyOtherTabs, bind, modify, gets, ret.
  fold user_key subscription_key settings_key.
  destruct clearSettings; cbn -[_triggerEvent log];
    (destruct (syncInterval s); cbn -[_triggerEvent log];
     rewrite _triggerEvent_exact; cbn -[log];
     destruct has_BroadcastChannel; cbn;
     repeat first [ rewrite lookup_delete_ne by congruence
                  | rewrite lookup_delete_ne by (intros Heq; now apply (Hsync (clock s))) ];
     reflexivity).
Qed.

Lemma getUserData_frame (forceRefresh : bool) (s : State) :
  same_other_keys s (snd (getUserData forceRefresh s)).
Proof.
  destruct (negb forceRefresh && truthy (currentUser s)) eqn:Hc.
  - apply andb_prop in Hc as [Hf Hc]. apply negb_true_iff in Hf as ->.
    rewrite getUserData_cached by exact Hc. apply same_other_keys_refl.
  - assert (Hread : forceRefresh = true \/ truthy (currentUser s) = false).
    { destruct forceRefresh; [now left | now right]. }
    destruct (getUserData_reads forceRefresh s Hread) as (v & s' & Hrun & Hcases).
    rewrite Hrun. cbn [snd].
    destruct Hcases as [(_ & _ & Hsame) | [(_ & _ & _ & s0 & Hsame & Hclear)
                       | [(_ & _ & _ & _ & Hsame) | (_ & _ & id & img & usage & metrics & _ & _ & _
                           & _ & _ & Hls & _)]]].
    + apply same_other_keys_eq. apply Hsame.
    + apply same_other_keys_trans with s0; [apply same_other_keys_eq; apply Hsame|].
      assert (Hf := clearUserData_frame false s0). now rewrite Hclear in Hf.
    + apply same_other_keys_eq. apply Hsame.
    + now apply same_other_keys_eq.
Qed.

Lemma saveUserData_frame (data : value) (s : State) :
  same_other_keys s (snd (saveUserData data s)).
Proof.
  destruct (_validateUserData data) eqn:Hv.
  2: { destruct (saveUserData_rejected data s Hv) as (s' & -> & _ & Hls & _). cbn [snd].
       intros k Hk. destruct (not_written_key k Hk) as (_ & _ & _ & Hq & _).
       rewrite Hls. now rewrite lookup_insert_ne. }
  assert (Hget := getUserData_frame false s).
  destruct (getUserData_spec false s) as (current & s1 & Hrun & Hk1 & _).
  rewrite Hrun in Hget. cbn [snd] in Hget.
  apply same_other_keys_trans with s1; [exact Hget|]. clear Hget.
  intros k Hk. destruct (not_written_key k Hk) as (Hu & Hsub & Hset & Hq & Hsync).
  unfold saveUserData, try_catch. unfold bind at 1. rewrite Hv. cbn [negb].
  unfold ret at 1. unfold bind at 1. rewrite Hrun.
  unfold bind at 1. unfold gets at 1.
  set (updated := obj_set _ "lastModified" _).
  unfold _saveToStorage, bind, modify, ret, _queueServerSync.
  cbn [config.features.enableAutoSave config.features.enableOfflineMode].
  fold user_key subscription_key settings_key.
  destruct (truthy (get_prop_opt (VObj updated) "subscription")),
           (truthy (get_prop_opt (VObj updated) "settings"));
    cbn -[_triggerEvent _notifyOtherTabs log _addToOfflineQueue has_function];
    rewrite _triggerEvent_exact; unfold _notifyOtherTabs, bind, gets, modify, throw;
    (destruct has_BroadcastChannel; [destruct (has_function (VObj updated))|]);
    unfold log, _addToOfflineQueue, bind, gets, modify, ret; cbn;
    fold offline_queue_key;
    repeat first [ rewrite lookup_insert_ne by congruence
                 | rewrite lookup_delete_ne by (intros Heq; now apply (Hsync (clock s1))) ];
    reflexivity.
Qed.

Lemma updateSettings_frame (settings : value) (s : State) :
  same_other_keys s (snd (updateSettings settings s)) /\
  localStorage (snd (updateSettings settings s)) !! user_key = localStorage s !! user_key.
Proof.
  assert (Hall : forall k, k <> settings_key ->
                   localStorage (snd (updateSettings settings s)) !! k = localStorage s !! k).
  { intros k Hk. unfold updateSettings, try_catch.
    unfold bind at 1. step_read.
    unfold bind at 1. unfold gets at 1.
    unfold bind at 1. unfold _saveToStorage, bind, modify, ret, gets, lift.
    fold settings_key.
    cbn [currentUser localStorage set_localStorage with_logs snd fst].
    destruct (truthy (currentUser s)); cbv beta iota.
    - destruct (assign_prop (currentUser s) "settings" _) as [u|e]; cbv beta iota.
      + rewrite _triggerEvent_exact. cbn. now rewrite lookup_insert_ne.
      + unfold log. cbn. now rewrite lookup_insert_ne.
    - rewrite _triggerEvent_exact. cbn. now rewrite lookup_insert_ne. }
  split.
  - intros k Hk. apply Hall. now destruct (not_written_key k Hk) as (_ & _ & ? & _).
  - apply Hall. discriminate.
Qed.

Lemma saveUserData_total (data : value) (s : State) :
  exists b s', saveUserData data s = (Ret b, s').
Proof.
  destruct (_validateUserData data) eqn:Hv.
  - destruct (saveUserData_valid data s Hv) as (c & s1 & s' & _ & -> & _). now do 2 eexists.
  - destruct (saveUserData_invalid data s Hv) as (s' & -> & _). now do 2 eexists.
Qed.

Lemma updateUserPlan_frame (planId details : value) (s : State) :
  same_other_keys s (snd (updateUserPlan planId details s)).
Proof.
  unfold updateUserPlan, try_catch. unfold bind at 1.
  destruct (truthy (plans_get planId)); cbn [negb].
  2: { unfold throw. cbn beta iota. unfold bind, ret. step_log. now intros k _. }
  unfold ret at 1. unfold bind at 1.
  assert (Hget := getUserData_frame false s).
  destruct (getUserData_spec false s) as (cu & s1 & Hrun & _).
  rewrite Hrun in *. cbn [snd] in Hget.
  unfold bind at 1. destruct (truthy cu); cbn [negb].
  2: { unfold throw. cbn beta iota. unfold bind, ret. step_log.
       intros k Hk. now apply Hget. }
  unfold ret at 1. unfold bind at 1. unfold gets at 1.
  unfold bind at 1. unfold _saveToStorage at 1. unfold bind at 1, modify at 1, ret at 1.
  unfold bind at 1.
  match goal with
  | |- context [saveUserData ?d ?s0] =>
      assert (Hsave := saveUserData_frame d s0);
      destruct (saveUserData_total d s0) as (b & s2 & Hrun2)
  end.
  rewrite Hrun2 in *. cbn [snd] in Hsave. cbn beta iota.
  unfold bind at 1. rewrite _triggerEvent_exact. cbv zeta.
  cbn [config.features.enableNotifications]. unfold _showNotification.
  cbn [config.features.enableNotifications negb].
  unfold bind at 1. unfold bind at 1. rewrite _triggerEvent_exact. cbv zeta.
  unfold window_dispatchEvent, modify, ret. cbn beta iota. cbn [snd].
  intros k Hk. cbn [localStorage with_logs set_dispatched].
  rewrite (Hsave k Hk). cbn [localStorage set_localStorage].
  fold subscription_key.
  destruct (not_written_key k Hk) as (_ & Hsub & _).
  rewrite lookup_insert_ne by congruence. now apply Hget.
Qed.

Lemma importUserData_frame (data : value) (s : State) :
  exists s',
    importUserData data s
      = (Ret (truthy data && is_str (get_prop_opt data "version") "2.0.0"), s') /\
    same_other_keys s s' /\
    (_validateUserData (get_prop_opt data "userData") = false ->
       localStorage s' !! user_key = localStorage s !! user_key).
Proof.
  unfold importUserData, try_catch. unfold bind at 1.
  destruct (truthy data && is_str (get_prop_opt data "version") "2.0.0") eqn:Hok.
  2: { assert (Hbad : negb (truthy data) || negb (is_str (get_prop_opt data "version") "2.0.0")
                      = true).
       { destruct (truthy data), (is_str _ _); try discriminate; reflexivity. }
       rewrite Hbad. unfold throw. cbn beta iota. unfold bind, ret. step_log.
       eexists. split; [reflexivity|]. split; [now intros k _ | reflexivity]. }
  apply andb_prop in Hok as [-> ->]. cbn [negb orb]. unfold ret at 1.
  unfold bind at 1.
  assert (Hstep1 : exists s1,
             (if truthy (get_prop_opt data "userData")
              then saveUserData (get_prop_opt data "userData");; ret tt
              else ret tt) s = (Ret tt, s1) /\ same_other_keys s s1 /\
             (_validateUserData (get_prop_opt data "userData") = false ->
                localStorage s1 !! user_key = localStorage s !! user_key)).
  { destruct (truthy (get_prop_opt data "userData")).
    - assert (Hf := saveUserData_frame (get_prop_opt data "userData") s).
      destruct (saveUserData_total (get_prop_opt data "userData") s) as (b & s1 & Hrun).
      unfold bind, ret. rewrite Hrun in *. exists s1. split; [reflexivity|].
      split; [exact Hf|]. intros Hv.
      destruct (saveUserData_rejected _ s Hv) as (s1' & Hrun' & _ & Hls & _).
      rewrite Hrun in Hrun'. injection Hrun' as _ <-. rewrite Hls.
      now rewrite lookup_insert_ne.
    - exists s. split; [reflexivity|]. split; [apply same_other_keys_refl | reflexivity]. }
  destruct Hstep1 as (s1 & -> & H1 & Hu1).
  unfold bind at 1.
  assert (Hstep2 : exists s2,
             (if truthy (get_prop_opt data "settings")
              then updateSettings (get_prop_opt data "settings");; ret tt
              else ret tt) s1 = (Ret tt, s2) /\ same_other_keys s1 s2 /\
             localStorage s2 !! user_key = localStorage s1 !! user_key).
  { destruct (truthy (get_prop_opt data "settings")).
    - destruct (updateSettings_frame (get_prop_opt data "settings") s1) as [Hf Hu].
      destruct (updateSettings_total (get_prop_opt data "settings") s1) as (b & s2 & Hrun).
      unfold bind, ret. rewrite Hrun in *. now exists s2.
    - exists s1. split; [reflexivity|]. split; [apply same_other_keys_refl | reflexivity]. }
  destruct Hstep2 as (s2 & -> & H2 & Hu2).
  unfold bind. rewrite _triggerEvent_exact. unfold ret.
  eexists. split; [reflexivity|]. split.
  - intros k Hk. cbn. rewrite (H2 k Hk). now apply H1.
  - intros Hv. cbn. rewrite Hu2. now apply Hu1.
Qed.

End Frames2.

Section Backup.
Context {H : Host}.

Lemma activity_log_key_is_not_written : ~ written_key activity_log_key.
Proof.
  unfold written_key. cbn. intros [[Hk | [Hk | [Hk | [Hk | []]]]] | Hk]; discriminate.
Qed.

(** X20.  getUserData, saveUserData, updateUserPlan, clearUserData,
    updateSettings and importUserData leave every key of localStorage as
    it was, except the keys of the record, the subscription, the
    settings and the offline queue and the sync_ keys of the cross-tab
    fallback. *)
Theorem operations_write_only_their_own_keys (s : State) (k : string) :
  ~ written_key k ->
  (forall forceRefresh,
     localStorage (snd (getUserData forceRefresh s)) !! k = localStorage s !! k) /\
  (forall data, localStorage (snd (saveUserData data s)) !! k = localStorage s !! k) /\
  (forall planId details,
     localStorage (snd (updateUserPlan planId details s)) !! k = localStorage s !! k) /\
  (forall clearSettings,
     localStorage (snd (clearUserData clearSettings s)) !! k = localStorage s !! k) /\
  (forall settings,
     localStorage (snd (updateSettings settings s)) !! k = localStorage s !! k) /\
  (forall data, localStorage (snd (importUserData data s)) !! k = localStorage s !! k).
Proof.
  intros Hk. repeat apply conj.
  - intros forceRefresh. now apply getUserData_frame.
  - intros data. now apply saveUserData_frame.
  - intros planId details. now apply updateUserPlan_frame.
  - intros clearSettings. now apply clearUserData_frame.
  - intros settings. now apply updateSettings_frame.
  - intros data. destruct (importUserData_frame data s) as (s' & -> & Hf & _). now apply Hf.
Qed.

Lemma getUserData_record_keeps_storage (s : State) (u : value) :
  fst (getUserData false s) = Ret u -> truthy u = true ->
  localStorage (snd (getUserData false s)) = localStorage s /\
  clock (snd (getUserData false s)) = clock s.
Proof.
  intros Hu Ht. destruct (truthy (currentUser s)) eqn:Hc.
  - rewrite getUserData_cached by exact Hc. now split.
  - destruct (getUserData_reads false s (or_intror Hc)) as (v & s' & Hrun & Hcases).
    rewrite Hrun in *. cbn [fst snd] in *. injection Hu as ->.
    destruct Hcases as [(_ & -> & _) | [(_ & _ & -> & _) | [(_ & _ & -> & _)
                       | (_ & _ & id & img & usage & metrics & _ & _ & _ & _ & _ & Hls & Hk & _)]]];
      try discriminate.
    now split.
Qed.

(** X21.  exportUserData returns null when no user is loaded, and otherwise
    the version 2.0.0, the export date, the record, the stored settings
    and the activity log. importUserData returns true exactly when the
    data is truthy and has version 2.0.0, so for every export, and also
    when the record in the data is rejected (storage then keeps its
    record); it never writes the activity log. *)
Theorem exportUserData_and_importUserData (s : State) :
  (fst (getUserData false s) = Ret VNull -> fst (exportUserData s) = Ret VNull) /\
  (forall u entries,
     fst (getUserData false s) = Ret u -> truthy u = true ->
     activity_log s = Some entries ->
     fst (exportUserData s)
       = Ret (VObj [ ("version", VStr "2.0.0");
                     ("exportDate", VStr (Date_toISOString (clock s)));
                     ("userData", u);
                     ("settings", stored s config.storage.settingsKey);
                     ("activityLog", VArr entries) ])) /\
  (forall e s0, fst (exportUserData s) = Ret e -> e <> VNull ->
                fst (importUserData e s0) = Ret true) /\
  (forall data s0,
     fst (importUserData data s0)
       = Ret (truthy data && is_str (get_prop_opt data "version") "2.0.0")) /\
  (forall data s0,
     _validateUserData (get_prop_opt data "userData") = false ->
     localStorage (snd (importUserData data s0)) !! user_key = localStorage s0 !! user_key) /\
  (forall data s0,
     localStorage (snd (importUserData data s0)) !! activity_log_key
       = localStorage s0 !! activity_log_key).
Proof.
  split; [|split; [|split; [|split; [|split]]]].
  - intros Hnull. unfold exportUserData, bind.
    destruct (getUserData false s) as [[v|e] s1]; cbn [fst] in Hnull; [|discriminate].
    injection Hnull as ->. reflexivity.
  - intros u entries Hu Ht Hlog.
    destruct (getUserData_record_keeps_storage s u Hu Ht) as [Hls Hk].
    unfold exportUserData. unfold bind at 1.
    destruct (getUserData false s) as [[v|e] s1]; cbn [fst snd] in *; [|discriminate].
    injection Hu as ->. rewrite Ht. cbn [negb].
    unfold bind at 1. unfold gets at 1. unfold bind at 1. step_read.
    unfold bind, _getActivityLog. fold activity_log_key.
    rewrite (parse_activity_log _ entries)
      by (unfold activity_log in *; cbn [localStorage with_logs]; now rewrite Hls).
    unfold ret. cbn [fst]. unfold stored. rewrite Hls, Hk. reflexivity.
  - intros e s0 He Hnn.
    destruct (importUserData_frame e s0) as (s' & -> & _). cbn [fst].
    unfold exportUserData in He. unfold bind at 1 in He.
    destruct (getUserData false s) as [[v|err] s1]; [|discriminate].
    destruct (truthy v); cbn [negb] in He; [|cbn in He; congruence].
    unfold bind at 1 in He. unfold gets at 1 in He. unfold bind at 1 in He.
    match type of He with
    | context [_getFromStorage ?k ?st] =>
        destruct (_getFromStorage_spec k st) as (s2 & Hread & _)
    end.
    rewrite Hread in He. unfold bind in He.
    destruct (_getActivityLog s2) as [[l|err] s3]; [|discriminate].
    unfold ret in He. cbn [fst] in He. injection He as <-. reflexivity.
  - intros data s0. now destruct (importUserData_frame data s0) as (s' & -> & _).
  - intros data s0 Hv. destruct (importUserData_frame data s0) as (s' & -> & _ & Hu).
    now apply Hu.
  - intros data s0. destruct (importUserData_frame data s0) as (s' & -> & Hf & _).
    apply Hf. apply activity_log_key_is_not_written.
Qed.

End Backup.

(** ** Deep merge *)

Lemma _isObject_spec (v : value) : _isObject v = true <-> exists fields, v = VObj fields.
Proof.
  split.
  - intros Hv. unfold _isObject in Hv. apply andb_prop in Hv as [Hv Ha].
    apply andb_prop in Hv as [Htr Ht].
    destruct v; try discriminate. now eexists.
  - intros (fields & ->). reflexivity.
Qed.

Lemma own_get_map_values (f : string -> value -> value) (l : props) (k : string) :
  own_get (map (fun kv => (fst kv, f (fst kv) (snd kv))) l) k = option_map (f k) (own_get l k).
Proof.
  induction l as [|[k0 v0] rest IH]; [reflexivity|]. cbn [map own_get fst snd].
  destruct (String.eqb_spec k0 k) as [->|Hne]; [reflexivity | exact IH].
Qed.

(** Induction on a value through the properties of its objects. *)
Lemma value_ind_properties (P : value -> Prop) :
  (forall v, (forall kvs k x, v = VObj kvs -> In (k, x) kvs -> P x) -> P v) ->
  forall v, P v.
Proof.
  intros Hstep. fix IH 1. intros v. apply Hstep.
  destruct v as [| | | | | | |fields|]; try discriminate.
  intros kvs k x Heq Hin. injection Heq as <-. revert Hin.
  induction fields as [|[k0 x0] rest IHl]; intros Hin; [contradiction|].
  destruct Hin as [Heq | Hin].
  - injection Heq as _ <-. apply IH.
  - now apply IHl.
Qed.

Lemma proto_free_property (kvs : props) (k : string) (x : value) :
  proto_free (VObj kvs) = true -> In (k, x) kvs -> k <> "__proto__" /\ proto_free x = true.
Proof.
  induction kvs as [|[k0 x0] rest IH]; intros Hfree Hin; [contradiction|].
  cbn [proto_free] in Hfree. apply andb_prop in Hfree as [Hfree Hrest].
  apply andb_prop in Hfree as [Hk Hx].
  destruct Hin as [[= <- <-] | Hin].
  - split; [|exact Hx]. intros ->. discriminate.
  - now apply IH.
Qed.

(** The loop of [_deepMerge] over the keys of a source in which no key is
    [__proto__] and every recursive merge gives a value. *)
Lemma forEach_key_of_the_source (target : props) (source : props) :
  (forall k x, In (k, x) source -> k <> "__proto__") ->
  (forall k x, In (k, x) source -> _isObject x = true -> has_property target k = true ->
               exists merged, _deepMerge (get_prop_opt (VObj target) k) x = Some merged) ->
  forall output,
    (fix forEach (keys : props) (output : option props) {struct keys} : option props :=
       match keys with
       | [] => output
       | (key, source_key) :: rest =>
           forEach rest
             (match output with
              | None => None
              | Some output =>
                  if String.eqb key "__proto__" then
                    match source_key with
                    | VNull | VArr _ | VObj _ | VFun _ => None
                    | _ => Some output
                    end
                  else if _isObject source_key then
                    if negb (has_property (spread_props (VObj target)) key)
                    then Some (obj_set output key source_key)
                    else option_map (obj_set output key)
                           (_deepMerge (get_prop_opt (VObj target) key) source_key)
                  else Some (obj_set output key source_key)
              end)
       end) source (Some output)
    = Some (obj_assign output
              (map (fun kv => (fst kv, merged_value target (fst kv) (snd kv))) source)).
Proof.
  unfold obj_assign.
  induction source as [|[key source_key] rest IH]; intros Hkeys Hmerges output; [reflexivity|].
  cbn [map fold_left fst snd].
  assert (Hkey : String.eqb key "__proto__" = false).
  { apply String.eqb_neq. apply (Hkeys key source_key). now left. }
  rewrite Hkey. unfold merged_value.
  change (spread_props (VObj target)) with target.
  destruct (_isObject source_key) eqn:Hobj.
  - destruct (has_property target key) eqn:Hin; cbn [negb].
    + destruct (Hmerges key source_key (or_introl eq_refl) Hobj Hin) as (merged & ->).
      cbn [option_map default]. apply IH; intros; [eapply Hkeys | eapply Hmerges]; eauto;
        right; eassumption.
    + apply IH; intros; [eapply Hkeys | eapply Hmerges]; eauto; right; eassumption.
  - apply IH; intros; [eapply Hkeys | eapply Hmerges]; eauto; right; eassumption.
Qed.

Lemma own_get_In (kvs : props) (k : string) (x : value) :
  own_get kvs k = Some x -> In (k, x) kvs.
Proof.
  induction kvs as [|[k0 x0] rest IH]; [discriminate|].
  cbn [own_get]. destruct (String.eqb_spec k0 k) as [->|_].
  - intros [= ->]. now left.
  - intros Hk. right. now apply IH.
Qed.

Lemma Object_assign_new_proto_free (target : value) :
  proto_free target = true -> Object_assign_new target = Some (spread_props target).
Proof.
  intros Hfree. destruct target as [| | | | | | |fields|]; try reflexivity.
  unfold Object_assign_new. destruct (own_get fields "__proto__") as [x|] eqn:Hown;
    [|reflexivity].
  destruct (proto_free_property fields "__proto__" x Hfree (own_get_In _ _ _ Hown)) as [Hne _].
  now contradict Hne.
Qed.

Lemma proto_free_get_prop_opt (fields : props) (k : string) :
  proto_free (VObj fields) = true -> proto_free (get_prop_opt (VObj fields) k) = true.
Proof.
  intros Hfree. unfold get_prop_opt, get_prop. change (spread_props (VObj fields)) with fields.
  destruct (own_get fields k) as [x|] eqn:Hown.
  - now apply (proto_free_property fields k x Hfree (own_get_In _ _ _ Hown)).
  - unfold inherited_get. destruct (assoc_str Object_prototype_functions k); [reflexivity|].
    now destruct (String.eqb k "__proto__").
Qed.

Lemma _deepMerge_not_an_object (target source : value) :
  _isObject source = false ->
  _deepMerge target source = option_map VObj (Object_assign_new target).
Proof.
  intros Hs. destruct source; cbn [_deepMerge]; rewrite Hs, andb_false_r; reflexivity.
Qed.

(** A source without [__proto__] keys merges into every target without
    such keys. *)
Lemma _deepMerge_defined (source : value) :
  proto_free source = true ->
  forall target, proto_free target = true ->
                 exists output, _deepMerge target source = Some (VObj output).
Proof.
  induction source as [source IH] using value_ind_properties.
  intros Hfree target Htarget.
  destruct (_isObject source) eqn:Hs.
  2: { rewrite (_deepMerge_not_an_object target source Hs).
       rewrite (Object_assign_new_proto_free target Htarget). now eexists. }
  apply _isObject_spec in Hs as (keys & ->).
  destruct (_isObject target) eqn:Ht.
  2: { cbn [_deepMerge]. rewrite Ht. cbn [andb].
       rewrite (Object_assign_new_proto_free target Htarget). now eexists. }
  apply _isObject_spec in Ht as (fields & ->).
  cbn [_deepMerge]. change (_isObject (VObj fields) && _isObject (VObj keys)) with true.
  cbv iota. rewrite (Object_assign_new_proto_free (VObj fields) Htarget).
  change (spread_props (VObj fields)) with fields.
  rewrite (forEach_key_of_the_source fields keys).
  - cbn [option_map]. now eexists.
  - intros k x Hin. now apply (proto_free_property keys k x Hfree).
  - intros k x Hin _ _.
    destruct (IH keys k x eq_refl Hin) with (target := get_prop_opt (VObj fields) k)
      as (merged & ->).
    + now apply (proto_free_property keys k x Hfree).
    + now apply proto_free_get_prop_opt.
    + now eexists.
Qed.

(** X22.  For a target and a source in which no object has an own
    property named __proto__, _deepMerge of two objects keeps the target's
    keys that the source lacks and takes every other key from the source:
    as it is when the source's value is no object or the target has no
    such property, and merged recursively with the target's value
    otherwise.  An empty source gives the target back, and a source that
    is no object gives a copy of the target.  Under the key __proto__, of
    the target or of the source, a number, a string or a boolean is
    dropped, and an object, an array, a function or null replaces the
    prototype of the result, which then is no plain object. *)
Theorem _deepMerge_takes_the_source_key_by_key (target source : props) :
  List.NoDup (map fst source) ->
  proto_free (VObj target) = true ->
  proto_free (VObj source) = true ->
  exists output,
    _deepMerge (VObj target) (VObj source) = Some (VObj output) /\
    (forall key, own_get source key = None -> own_get output key = own_get target key) /\
    (forall key source_key,
       own_get source key = Some source_key -> _isObject source_key = false ->
       own_get output key = Some source_key) /\
    (forall key source_key,
       own_get source key = Some source_key -> _isObject source_key = true ->
       has_property target key = false ->
       own_get output key = Some source_key) /\
    (forall key source_key,
       own_get source key = Some source_key -> _isObject source_key = true ->
       has_property target key = true ->
       exists merged,
         _deepMerge (get_prop_opt (VObj target) key) source_key = Some (VObj merged) /\
         own_get output key = Some (VObj merged)) /\
    (source = [] -> output = target) /\
    (forall target source : value,
       _isObject source = false -> proto_free target = true ->
       _deepMerge target source = Some (VObj (spread_props target))) /\
    (forall (fields : props) (x : value),
       own_get fields "__proto__" = None ->
       _deepMerge (VObj fields) (VObj [("__proto__", x)])
         = match x with
           | VNull | VArr _ | VObj _ | VFun _ => None
           | _ => Some (VObj fields)
           end) /\
    (forall (fields : props) (x source : value),
       own_get fields "__proto__" = Some x -> _isObject source = false ->
       _deepMerge (VObj fields) source
         = match x with
           | VNull | VArr _ | VObj _ | VFun _ => None
           | _ => Some (VObj (obj_without ["__proto__"] fields))
           end).
Proof.
  intros Hnd Htarget Hfree.
  assert (Hin : forall k x, own_get source k = Some x -> In (k, x) source)
    by (intros k x; apply own_get_In).
  assert (Hmerges : forall k x, In (k, x) source ->
             exists merged, _deepMerge (get_prop_opt (VObj target) k) x = Some (VObj merged)).
  { intros k x Hk. apply _deepMerge_defined.
    - now apply (proto_free_property source k x Hfree).
    - now apply proto_free_get_prop_opt. }
  eexists. split.
  { cbn [_deepMerge]. change (_isObject (VObj target) && _isObject (VObj source)) with true.
    cbv iota. rewrite (Object_assign_new_proto_free (VObj target) Htarget).
    change (spread_props (VObj target)) with target.
    rewrite (forEach_key_of_the_source target source); [reflexivity | |].
    - intros k x Hk. now apply (proto_free_property source k x Hfree).
    - intros k x Hk _ _. destruct (Hmerges k x Hk) as (merged & ->). now eexists. }
  assert (Hnd' : List.NoDup (map fst (map (fun kv : string * value =>
                    (fst kv, merged_value target (fst kv) (snd kv))) source))).
  { rewrite map_map. exact Hnd. }
  assert (Hget : forall key,
             own_get (obj_assign target
                        (map (fun kv => (fst kv, merged_value target (fst kv) (snd kv))) source))
                     key
             = match own_get source key with
               | Some source_key => Some (merged_value target key source_key)
               | None => own_get target key
               end).
  { intros key. rewrite own_get_obj_assign by exact Hnd'.
    rewrite (own_get_map_values (merged_value target)).
    now destruct (own_get source key). }
  split; [|split; [|split; [|split; [|split; [|split; [|split]]]]]].
  - intros key Hk. now rewrite Hget, Hk.
  - intros key source_key Hk Hobj. rewrite Hget, Hk. unfold merged_value. now rewrite Hobj.
  - intros key source_key Hk Hobj Hhas. rewrite Hget, Hk. unfold merged_value.
    now rewrite Hobj, Hhas.
  - intros key source_key Hk Hobj Hhas.
    destruct (Hmerges key source_key (Hin key source_key Hk)) as (merged & Hm).
    exists merged. split; [exact Hm|].
    rewrite Hget, Hk. unfold merged_value. now rewrite Hobj, Hhas, Hm.
  - intros ->. reflexivity.
  - intros t src Hs Ht. rewrite (_deepMerge_not_an_object t src Hs).
    now rewrite (Object_assign_new_proto_free t Ht).
  - intros fields x Hown. cbn [_deepMerge].
    change (_isObject (VObj fields) && _isObject (VObj [("__proto__", x)])) with true.
    cbv iota. unfold Object_assign_new. rewrite Hown.
    cbn [String.eqb Ascii.eqb Bool.eqb].
    now destruct x.
  - intros fields x src Hown Hs. rewrite (_deepMerge_not_an_object _ src Hs).
    unfold Object_assign_new. rewrite Hown. now destruct x.
Qed.

(** ** The cache *)

Lemma keeps_bind {A B} (m : M A) (k : A -> M B) :
  keeps_the_cache m -> (forall a, keeps_the_cache (k a)) -> keeps_the_cache (bind m k).
Proof.
  intros Hm Hk s Hs. unfold bind. specialize (Hm s Hs).
  destruct (m s) as [[a|e] s1]; cbn [snd] in *; [now apply Hk | exact Hm].
Qed.

Lemma keeps_try_catch {A} (m : M A) (handler : string -> M A) :
  keeps_the_cache m -> (forall e, keeps_the_cache (handler e)) ->
  keeps_the_cache (try_catch m handler).
Proof.
  intros Hm Hh s Hs. unfold try_catch. specialize (Hm s Hs).
  destruct (m s) as [[a|e] s1]; cbn [snd] in *; [exact Hm | now apply Hh].
Qed.

Lemma keeps_ret {A} (a : A) : keeps_the_cache (ret a).
Proof. now intros s Hs. Qed.

Lemma keeps_throw {A} (e : string) : keeps_the_cache (throw (A := A) e).
Proof. now intros s Hs. Qed.

Lemma keeps_lift {A} (o : outcome A) : keeps_the_cache (lift o).
Proof. now intros s Hs. Qed.

Lemma keeps_gets {A} (f : State -> A) : keeps_the_cache (gets f).
Proof. now intros s Hs. Qed.

Lemma keeps_modify (f : State -> State) :
  (forall s, currentUser (f s) = currentUser s) -> keeps_the_cache (modify f).
Proof. intros Hf s Hs. unfold modify, cache_holds_a_record. cbn. now rewrite Hf. Qed.

Lemma keeps_if {A} (b : bool) (m1 m2 : M A) :
  keeps_the_cache m1 -> keeps_the_cache m2 -> keeps_the_cache (if b then m1 else m2).
Proof. now destruct b. Qed.

Section Cache.
Context {H : Host}.

Lemma keeps_log (level msg : string) : keeps_the_cache (log level msg).
Proof. intros s Hs. destruct (log_spec level msg s) as (s' & -> & (c & i & d & ->)). exact Hs. Qed.

Lemma keeps__triggerEvent (eventName : string) (data : value) :
  keeps_the_cache (_triggerEvent eventName data).
Proof. intros s Hs. rewrite _triggerEvent_exact. exact Hs. Qed.

Lemma keeps_getUserData (forceRefresh : bool) : keeps_the_cache (getUserData forceRefresh).
Proof.
  intros s Hs. destruct (negb forceRefresh && truthy (currentUser s)) eqn:Hc.
  - apply andb_prop in Hc as [Hf Hc]. apply negb_true_iff in Hf as ->.
    now rewrite getUserData_cached.
  - assert (Hread : forceRefresh = true \/ truthy (currentUser s) = false).
    { destruct forceRefresh; [now left | now right]. }
    destruct (getUserData_reads forceRefresh s Hread) as (v & s' & Hrun & Hcases).
    rewrite Hrun. cbn [snd]. unfold cache_holds_a_record in *.
    destruct Hcases as [(_ & _ & Hsame) | [(_ & _ & _ & s0 & _ & Hclear)
                       | [(_ & _ & _ & _ & Hsame) | (_ & _ & id & img & usage & metrics & _ & _ & _
                           & -> & -> & _)]]].
    + destruct Hsame as (_ & -> & _). exact Hs.
    + destruct (clearUserData_effect false s0) as (s2 & Hrun2 & Hnull & _).
      rewrite Hclear in Hrun2. injection Hrun2 as <-. now left.
    + destruct Hsame as (_ & -> & _). exact Hs.
    + right. eexists. reflexivity.
Qed.

Lemma keeps_saveUserData (data : value) : keeps_the_cache (saveUserData data).
Proof.
  intros s Hs. destruct (_validateUserData data) eqn:Hv.
  - destruct (saveUserData_valid data s Hv) as (c & s1 & s' & _ & -> & Hc & _).
    right. eexists. exact Hc.
  - destruct (saveUserData_invalid data s Hv) as (s' & -> & Hc & _).
    unfold cache_holds_a_record. cbn [snd]. now rewrite Hc.
Qed.

Lemma keeps_clearUserData (clearSettings : bool) : keeps_the_cache (clearUserData clearSettings).
Proof.
  intros s _. destruct (clearUserData_effect clearSettings s) as (s' & -> & Hc & _). now left.
Qed.

Lemma keeps_updateSettings (settings : value) : keeps_the_cache (updateSettings settings).
Proof.
  intros s Hs. destruct (updateSettings_effect settings s Hs) as (s' & -> & _ & Hc & _).
  unfold cache_holds_a_record. cbn [snd]. rewrite Hc.
  destruct Hs as [-> | (fields & ->)]; [now left | right; eexists; reflexivity].
Qed.

Lemma keeps__saveToStorage (key : string) (v : value) : keeps_the_cache (_saveToStorage key v).
Proof. apply keeps_bind; [now apply keeps_modify | intros; apply keeps_ret]. Qed.

Lemma keeps_window_dispatchEvent (type : string) (detail : value) :
  keeps_the_cache (window_dispatchEvent type detail).
Proof. now apply keeps_modify. Qed.

Lemma keeps__showNotification (message type : string) :
  keeps_the_cache (_showNotification message type).
Proof.
  unfold _showNotification. apply keeps_if; [apply keeps_ret|].
  apply keeps_bind; [apply keeps__triggerEvent | intros; apply keeps_window_dispatchEvent].
Qed.

Lemma keeps_updateUserPlan (planId details : value) :
  keeps_the_cache (updateUserPlan planId details).
Proof.
  unfold updateUserPlan. apply keeps_try_catch.
  - apply keeps_bind; [apply keeps_if; [apply keeps_throw | apply keeps_ret]|]. intros _.
    apply keeps_bind; [apply keeps_getUserData|]. intros currentUser.
    apply keeps_bind; [apply keeps_if; [apply keeps_throw | apply keeps_ret]|]. intros _.
    apply keeps_bind; [apply keeps_gets|]. intros now.
    apply keeps_bind; [apply keeps__saveToStorage|]. intros _.
    apply keeps_bind; [apply keeps_saveUserData|]. intros _.
    apply keeps_bind; [apply keeps__triggerEvent|]. intros _.
    apply keeps_bind; [apply keeps_if; [apply keeps__showNotification | apply keeps_ret]|].
    intros _. apply keeps_ret.
  - intros e. apply keeps_bind; [apply keeps_log | intros; apply keeps_ret].
Qed.

Lemma keeps_importUserData (data : value) : keeps_the_cache (importUserData data).
Proof.
  unfold importUserData. apply keeps_try_catch.
  - apply keeps_bind; [apply keeps_if; [apply keeps_throw | apply keeps_ret]|]. intros _.
    apply keeps_bind.
    { apply keeps_if; [|apply keeps_ret].
      apply keeps_bind; [apply keeps_saveUserData | intros; apply keeps_ret]. }
    intros _. apply keeps_bind.
    { apply keeps_if; [|apply keeps_ret].
      apply keeps_bind; [apply keeps_updateSettings | intros; apply keeps_ret]. }
    intros _. apply keeps_bind; [apply keeps__triggerEvent | intros; apply keeps_ret].
  - intros e. apply keeps_bind; [apply keeps_log | intros; apply keeps_ret].
Qed.

Lemma keeps_set_null : keeps_the_cache (modify (set_currentUser VNull)).
Proof. intros s _. now left. Qed.

Lemma keeps__handleStorageChange (key : string) (newValue : value) :
  keeps_the_cache (_handleStorageChange key newValue).
Proof.
  unfold _handleStorageChange. repeat apply keeps_if.
  - apply keeps_bind; [apply keeps_set_null | intros; apply keeps__triggerEvent].
  - apply keeps_bind; [apply keeps_set_null|]. intros _.
    apply keeps_bind; [apply keeps_getUserData|]. intros _.
    apply keeps_bind; [apply keeps_gets | intros; apply keeps__triggerEvent].
  - apply keeps_bind; [apply keeps_getUserData | intros; apply keeps__triggerEvent].
  - apply keeps_ret.
Qed.

Lemma keeps__syncWithServer : keeps_the_cache _syncWithServer.
Proof.
  intros s Hs. unfold _syncWithServer. unfold bind at 1.
  assert (Hget := keeps_getUserData false s Hs).
  destruct (getUserData_spec false s) as (v & s1 & Hrun & _ & _ & Hres).
  rewrite Hrun in *. cbn [snd] in Hget.
  destruct Hres as [[-> _] | [Ht Hc]].
  - exact Hget.
  - rewrite Ht. unfold bind at 1, gets at 1. unfold bind at 1, lift at 1.
    destruct Hget as [Hnull | (fields & Hf)].
    + rewrite Hc in Hnull. subst v. discriminate.
    + rewrite Hc in Hf. subst v. cbn [assign_prop]. unfold bind, modify.
      match goal with
      | |- context [log ?l ?m ?st] =>
          destruct (log_spec l m st) as (s2 & -> & (c & i & d & ->))
      end.
      right. eexists. reflexivity.
Qed.

Lemma keeps_sync_tick : keeps_the_cache sync_tick.
Proof.
  unfold sync_tick. apply keeps_bind.
  - unfold isLoggedIn. apply keeps_bind; [apply keeps_getUserData | intros; apply keeps_ret].
  - intros loggedIn. apply keeps_if; [apply keeps__syncWithServer | apply keeps_ret].
Qed.

Lemma keeps_replay (queue : list value) : keeps_the_cache (replay queue).
Proof.
  induction queue as [|item rest IH]; [apply keeps_ret|].
  cbn [replay]. apply keeps_bind; [|intros; exact IH].
  apply keeps_try_catch.
  - apply keeps_bind; [apply keeps_lift|]. intros action. apply keeps_if; [|apply keeps_ret].
    apply keeps_bind; [apply keeps_lift|]. intros data.
    apply keeps_bind; [apply keeps_saveUserData | intros; apply keeps_ret].
  - intros e. now apply keeps_modify.
Qed.

Lemma keeps__processOfflineQueue (onLine : bool) : keeps_the_cache (_processOfflineQueue onLine).
Proof.
  unfold _processOfflineQueue. apply keeps_bind; [apply keeps_gets|]. intros queue.
  apply keeps_if; [apply keeps_ret|].
  apply keeps_bind; [apply keeps_log|]. intros _.
  apply keeps_bind; [now apply keeps_modify|]. intros _.
  apply keeps_bind; [apply keeps_replay|]. intros _.
  apply keeps_bind; [apply keeps_gets|]. intros remaining.
  apply keeps_if; now apply keeps_modify.
Qed.

(** X23.  The cached user is null or an object at the start and after each
    of getUserData, saveUserData, updateUserPlan, clearUserData,
    updateSettings, importUserData, a storage event, a tick of the sync
    timer and _processOfflineQueue, whatever their arguments; so the
    assignments to currentUser.settings and to lastSync never meet a
    primitive value. *)
Theorem the_cache_always_holds_a_record :
  (forall now, cache_holds_a_record (initial_state now)) /\
  (forall s, cache_holds_a_record s ->
     (forall forceRefresh, cache_holds_a_record (snd (getUserData forceRefresh s))) /\
     (forall data, cache_holds_a_record (snd (saveUserData data s))) /\
     (forall planId details, cache_holds_a_record (snd (updateUserPlan planId details s))) /\
     (forall clearSettings, cache_holds_a_record (snd (clearUserData clearSettings s))) /\
     (forall settings, cache_holds_a_record (snd (updateSettings settings s))) /\
     (forall data, cache_holds_a_record (snd (importUserData data s))) /\
     (forall key newValue, cache_holds_a_record (snd (_handleStorageChange key newValue s))) /\
     cache_holds_a_record (snd (sync_tick s)) /\
     (forall onLine, cache_holds_a_record (snd (_processOfflineQueue onLine s)))).
Proof.
  split; [intros now; now left|].
  intros s Hs. repeat apply conj; intros.
  - now apply keeps_getUserData.
  - now apply keeps_saveUserData.
  - now apply keeps_updateUserPlan.
  - now apply keeps_clearUserData.
  - now apply keeps_updateSettings.
  - now apply keeps_importUserData.
  - now apply keeps__handleStorageChange.
  - now apply keeps_sync_tick.
  - now apply keeps__processOfflineQueue.
Qed.

(** X24.  A tick of the sync timer with a record in the cache only sets
    lastSync on the cached record to the current time: storage, window
    events, listener calls, messages to other tabs and the offline queue
    are unchanged. With an empty cache and no stored record it changes
    no data. *)
Theorem sync_tick_stamps_only_the_cache (s : State) :
  (forall fields,
     currentUser s = VObj fields ->
     exists s',
       sync_tick s = (Ret tt, s') /\
       currentUser s'
         = VObj (obj_set fields "lastSync" (VStr (Date_toISOString (clock s)))) /\
       localStorage s' = localStorage s /\
       dispatched s' = dispatched s /\ invoked s' = invoked s /\ posted s' = posted s /\
       offlineQueue s' = offlineQueue s) /\
  (truthy (currentUser s) = false -> localStorage s !! user_key = None ->
     exists s', sync_tick s = (Ret tt, s') /\ same_data s s').
Proof.
  split.
  - intros fields Hc.
    assert (Ht : truthy (currentUser s) = true) by now rewrite Hc.
    unfold sync_tick, isLoggedIn, _syncWithServer.
    unfold bind at 1. unfold bind at 1. rewrite (getUserData_cached s Ht). unfold ret at 1.
    rewrite Hc. cbn [negb].
    unfold bind at 1. rewrite (getUserData_cached s Ht). rewrite Hc. cbn [truthy].
    unfold bind at 1, gets at 1. unfold bind at 1, lift at 1. cbn [assign_prop].
    unfold bind, modify. change (truthy (VObj fields)) with true. cbv beta iota.
    eexists. split; [reflexivity|]. cbn. repeat split.
  - intros Hc Hnone.
    unfold sync_tick, isLoggedIn. unfold bind at 1. unfold bind at 1.
    destruct (getUserData_absent false s (or_intror Hc) Hnone) as (s1 & -> & Hsame).
    unfold ret. cbn. now exists s1.
Qed.

End Cache.

(** ** Exceptions *)

Section Exceptions.
Context {H : Host}.







End Exceptions.

(** * Examples on the UTC host *)

(** ** The model at work *)

Example iso_text_of_the_example_time :
  utc.toISOString example.now = "2023-11-14T22:13:20.000Z" /\
  utc.parse "2020-01-01T00:00:00.000Z" = Some 1577836800000 /\
  utc.toISOString (utc.plusYears 951782400000 100) = "2100-03-01T00:00:00.000Z".
Proof. repeat apply conj; vm_compute; reflexivity. Qed.

Example email_shapes :
  map email_regex_test ["ada@example.com"; "bad-email"; "a@b"; "a@b."; "a b@c.d"; "a@b@c.d"]
    = [true; false; false; false; false; false].
Proof. vm_compute. reflexivity. Qed.

Example hash_of_an_email :
  string_hash "ada@example.com" = 519408219 /\
  palette_index _getDefaultAvatar_colors "ada@example.com" = 9.
Proof. split; vm_compute; reflexivity. Qed.

(** The record read from storage after Ada signed up on the pro plan. *)
Example reloaded_record :
  let u := currentUser example.reloaded in
  get_prop_opt u "plan" = VStr "Pro Plan" /\
  get_prop_opt (get_prop_opt u "permissions") "canUseAPI" = VBool true /\
  get_prop_opt (get_prop_opt u "subscription") "status" = VStr "inactive".
Proof. repeat apply conj; vm_compute; reflexivity. Qed.


(** ** C1 *)

Lemma getUserData_returns_cached_expired_record :
  localStorage example.expired_cached !! user_key = Some (TJson example.expired_record) /\
  new_Date (H := utc_host) (get_prop_opt example.expired_record "sessionExpiry")
    = Some 1577836800000 /\
  1577836800000 < clock example.expired_cached /\
  fst (getUserData (H := utc_host) false example.expired_cached) = Ret example.expired_record /\
  localStorage (snd (getUserData (H := utc_host) false example.expired_cached)) !! user_key
    = Some (TJson example.expired_record).
Proof. repeat apply conj; vm_compute; reflexivity. Qed.

(** A tab that stays open keeps serving the record after its session has
    ended; a forced refresh then finds it expired. *)
Example cached_record_outlives_its_session :
  new_Date (H := utc_host)
    (get_prop_opt (stored example.two_days_later config.storage.userDataKey) "sessionExpiry")
    = Some 1700086400000 /\
  clock example.two_days_later = 1700172800000 /\
  get_prop_opt (currentUser example.two_days_later) "email" = VStr "ada@example.com" /\
  fst (getUserData (H := utc_host) false example.two_days_later)
    = Ret (currentUser example.two_days_later) /\
  fst (getUserData (H := utc_host) true example.two_days_later) = Ret VNull.
Proof. repeat apply conj; vm_compute; reflexivity. Qed.

Lemma getUserData_expired_session_witness :
  fst (getUserData (H := utc_host) false example.expired_stored) = Ret VNull /\
  localStorage (snd (getUserData (H := utc_host) false example.expired_stored)) !! user_key
    = None.
Proof.
  destruct (getUserData_expired_session (H := utc_host) example.expired_stored false
              example.expired_record (VStr "2020-01-01T00:00:00.000Z") 1577836800000)
    as [Hread _]; try (vm_compute; reflexivity).
  destruct (Hread (or_intror eq_refl)) as (Hr & Hu & _). exact (conj Hr Hu).
Defined.

(** ** C2 *)
Lemma first_save_is_served_without_enrichment :
  let patch := VObj [ ("name", VStr "Ada Lovelace"); ("email", VStr "ada@example.com");
                      ("lastModified", VStr "2001-01-01T00:00:00.000Z") ] in
  let saved := saveUserData (H := utc_host) patch (initial_state example.now) in
  fst saved = Ret true /\
  exists record,
    fst (getUserData (H := utc_host) false (snd saved)) = Ret (VObj record) /\
    own_get record "usage" = None /\
    own_get record "permissions" = None /\
    own_get record "subscription" = None /\
    own_get record "lastModified" = Some (VStr "2023-11-14T22:13:20.000Z").
Proof.
  cbv zeta. split; [vm_compute; reflexivity|]. eexists. split; [vm_compute; reflexivity|].
  repeat apply conj; reflexivity.
Qed.

Lemma getUserData_after_saveUserData_witness :
  exists record,
    getUserData (H := utc_host) false example.signed_up = (Ret (VObj record), example.signed_up) /\
    own_get record "email" = Some (VStr "ada@example.com").
Proof.
  destruct (getUserData_after_saveUserData (H := utc_host) (initial_state example.now) example.ada)
    as ((record & Hget & Hfields & _) & _).
  - vm_compute. reflexivity.
  - repeat constructor; simpl; intuition discriminate.
  - exists record. split; [exact Hget|]. apply Hfields; [|discriminate].
    right. left. reflexivity.
Defined.



(** ** C4 *)
Lemma saveUserData_accepts_empty_email :
  email_regex_test "" = false /\
  fst (saveUserData (H := utc_host) (VObj [("email", VStr "")]) (initial_state example.now))
    = Ret true /\
  localStorage (initial_state example.now) !! user_key = None /\
  localStorage (snd (saveUserData (H := utc_host) (VObj [("email", VStr "")])
                                  (initial_state example.now))) !! user_key
    = Some (TJson (VObj [("email", VStr "");
                         ("lastModified", VStr "2023-11-14T22:13:20.000Z")])).
Proof. repeat apply conj; vm_compute; reflexivity. Qed.

Lemma saveUserData_rejects_invalid_patch_witness :
  fst (saveUserData (H := utc_host) (VObj [("email", VStr "bad-email")]) example.signed_up)
    = Ret false /\
  localStorage (snd (saveUserData (H := utc_host) (VObj [("email", VStr "bad-email")])
                                  example.signed_up)) !! user_key
    = localStorage example.signed_up !! user_key.
Proof.
  destruct (saveUserData_rejects_invalid_patch (H := utc_host)) as [Hsave Hemail].
  destruct (Hsave example.signed_up (VObj [("email", VStr "bad-email")])) as (Hr & Hu & _).
  - apply (Hemail _ (VStr "bad-email")); vm_compute; reflexivity.
  - exact (conj Hr Hu).
Defined.

(** ** C5 *)
Lemma updateUserPlan_details_override_status :
  fst (updateUserPlan (H := utc_host) (VStr "pro") (VObj [("status", VStr "trialing")])
                      example.signed_up) = Ret true /\
  localStorage (snd (updateUserPlan (H := utc_host) (VStr "pro")
                                    (VObj [("status", VStr "trialing")])
                                    example.signed_up)) !! subscription_key
    = Some (TJson (VObj [ ("planId", VStr "pro"); ("planName", VStr "Pro Plan");
                          ("startDate", VStr "2023-11-14T22:13:20.000Z");
                          ("endDate", VStr "2023-12-14T22:13:20.000Z");
                          ("status", VStr "trialing"); ("autoRenew", VBool true);
                          ("paymentMethod", VStr "unknown"); ("amount", VInt 99);
                          ("currency", VStr "USD") ])).
Proof. split; vm_compute; reflexivity. Qed.

(** After the record has been read from storage, the cached record carries
    a subscription, and [saveUserData] writes that one over the
    Subscription that [updateUserPlan] has just stored. *)
Example updateUserPlan_new_subscription_overwritten :
  fst (updateUserPlan (H := utc_host) (VStr "enterprise") VNull example.reloaded) = Ret true /\
  localStorage (snd (updateUserPlan (H := utc_host) (VStr "enterprise") VNull
                                    example.reloaded)) !! subscription_key
    = Some (TJson (VObj [ ("status", VStr "inactive"); ("planId", VStr "free");
                          ("planName", VStr "Free Plan") ])).
Proof. split; vm_compute; reflexivity. Qed.

(** The name of a member that the plan table inherits passes for a plan. *)
Example updateUserPlan_accepts_inherited_name :
  ~ In "constructor" planHierarchy /\
  fst (updateUserPlan (H := utc_host) (VStr "constructor") VNull example.signed_up) = Ret true.
Proof. split; [cbn; intuition discriminate | vm_compute; reflexivity]. Qed.

Lemma updateUserPlan_builds_subscription_witness :
  fst (updateUserPlan (H := utc_host) (VStr "pro") VNull example.signed_up) = Ret true /\
  In ("emiralai:planChanged",
      VObj [ ("oldPlan", VStr "pro"); ("newPlan", VStr "pro");
             ("subscription",
              VObj [ ("planId", VStr "pro"); ("planName", VStr "Pro Plan");
                     ("startDate", VStr "2023-11-14T22:13:20.000Z");
                     ("endDate", VStr "2023-12-14T22:13:20.000Z");
                     ("status", VStr "active"); ("autoRenew", VBool true);
                     ("paymentMethod", VStr "unknown"); ("amount", VInt 99);
                     ("currency", VStr "USD") ]) ])
     (dispatched (snd (updateUserPlan (H := utc_host) (VStr "pro") VNull example.signed_up))).
Proof.
  destruct (updateUserPlan_builds_subscription (H := utc_host) example.signed_up (VStr "pro") None
              (currentUser example.signed_up)) as (Hok & _).
  - constructor.
  - vm_compute. reflexivity.
  - destruct Hok as (sub & Hsub & _ & _ & _ & _ & Hr & _ & Hev & _);
      [vm_compute; reflexivity | vm_compute; reflexivity |].
    split; [exact Hr|].
    vm_compute in Hsub. injection Hsub as <-. exact Hev.
Defined.

(** ** C6 *)
Lemma hasPlan_follows_plan_order_witness :
  fst (hasPlan (H := utc_host) (VStr "pro") example.on_enterprise) = Ret true /\
  fst (hasPlan (H := utc_host) (VStr "enterprise") example.signed_up) = Ret false.
Proof.
  split.
  - destruct (hasPlan_follows_plan_order (H := utc_host) example.on_enterprise (VStr "pro")
                (currentUser example.on_enterprise)) as (_ & Huser & _);
      [vm_compute; reflexivity|].
    destruct Huser as (_ & Hent & _); [vm_compute; reflexivity|].
    apply Hent. vm_compute. reflexivity.
  - destruct (hasPlan_follows_plan_order (H := utc_host) example.signed_up (VStr "enterprise")
                (currentUser example.signed_up)) as (_ & Huser & _);
      [vm_compute; reflexivity|].
    destruct Huser as (Hcmp & _); [vm_compute; reflexivity|]. exact Hcmp.
Defined.

(** ** C10 *)
(** A user who signed up without a plan is logged in and has position -1:
    the free plan is refused.  So has a user whose stored record names a
    plan that the table does not have. *)
Lemma a_logged_in_user_below_the_free_plan :
  let signed_up :=
    snd (saveUserData (H := utc_host) example.one_day_patch (initial_state example.now)) in
  let stored :=
    mkState example.now 0
      {[ user_key := TJson (VObj [ ("name", VStr "Ada Lovelace");
                                   ("email", VStr "ada@example.com");
                                   ("planId", VStr "gold") ]) ]}
      VNull ∅ None [] [] [] [] [] in
  let loaded := snd (getUserData (H := utc_host) true stored) in
  fst (isLoggedIn (H := utc_host) signed_up) = Ret true /\
  indexOf planHierarchy (get_prop_opt (currentUser signed_up) "planId") = -1 /\
  fst (hasPlan (H := utc_host) (VStr "free") signed_up) = Ret false /\
  fst (isLoggedIn (H := utc_host) loaded) = Ret true /\
  get_prop_opt (currentUser loaded) "planId" = VStr "gold" /\
  indexOf planHierarchy (get_prop_opt (currentUser loaded) "planId") = -1 /\
  fst (hasPlan (H := utc_host) (VStr "free") loaded) = Ret false.
Proof. cbv zeta. repeat apply conj; vm_compute; reflexivity. Qed.

Lemma hasPlan_unknown_plan_is_true_witness :
  let signed_up :=
    snd (saveUserData (H := utc_host) example.one_day_patch (initial_state example.now)) in
  fst (hasPlan (H := utc_host) (VStr "platinum") example.signed_up) = Ret true /\
  fst (hasPlan (H := utc_host) (VStr "platinum") signed_up) = Ret true /\
  fst (hasPlan (H := utc_host) (VStr "free") signed_up) = Ret false.
Proof.
  cbv zeta. split; [|split].
  - destruct (hasPlan_unknown_plan_is_true (H := utc_host) example.signed_up "platinum"
                (currentUser example.signed_up)) as (_ & _ & Hr & _).
    + cbn. intuition discriminate.
    + vm_compute. reflexivity.
    + vm_compute. reflexivity.
    + exact Hr.
  - destruct (hasPlan_unknown_plan_is_true (H := utc_host)
                (snd (saveUserData (H := utc_host) example.one_day_patch
                        (initial_state example.now)))
                "platinum"
                (VObj [ ("name", VStr "Ada Lovelace"); ("email", VStr "ada@example.com");
                        ("sessionExpiry", VStr "2023-11-15T22:13:20.000Z");
                        ("lastModified", VStr "2023-11-14T22:13:20.000Z") ]))
      as (_ & _ & Hr & _).
    + cbn. intuition discriminate.
    + vm_compute. reflexivity.
    + vm_compute. reflexivity.
    + exact Hr.
  - destruct (hasPlan_unknown_plan_is_true (H := utc_host)
                (snd (saveUserData (H := utc_host) example.one_day_patch
                        (initial_state example.now)))
                "platinum"
                (VObj [ ("name", VStr "Ada Lovelace"); ("email", VStr "ada@example.com");
                        ("sessionExpiry", VStr "2023-11-15T22:13:20.000Z");
                        ("lastModified", VStr "2023-11-14T22:13:20.000Z") ]))
      as (_ & _ & _ & Hfree).
    + cbn. intuition discriminate.
    + vm_compute. reflexivity.
    + vm_compute. reflexivity.
    + apply Hfree; [vm_compute; reflexivity | cbn; auto].
Defined.

(** ** C7 *)
Lemma opposite_hashes_share_a_colour :
  string_hash "ada@example.com" = 519408219 /\
  string_hash "ada@mail.com" = -1276717524 /\
  string_hash "ada@example.com" mod 15 = 9 /\
  string_hash "ada@mail.com" mod 15 = 6 /\
  Z.rem (string_hash "ada@mail.com") 15 = -9 /\
  background_color _getDefaultAvatar_colors "ada@example.com" = "#52C41A" /\
  background_color _getDefaultAvatar_colors "ada@mail.com" = "#52C41A" /\
  _getDefaultAvatar (H := utc_host) (VObj [("email", VStr "ada@example.com")])
    = _getDefaultAvatar (H := utc_host) (VObj [("email", VStr "ada@mail.com")]).
Proof. repeat apply conj; vm_compute; reflexivity. Qed.

Lemma avatar_is_deterministic_witness :
  _getDefaultAvatar (H := utc_host) example.ada
    = _getDefaultAvatar (H := utc_host)
        (VObj [("email", VStr "ada@example.com"); ("name", VStr "Ada Lovelace")]) /\
  background_color _getDefaultAvatar_colors "ada@example.com"
    <> background_color _getDefaultAvatar_colors "grace@example.com".
Proof.
  destruct (avatar_is_deterministic (H := utc_host)) as (Hsame & _ & Hcolors).
  split.
  - apply Hsame; vm_compute; reflexivity.
  - destruct (Hcolors "ada@example.com" "grace@example.com") as [Hauth _].
    apply Hauth. vm_compute. discriminate.
Defined.

(** ** C8 *)
Lemma emit_calls_listeners_in_registration_order_witness :
  let registered :=
    snd (on_all "dataUpdated"
           [example.failing_listener; example.quiet_listener; example.failing_listener]
           (initial_state example.now)) in
  invoked (snd (_triggerEvent "dataUpdated" (VStr "payload") registered))
    = [(1%nat, VStr "payload"); (2%nat, VStr "payload")].
Proof.
  destruct (emit_calls_listeners_in_registration_order "dataUpdated"
              (VStr "payload")
              [example.failing_listener; example.quiet_listener; example.failing_listener]
              (initial_state example.now)) as (_ & Hcalls & _).
  - vm_compute. reflexivity.
  - exact Hcalls.
Defined.



(** * Further examples on the UTC host *)

(** ** The model at work, further *)

(** A source key named like a member of [Object.prototype] is merged with
    the inherited function: the nested object is lost. *)
Example _deepMerge_on_an_inherited_name :
  _deepMerge (VObj []) (VObj [ ("constructor", VObj [ ("name", VStr "Ada") ]) ])
    = Some (VObj [ ("constructor", VObj []) ]).
Proof. vm_compute. reflexivity. Qed.

(** The key [__proto__]: a string under it is dropped, from the source
    and from the target, and an object under it becomes the prototype of
    the result. *)
Example _deepMerge_under_the_key___proto__ :
  _deepMerge (VObj [("a", VInt 1)]) (VObj [ ("__proto__", VStr "x"); ("b", VInt 2) ])
    = Some (VObj [ ("a", VInt 1); ("b", VInt 2) ]) /\
  _deepMerge (VObj [("a", VInt 1)]) (VObj [ ("__proto__", VObj [("b", VInt 2)]) ]) = None /\
  _deepMerge (VObj [ ("__proto__", VStr "x"); ("a", VInt 1) ]) (VObj [("b", VInt 2)])
    = Some (VObj [ ("a", VInt 1); ("b", VInt 2) ]) /\
  _deepMerge (VObj [ ("__proto__", VObj [("a", VInt 1)]) ]) (VObj [("b", VInt 2)]) = None.
Proof. repeat apply conj; vm_compute; reflexivity. Qed.

(** A value that converts to no primitive value makes [formatNumber] and
    [formatBytes] throw; a number, and an object that inherits its
    [toString], are formatted. *)
Example formatNumber_of_an_object :
  forall format text : value -> string,
    formatNumber (H := utc_host) format (VObj [("toString", VInt 1)])
      = Throw "TypeError: Cannot convert object to primitive value" /\
    formatBytes (H := utc_host) text (VObj [("toString", VInt 1)])
      = Throw "TypeError: Cannot convert object to primitive value" /\
    formatNumber (H := utc_host) format (VObj []) = Ret (VStr (format (VStr "[object Object]"))) /\
    formatNumber (H := utc_host) format (VInt 1200) = Ret (VStr (format (VInt 1200))) /\
    formatBytes (H := utc_host) text (VInt 0) = Ret (VStr "0 Bytes").
Proof. intros format text. repeat apply conj; reflexivity. Qed.

(** A record stored with an expiry of one day: after one load and one
    save the stored record has no expiry, and two days later a refresh
    still finds the session valid. *)
Example session_outlives_its_expiry_after_a_save :
  let loaded := snd (getUserData (H := utc_host) true scenario.logged_in_for_a_day) in
  let saved := snd (saveUserData (H := utc_host) (VObj [("name", VStr "Ada")]) loaded) in
  let later := set_clock (example.now + 2 * day_ms) saved in
  get_prop_opt (stored saved config.storage.userDataKey) "sessionExpiry" = VUndef /\
  fst (isLoggedIn (H := utc_host) (snd (getUserData (H := utc_host) true later))) = Ret true /\
  get_prop_opt (currentUser (snd (getUserData (H := utc_host) true later))) "name"
    = VStr "Ada".
Proof. repeat apply conj; vm_compute; reflexivity. Qed.

(** ** X2 *)
Lemma _getPermissions_grow_with_the_plan_witness :
  get_prop_opt (_getPermissions (VStr "pro")) "canUseAPI" = VBool true /\
  get_prop_opt (_getPermissions (VStr "basic")) "showUpgradePrompts" = VBool true.
Proof.
  destruct (_getPermissions_grow_with_the_plan (VStr "basic") (VStr "pro") "canUseAPI")
    as (Hup & _); [vm_compute; discriminate|].
  destruct (_getPermissions_grow_with_the_plan (VStr "basic") (VStr "pro") "showUpgradePrompts")
    as (_ & Hdown & _); [vm_compute; discriminate|].
  split.
  - apply Hup; [cbn; auto | vm_compute; reflexivity].
  - apply Hdown; [cbn; auto | vm_compute; reflexivity].
Defined.

(** ** X6 *)
Lemma blank_name_cannot_be_loaded_witness :
  localStorage scenario.blank_stored !! user_key = Some (TJson scenario.blank_record) /\
  fst (getUserData (H := utc_host) true scenario.blank_stored) = Ret VNull.
Proof.
  split; [vm_compute; reflexivity|].
  destruct (blank_name_cannot_be_loaded (H := utc_host) scenario.blank_stored true " ")
    as (_ & _ & Hnull & _).
  - now left.
  - vm_compute. reflexivity.
  - discriminate.
  - vm_compute. reflexivity.
  - vm_compute. reflexivity.
  - exact Hnull.
Defined.

(** ** X8 *)
Lemma getUserData_builds_the_record_from_storage_witness :
  exists fields,
    currentUser example.reloaded = VObj fields /\
    map fst fields = loaded_keys /\
    own_get fields "planId" = Some (VStr "pro").
Proof.
  destruct (getUserData_builds_the_record_from_storage (H := utc_host) example.signed_up true
              (currentUser example.reloaded))
    as (fields & Hu & Hkeys & _ & _ & Hplan & _).
  - now left.
  - vm_compute. reflexivity.
  - vm_compute. discriminate.
  - exists fields. split; [exact Hu|]. split; [exact Hkeys|]. rewrite Hplan.
    vm_compute. reflexivity.
Defined.

(** ** X9 *)
Lemma hasAccess_is_a_plan_gate_witness :
  fst (hasAccess (H := utc_host) (VStr "canUseWhiteLabel") example.reloaded) = Ret true /\
  fst (hasAccess (H := utc_host) (VStr "hasUnlimitedAPI") example.reloaded) = Ret false.
Proof.
  split.
  - destruct (hasAccess_is_a_plan_gate (H := utc_host) example.signed_up true
                (currentUser example.reloaded) "canUseWhiteLabel" "pro") as (Ha & Hp).
    + now left.
    + vm_compute. reflexivity.
    + vm_compute. discriminate.
    + cbn. auto 10.
    + change (snd (getUserData true example.signed_up)) with example.reloaded in Ha, Hp.
      rewrite Ha, Hp. vm_compute. reflexivity.
  - destruct (hasAccess_is_a_plan_gate (H := utc_host) example.signed_up true
                (currentUser example.reloaded) "hasUnlimitedAPI" "enterprise") as (Ha & Hp).
    + now left.
    + vm_compute. reflexivity.
    + vm_compute. discriminate.
    + cbn. auto 20.
    + change (snd (getUserData true example.signed_up)) with example.reloaded in Ha, Hp.
      rewrite Ha, Hp. vm_compute. reflexivity.
Defined.

(** ** X10 *)
Lemma saveUserData_after_a_load_drops_the_session_expiry_witness :
  get_prop_opt (stored scenario.logged_in_for_a_day config.storage.userDataKey) "sessionExpiry"
    = VStr "2023-11-15T22:13:20.000Z" /\
  exists record,
    localStorage
      (snd (saveUserData (H := utc_host) (VObj [("name", VStr "Ada")])
              (snd (getUserData (H := utc_host) true scenario.logged_in_for_a_day))))
      !! user_key = Some (TJson (VObj record)) /\
    own_get record "sessionExpiry" = None /\
    forall now, _isSessionValid (H := utc_host) now (VObj record) = true.
Proof.
  split; [vm_compute; reflexivity|].
  apply (saveUserData_after_a_load_drops_the_session_expiry (H := utc_host)
           scenario.logged_in_for_a_day
           (currentUser (snd (getUserData (H := utc_host) true scenario.logged_in_for_a_day)))
           (VObj [("name", VStr "Ada")])).
  - vm_compute. reflexivity.
  - vm_compute. discriminate.
  - vm_compute. reflexivity.
  - repeat constructor; simpl; intuition discriminate.
  - reflexivity.
Defined.

(** ** X14 *)
Lemma updateSettings_merges_into_the_stored_settings_witness :
  fst (updateSettings (H := utc_host) (VObj [("theme", VStr "dark")]) example.reloaded)
    = Ret true /\
  exists updated,
    localStorage (snd (updateSettings (H := utc_host) (VObj [("theme", VStr "dark")])
                                      example.reloaded)) !! settings_key
      = Some (JSON_stringify (VObj updated)) /\
    own_get updated "theme" = Some (VStr "dark").
Proof.
  destruct (updateSettings_merges_into_the_stored_settings (H := utc_host)
              (VObj [("theme", VStr "dark")]) example.reloaded)
    as (Hret & updated & Hstored & Hnew & _).
  - right. eexists. vm_compute. reflexivity.
  - repeat constructor; simpl; intuition discriminate.
  - split; [exact Hret|]. exists updated. split; [exact Hstored|].
    apply Hnew; [reflexivity | discriminate].
Defined.

(** ** X15 *)
Lemma _addToActivityLog_keeps_the_last_100_witness :
  activity_log (snd (_addToActivityLog (VStr "login") (initial_state example.now)))
    = Some [VStr "login"].
Proof.
  destruct (_addToActivityLog_keeps_the_last_100 (VStr "login")
              (initial_state example.now) []) as (_ & Hlog & _).
  - vm_compute. reflexivity.
  - exact Hlog.
Defined.

(** ** X16 *)
Lemma trackActivity_logs_the_activity_under_one_session_id_witness :
  fst (trackActivity (H := utc_host) (VStr "login") VUndef scenario.fresh_page) = Ret tt /\
  exists sessionId,
    sessionId <> "" /\
    sessionStorage (snd (trackActivity (H := utc_host) (VStr "login") VUndef
                                       scenario.fresh_page)) !! session_id_key
      = Some sessionId.
Proof.
  destruct (trackActivity_logs_the_activity_under_one_session_id (H := utc_host)
              (VStr "login") VUndef scenario.fresh_page [])
    as (Hret & sessionId & Hne & Hid & _).
  - vm_compute. reflexivity.
  - split; [exact Hret|]. now exists sessionId.
Defined.


(** ** X19 *)
Lemma _processOfflineQueue_keeps_the_rejected_patches_witness :
  offlineQueue (snd (_processOfflineQueue (H := utc_host) true scenario.offline))
    = [ queued_save scenario.bad_patch "2023-11-14T22:13:20.000Z" ].
Proof.
  destruct (_processOfflineQueue_keeps_the_rejected_patches (H := utc_host) scenario.offline
              [ (scenario.bad_patch, "2023-11-14T22:00:00.000Z") ]) as (_ & Hqueue & _).
  - reflexivity.
  - repeat constructor.
  - exact Hqueue.
Defined.

(** ** X20 *)
Lemma operations_write_only_their_own_keys_witness :
  localStorage (snd (saveUserData (H := utc_host) (VObj [("name", VStr "Ada")])
                                  example.reloaded)) !! activity_log_key
    = localStorage example.reloaded !! activity_log_key /\
  localStorage (snd (clearUserData (H := utc_host) true example.reloaded)) !! activity_log_key
    = localStorage example.reloaded !! activity_log_key.
Proof.
  destruct (operations_write_only_their_own_keys (H := utc_host) example.reloaded
              activity_log_key) as (_ & Hsave & _ & Hclear & _).
  - intros [Hin | Hprefix].
    + cbn in Hin. intuition discriminate.
    + vm_compute in Hprefix. discriminate.
  - split; [apply Hsave | apply Hclear].
Defined.

(** ** X22 *)
Lemma _deepMerge_takes_the_source_key_by_key_witness :
  exists output,
    _deepMerge (VObj scenario.stored_settings) (VObj scenario.settings_patch)
      = Some (VObj output) /\
    own_get output "lang" = Some (VStr "en") /\
    own_get output "theme" = Some (VObj [ ("mode", VStr "light"); ("size", VInt 12) ]).
Proof.
  destruct (_deepMerge_takes_the_source_key_by_key scenario.stored_settings
              scenario.settings_patch) as (output & Hrun & Hkept & _ & _ & Hmerged & _).
  - repeat constructor; simpl; intuition discriminate.
  - reflexivity.
  - reflexivity.
  - exists output. split; [exact Hrun|]. split.
    + now rewrite Hkept.
    + destruct (Hmerged "theme" (VObj [ ("mode", VStr "light") ]))
        as (merged & Hm & ->); try reflexivity.
      vm_compute in Hm. now injection Hm as <-.
Defined.
